(** * InitHelper: the session bootstrap of the web push SDK

    A shallow embedding of [src/helpers/InitHelper.ts].  The asynchronous
    static methods of [InitHelper] become programs of a small resumption
    monad [Prog] over an explicit [World] (the mutable [OneSignal] globals,
    the key/value database, the document and messenger listeners and the
    history of observable actions).  The collaborators that live outside
    this file of the SDK are described by environment records that give,
    for each call, how its promise settles. *)

From Stdlib Require Import QArith.
From stdpp Require Import base option list gmap strings.

Local Open Scope string_scope.

(** ** Errors and outcomes *)

(** The error classes that [sessionInit] tells apart with [instanceof].
    [InvalidStateError] carries its [reason] (the name of an
    [InvalidStateReason] member); every other error is [OtherError]. *)
Inductive JsError : Type :=
| InvalidStateError (reason : string)
| PermissionMessageDismissedError
| AlreadySubscribedError
| PushPermissionNotGrantedError
| OtherError (message : string).

(** How a promise settles: fulfilled with a value or rejected. *)
Inductive Outcome (A : Type) : Type :=
| Fulfilled (a : A)
| Rejected (e : JsError).
Arguments Fulfilled {A} a.
Arguments Rejected {A} e.

(** ** The data of the source *)

(** [interface SessionInitOptions]: every field is optional. *)
Record SessionInitOptions : Type := mkOptions {
  modalPrompt : option bool;
  __fromRegister : option bool;
  __fromInit : option bool;
  autoAccept : option bool
}.

(** [options = {} as SessionInitOptions] *)
Definition emptyOptions : SessionInitOptions := mkOptions None None None None.

(** [{ __fromInit: true }] *)
Definition fromInitOptions : SessionInitOptions :=
  mkOptions None None (Some true) None.

(** JavaScript truthiness of an optional boolean field. *)
Definition truthy (b : option bool) : bool :=
  match b with Some true => true | _ => false end.

(** [x === true] and [x === false] on an optional boolean. *)
Definition is_true (b : option bool) : bool :=
  match b with Some true => true | _ => false end.
Definition is_false (b : option bool) : bool :=
  match b with Some false => true | _ => false end.

(** JavaScript truthiness of an optional string: the empty string is
    falsy. *)
Definition truthy_string (s : option string) : bool :=
  match s with Some s => negb (String.eqb s "") | None => false end.

Inductive IntegrationKind : Type := Secure | SecureProxy | InsecureProxy.

(** Only [OneSignalProxyFrame] is named by this file. *)
Inductive WindowEnvironmentKind : Type :=
| OneSignalProxyFrame
| OtherWindowEnvironment (name : string).

Inductive SubscriptionStrategyKind : Type := ResubscribeExisting | SubscribeNew.

(** Only [WorkerMessengerCommand.SubscribeNew] is named by this file. *)
Inductive WorkerMessengerCommand : Type :=
| CmdSubscribeNew
| CmdOther (name : string).

#[global] Instance WorkerMessengerCommand_eq_dec :
  EqDecision WorkerMessengerCommand := ltac:(solve_decision).

Inductive VisibilityState : Type := Visible | Hidden | Prerender.

#[global] Instance VisibilityState_eq_dec :
  EqDecision VisibilityState := ltac:(solve_decision).

(** The flags of [bowser] read here, and [Number(bowser.version)]: the
    double that the conversion gives, as the rational it is; [None] is
    [NaN], on which every comparison is false. *)
Record Bowser : Type := mkBowser {
  chrome : bool;
  safari : bool;
  firefox : bool;
  tablet : bool;
  mobile : bool;
  version : option Q
}.

(** [Number(bowser.version) >= x] *)
Definition version_ge (b : Bowser) (x : Q) : bool :=
  match version b with Some v => Qle_bool x v | None => false end.

(** [Number(bowser.version) <= x] *)
Definition version_le (b : Bowser) (x : Q) : bool :=
  match version b with Some v => Qle_bool v x | None => false end.

(** The literal [12.1] of [sessionInit]: the double nearest to 12.1, which
    is 6811694436397875 / 2^49, a little below 121/10.  The other
    literals compared with the version, 63 and 45, are doubles as they
    stand. *)
Definition literal_12_1 : Q := 6811694436397875 # 562949953421312.

Record UserConfig : Type := mkUserConfig {
  autoRegister : option bool
}.

Record AppConfig : Type := mkAppConfig {
  appId : string;
  subdomain : option string;
  userConfig : UserConfig
}.

(** Opaque values that only travel through this file. *)
Record RawPushSubscription : Type := mkRaw { raw_repr : string }.
Record Subscription : Type := mkSubscription { subscription_repr : string }.
Definition Payload : Type := string.

Inductive SdkEvent : Type := SDK_INITIALIZED | SDK_INITIALIZED_PUBLIC.
Inductive PostmamCommand : Type := PROCESS_EXPIRING_SUBSCRIPTIONS.

(** ** The history of observable actions *)

Inductive LogLevel : Type := Debug | Info | Error.

Inductive LogArg : Type :=
| ArgOptions (o : SessionInitOptions)
| ArgError (e : JsError)
| ArgIntegration (k : IntegrationKind)
| ArgSubscription (s : Subscription).

(** Calls that leave this file. *)
Inductive Collaborator : Type :=
| SubscriptionModalHost_load (app : string) (o : SessionInitOptions)
| OneSignal_internalIsOptedOut
| OneSignal_privateShowHttpPrompt
| OneSignal_setSubscription (b : bool)
| OneSignal_privateIsPushNotificationsEnabled
| SubscriptionHelper_registerForPush
| Event_trigger (e : SdkEvent)
| ServiceWorkerManager_updateWorker
| SessionManager_incrementPageViewCount
| SubscriptionManager_isSubscriptionExpiring
| SdkEnvironment_getIntegration
| SubscriptionManager_subscribe (k : SubscriptionStrategyKind)
| SubscriptionManager_registerSubscription (raw : RawPushSubscription)
| WorkerMessenger_once (c : WorkerMessengerCommand)
| WorkerMessenger_unicast (c : WorkerMessengerCommand) (payload : AppConfig)
| ProxyFrameHost_runCommand (c : PostmamCommand)
| Database_remove (store key : string)
| Permissions_query
| TriggerNotificationPermissionChanged.

Inductive Effect : Type :=
| EvLog (level : LogLevel) (msg : string) (args : list LogArg)
| EvLatch (b : bool)
| EvCall (c : Collaborator).

(** ** The world *)

(** The task given to [once(document, 'visibilitychange', ...)]; the only
    one of this file is the closure of [internalInit]. *)
Inductive DocumentTask : Type := InternalInitWhenVisible.

(** The callback given to [workerMessenger.once]: the closure of
    [processExpiringSubscriptions] that resolves promise [p]. *)
Inductive MessengerTask : Type := ResolveDeserialized (p : nat).

(** The function assigned to [permissionStatus.onchange]. *)
Inductive PermissionHandler : Type := OnChangeTriggerPermissionChanged.

Record World : Type := mkWorld {
  (** [OneSignal._sessionInitAlreadyRunning] *)
  _sessionInitAlreadyRunning : bool;
  (** [OneSignal.subscriptionModalHost] *)
  subscriptionModalHost : option (string * SessionInitOptions);
  (** [OneSignal._usingNativePermissionHook] *)
  _usingNativePermissionHook : bool;
  (** [Database]: store name and key to value *)
  database : gmap (string * string) string;
  (** [document.visibilityState] *)
  visibilityState : VisibilityState;
  (** the [visibilitychange] listeners of [document], with their identity
      and the [manualDestroy] flag of [once] *)
  documentListeners : list (nat * (DocumentTask * bool));
  nextListener : nat;
  (** the one-shot listeners of [context.workerMessenger] *)
  messengerListeners : list (WorkerMessengerCommand * MessengerTask);
  (** promises made with [new Promise]: the resolved ones *)
  promises : gmap nat Subscription;
  nextPromise : nat;
  (** [navigator.permissions.query] calls made so far *)
  permissionQueries : nat;
  (** the [onchange] property of each [PermissionStatus] object *)
  onchange : gmap nat PermissionHandler;
  (** observable actions, newest first *)
  history : list Effect
}.

Definition set_sessionInitAlreadyRunning (b : bool) (w : World) : World :=
  mkWorld b (subscriptionModalHost w) (_usingNativePermissionHook w)
    (database w) (visibilityState w) (documentListeners w) (nextListener w)
    (messengerListeners w) (promises w) (nextPromise w)
    (permissionQueries w) (onchange w) (EvLatch b :: history w).

Definition set_subscriptionModalHost (h : string * SessionInitOptions)
    (w : World) : World :=
  mkWorld (_sessionInitAlreadyRunning w) (Some h)
    (_usingNativePermissionHook w)
    (database w) (visibilityState w) (documentListeners w) (nextListener w)
    (messengerListeners w) (promises w) (nextPromise w)
    (permissionQueries w) (onchange w) (history w).

Definition set_usingNativePermissionHook (b : bool) (w : World) : World :=
  mkWorld (_sessionInitAlreadyRunning w) (subscriptionModalHost w) b
    (database w) (visibilityState w) (documentListeners w) (nextListener w)
    (messengerListeners w) (promises w) (nextPromise w)
    (permissionQueries w) (onchange w) (history w).

Definition set_database (d : gmap (string * string) string) (w : World)
    : World :=
  mkWorld (_sessionInitAlreadyRunning w) (subscriptionModalHost w)
    (_usingNativePermissionHook w)
    d (visibilityState w) (documentListeners w) (nextListener w)
    (messengerListeners w) (promises w) (nextPromise w)
    (permissionQueries w) (onchange w) (history w).

Definition set_visibilityState (v : VisibilityState) (w : World) : World :=
  mkWorld (_sessionInitAlreadyRunning w) (subscriptionModalHost w)
    (_usingNativePermissionHook w)
    (database w) v (documentListeners w) (nextListener w)
    (messengerListeners w) (promises w) (nextPromise w)
    (permissionQueries w) (onchange w) (history w).

Definition set_documentListeners (l : list (nat * (DocumentTask * bool)))
    (n : nat) (w : World) : World :=
  mkWorld (_sessionInitAlreadyRunning w) (subscriptionModalHost w)
    (_usingNativePermissionHook w)
    (database w) (visibilityState w) l n
    (messengerListeners w) (promises w) (nextPromise w)
    (permissionQueries w) (onchange w) (history w).

Definition set_messengerListeners
    (l : list (WorkerMessengerCommand * MessengerTask)) (w : World) : World :=
  mkWorld (_sessionInitAlreadyRunning w) (subscriptionModalHost w)
    (_usingNativePermissionHook w)
    (database w) (visibilityState w) (documentListeners w) (nextListener w)
    l (promises w) (nextPromise w)
    (permissionQueries w) (onchange w) (history w).

Definition set_promises (m : gmap nat Subscription) (n : nat) (w : World)
    : World :=
  mkWorld (_sessionInitAlreadyRunning w) (subscriptionModalHost w)
    (_usingNativePermissionHook w)
    (database w) (visibilityState w) (documentListeners w) (nextListener w)
    (messengerListeners w) m n
    (permissionQueries w) (onchange w) (history w).

Definition set_permissionQueries (n : nat) (w : World) : World :=
  mkWorld (_sessionInitAlreadyRunning w) (subscriptionModalHost w)
    (_usingNativePermissionHook w)
    (database w) (visibilityState w) (documentListeners w) (nextListener w)
    (messengerListeners w) (promises w) (nextPromise w)
    n (onchange w) (history w).

Definition set_onchange (m : gmap nat PermissionHandler) (w : World) : World :=
  mkWorld (_sessionInitAlreadyRunning w) (subscriptionModalHost w)
    (_usingNativePermissionHook w)
    (database w) (visibilityState w) (documentListeners w) (nextListener w)
    (messengerListeners w) (promises w) (nextPromise w)
    (permissionQueries w) m (history w).

(** Appends one action to the history. *)
Definition record (e : Effect) (w : World) : World :=
  mkWorld (_sessionInitAlreadyRunning w) (subscriptionModalHost w)
    (_usingNativePermissionHook w)
    (database w) (visibilityState w) (documentListeners w) (nextListener w)
    (messengerListeners w) (promises w) (nextPromise w)
    (permissionQueries w) (onchange w) (e :: history w).

(** A page that has just loaded. *)
Definition freshWorld : World :=
  mkWorld false None false ∅ Visible [] 0 [] ∅ 0 0 ∅ [].

(** ** Asynchronous programs *)

(** The body of an [async] function.  [Tick] is the suspension of an
    [await]; [AwaitPromise] is an [await] on a promise of this file, which
    resumes only once a callback has resolved it. *)
Inductive Prog (A : Type) : Type :=
| Ret (a : A)
| Throw (e : JsError)
| Read (k : World -> Prog A)
| Write (f : World -> World) (k : Prog A)
| Tick (k : Prog A)
| AwaitPromise (p : nat) (k : Subscription -> Prog A).
Arguments Ret {A} a.
Arguments Throw {A} e.
Arguments Read {A} k.
Arguments Write {A} f k.
Arguments Tick {A} k.
Arguments AwaitPromise {A} p k.

Fixpoint bind {A B : Type} (p : Prog A) (f : A -> Prog B) : Prog B :=
  match p with
  | Ret a => f a
  | Throw e => Throw e
  | Read k => Read (fun w => bind (k w) f)
  | Write g k => Write g (bind k f)
  | Tick k => Tick (bind k f)
  | AwaitPromise q k => AwaitPromise q (fun s => bind (k s) f)
  end.

#[global] Instance Prog_ret : MRet Prog := fun A a => Ret a.
#[global] Instance Prog_bind : MBind Prog := fun A B f p => bind p f.

(** Where a started [async] function stands. *)
Inductive Status (A : Type) : Type :=
| Settled (r : Outcome A)
| Suspended (k : Prog A)
| Blocked (p : nat) (k : Subscription -> Prog A).
Arguments Settled {A} r.
Arguments Suspended {A} k.
Arguments Blocked {A} p k.

(** Calling an [async] function: its body runs synchronously up to its
    first [await]. *)
Fixpoint start {A : Type} (p : Prog A) (w : World) : Status A * World :=
  match p with
  | Ret a => (Settled (Fulfilled a), w)
  | Throw e => (Settled (Rejected e), w)
  | Read k => start (k w) w
  | Write f k => start k (f w)
  | Tick k => (Suspended k, w)
  | AwaitPromise q k => (Blocked q k, w)
  end.

(** Running a program with nothing else interleaved: every [await] on a
    collaborator resumes at once; an [await] on an unresolved promise of
    this file stays blocked. *)
Fixpoint run {A : Type} (p : Prog A) (w : World) : Status A * World :=
  match p with
  | Ret a => (Settled (Fulfilled a), w)
  | Throw e => (Settled (Rejected e), w)
  | Read k => run (k w) w
  | Write f k => run k (f w)
  | Tick k => run k w
  | AwaitPromise q k =>
      match promises w !! q with
      | Some s => run (k s) w
      | None => (Blocked q k, w)
      end
  end.

(** Letting a started function continue. *)
Definition resume {A : Type} (s : Status A) (w : World) : Status A * World :=
  match s with
  | Settled r => (Settled r, w)
  | Suspended k => run k w
  | Blocked q k =>
      match promises w !! q with
      | Some s => run (k s) w
      | None => (Blocked q k, w)
      end
  end.

(** *** Building blocks *)

Definition act (f : World -> World) : Prog unit := Write f (Ret tt).

Definition log (level : LogLevel) (msg : string) (args : list LogArg)
    : Prog unit :=
  act (record (EvLog level msg args)).

Definition settle {A : Type} (o : Outcome A) : Prog A :=
  match o with
  | Fulfilled a => Ret a
  | Rejected e => Throw e
  end.

(** [await c(...)]: the collaborator is called, the caller is suspended,
    and it resumes with the value or with the rejection thrown. *)
Definition await_call {A : Type} (c : Collaborator) (o : Outcome A) : Prog A :=
  Write (record (EvCall c)) (Tick (settle o)).

(** [await c(...).catch(h)] *)
Definition await_call_catch (c : Collaborator) (o : Outcome unit)
    (h : JsError -> Prog unit) : Prog unit :=
  Write (record (EvCall c))
    (Tick (match o with Fulfilled _ => Ret tt | Rejected e => h e end)).

(** [c(...);]: the collaborator is called and its promise is dropped. *)
Definition fire (c : Collaborator) : Prog unit := act (record (EvCall c)).

(** [await f(...)] for an [async] method [f] of this file: its body runs,
    and the caller is suspended once more before it continues. *)
Definition await_async {A : Type} (p : Prog A) : Prog A :=
  x ← p; Tick (Ret x).

(** ** The collaborators of the session bootstrap *)

(** What the code outside this file answers during one bootstrap.  The
    synchronous helpers are plain values; each asynchronous one is given by
    how its promise settles.  [Event.trigger] is taken to fulfil. *)
Record SessionEnv : Type := mkSessionEnv {
  (** [OneSignal.config], also [OneSignal.context.appConfig] *)
  config : AppConfig;
  bowser : Bowser;
  (** [isUsingSubscriptionWorkaround()] *)
  isUsingSubscriptionWorkaround : bool;
  (** [MainHelper.wasHttpsNativePromptDismissed()] *)
  wasHttpsNativePromptDismissed : bool;
  (** [MainHelper.isHttpPromptAlreadyShown()] *)
  isHttpPromptAlreadyShown : bool;
  (** [OneSignal.subscriptionModalHost.load()] *)
  modalHostLoad : Outcome unit;
  (** [OneSignal.internalIsOptedOut()] *)
  internalIsOptedOut : Outcome bool;
  (** [OneSignal.privateShowHttpPrompt()] *)
  privateShowHttpPrompt : Outcome unit;
  (** [SubscriptionHelper.registerForPush()] *)
  registerForPush : Outcome unit;
  (** [context.serviceWorkerManager.updateWorker()] *)
  updateWorker : Outcome unit;
  (** [OneSignal.privateIsPushNotificationsEnabled()] *)
  privateIsPushNotificationsEnabled : Outcome bool
}.

(** What the code outside this file answers while an expiring subscription
    is renewed. *)
Record RenewalEnv : Type := mkRenewalEnv {
  (** [context.appConfig] *)
  appConfig : AppConfig;
  (** [context.subscriptionManager.isSubscriptionExpiring()] *)
  isSubscriptionExpiring : Outcome bool;
  (** [SdkEnvironment.getIntegration()] *)
  getIntegration : Outcome IntegrationKind;
  (** [SdkEnvironment.getWindowEnv()] *)
  getWindowEnv : WindowEnvironmentKind;
  (** [context.subscriptionManager.subscribe(strategy)] *)
  subscribe : SubscriptionStrategyKind -> Outcome RawPushSubscription;
  (** [context.subscriptionManager.registerSubscription(raw)] *)
  registerSubscription : RawPushSubscription -> Outcome unit;
  (** [OneSignal.proxyFrameHost.runCommand(command)] *)
  runCommand : PostmamCommand -> Outcome unit;
  (** [Subscription.deserialize(payload)] *)
  deserialize : Payload -> Subscription
}.

(** The browser as [installNativePromptPermissionChangedHook] sees it.
    [navigatorPermissions] is [None] when [navigator.permissions] is
    missing; otherwise it tells how the [n]-th call of
    [navigator.permissions.query] settles, a [PermissionStatus] object being
    named by a number. *)
Record PermissionEnv : Type := mkPermissionEnv {
  permBowser : Bowser;
  navigatorPermissions : option (nat -> Outcome nat)
}.

(** ** Collaborators that act on the world *)

(** [removeEventListener] by identity. *)
Definition removeDocumentListener (id : nat) (w : World) : World :=
  set_documentListeners
    (filter (fun l => l.1 ≠ id) (documentListeners w)) (nextListener w) w.

(** Modelled from the spec: [once(document, 'visibilitychange', task,
    manualDestroy)] of [utils] (not part of this file) adds a listener that
    wraps [task]. *)
Definition once_visibilitychange (t : DocumentTask) (manualDestroy : bool)
    (w : World) : World :=
  set_documentListeners
    (documentListeners w ++ [(nextListener w, (t, manualDestroy))])
    (S (nextListener w)) w.

(** Modelled from the spec: [context.workerMessenger.once(command, callback)]
    (not part of this file) arms a one-shot listener keyed by [command]. *)
Definition messenger_once (c : WorkerMessengerCommand) (t : MessengerTask)
    (w : World) : World :=
  record (EvCall (WorkerMessenger_once c))
    (set_messengerListeners (messengerListeners w ++ [(c, t)]) w).

(** Modelled from the spec: [await Database.remove(store, key)] (the
    database service is not part of this file) deletes the key. *)
Definition database_remove (store key : string) : Prog unit :=
  Write (fun w => record (EvCall (Database_remove store key))
                    (set_database (delete (store, key) (database w)) w))
    (Tick (Ret tt)).

(** [await navigator.permissions.query({ name: 'notifications' })] *)
Definition permissions_query (query : nat -> Outcome nat) : Prog nat :=
  Read (fun w =>
    Write (fun w' => record (EvCall Permissions_query)
                       (set_permissionQueries (S (permissionQueries w')) w'))
      (Tick (settle (query (permissionQueries w))))).

Module InitHelper.

(** [Event.trigger(e)], awaited. *)
Definition trigger (e : SdkEvent) : Prog unit :=
  await_call (Event_trigger e) (Fulfilled tt).

(** [private static async finishSessionInit(options)] *)
Definition finishSessionInit (options : SessionInitOptions) : Prog unit :=
  act (set_sessionInitAlreadyRunning false) ;;
  if truthy (__fromInit options) then trigger SDK_INITIALIZED else Ret tt.

(** The condition [showSlidedown] of [sessionInit]:
    [!options.__fromRegister && autoRegister === true &&
     ((chrome && version >= 63 && (tablet || mobile)) ||
      (safari && version >= 12.1))]. *)
Definition showSlidedown (env : SessionEnv) (options : SessionInitOptions)
    : bool :=
  negb (truthy (__fromRegister options)) &&
  is_true (autoRegister (userConfig (config env))) &&
  ((chrome (bowser env) && version_ge (bowser env) (63 # 1) &&
      (tablet (bowser env) || mobile (bowser env))) ||
   (safari (bowser env) && version_ge (bowser env) literal_12_1)).

(** The test of the rejection handler given to [privateShowHttpPrompt]. *)
Definition promptNotShowing (e : JsError) : bool :=
  match e with
  | InvalidStateError reason => String.eqb reason "RedundantPermissionMessage"
  | PermissionMessageDismissedError => true
  | AlreadySubscribedError => true
  | PushPermissionNotGrantedError => true
  | OtherError _ => false
  end.

(** The rejection handler given to [privateShowHttpPrompt]. *)
Definition onHttpPromptRejected (e : JsError) : Prog unit :=
  if promptNotShowing e
  then log Debug "[Prompt Not Showing]" [ArgError e]
  else log Info "" [ArgError e].

(** [public static async sessionInit(options?)] *)
Definition sessionInit (env : SessionEnv) (opts : option SessionInitOptions)
    : Prog unit :=
  let options := default emptyOptions opts in
  log Debug "Called sessionInit" [ArgOptions options] ;;
  Read (fun w =>
  if _sessionInitAlreadyRunning w then
    log Debug "Returning from sessionInit because it has already been called." []
  else
    act (set_sessionInitAlreadyRunning true) ;;
    let app := appId (config env) in
    if truthy (__fromRegister options) && truthy (modalPrompt options) then
      act (set_subscriptionModalHost (app, options)) ;;
      await_call (SubscriptionModalHost_load app options) (modalHostLoad env) ;;
      await_async (finishSessionInit options)
    else if negb (isUsingSubscriptionWorkaround env) then
      if truthy (__fromInit options) && wasHttpsNativePromptDismissed env then
        log Debug "OneSignal: Not automatically showing native HTTPS prompt because the user previously dismissed it." [] ;;
        await_async (finishSessionInit options)
      else
        isOptedOut ← await_call OneSignal_internalIsOptedOut
                       (internalIsOptedOut env);
        if negb isOptedOut then
          if showSlidedown env options then
            await_async (finishSessionInit options) ;;
            fire OneSignal_privateShowHttpPrompt
          else
            await_async (finishSessionInit options) ;;
            await_call SubscriptionHelper_registerForPush (registerForPush env)
        else
          await_async (finishSessionInit options) ;;
          fire (OneSignal_setSubscription true)
    else
      (if negb (is_true (autoRegister (userConfig (config env))))
       then log Debug "OneSignal: Not automatically showing popover because autoRegister is not specifically true." []
       else Ret tt) ;;
      (if isHttpPromptAlreadyShown env
       then log Debug "OneSignal: Not automatically showing popover because it was previously shown in the same session." []
       else Ret tt) ;;
      (if is_true (autoRegister (userConfig (config env))) &&
          negb (isHttpPromptAlreadyShown env)
       then await_call_catch OneSignal_privateShowHttpPrompt
              (privateShowHttpPrompt env) onHttpPromptRejected
       else Ret tt) ;;
      await_async (finishSessionInit options)).

(** [static async internalInit()] *)
Definition internalInit (env : SessionEnv) : Prog unit :=
  log Debug "Called internalInit()" [] ;;
  await_call ServiceWorkerManager_updateWorker (updateWorker env) ;;
  fire SessionManager_incrementPageViewCount ;;
  if safari (bowser env) && is_false (autoRegister (userConfig (config env)))
  then
    log Debug "On Safari and autoregister is false, skipping sessionInit()." [] ;;
    fire (Event_trigger SDK_INITIALIZED)
  else if is_false (autoRegister (userConfig (config env))) &&
          negb (truthy_string (subdomain (config env)))
  then
    log Debug "Skipping internal init. Not auto-registering and no subdomain." [] ;;
    trigger SDK_INITIALIZED ;;
    isPushEnabled ← await_call OneSignal_privateIsPushNotificationsEnabled
                      (privateIsPushNotificationsEnabled env);
    if isPushEnabled && negb (isUsingSubscriptionWorkaround env) then
      log Info "Because the user is already subscribed and has enabled notifications, we will re-register their GCM token." [] ;;
      await_call SubscriptionHelper_registerForPush (registerForPush env)
    else Ret tt
  else
    Read (fun w =>
    if negb (bool_decide (visibilityState w = Visible)) then
      act (once_visibilitychange InternalInitWhenVisible true)
    else
      await_async (sessionInit env (Some fromInitOptions))).

(** The task that [internalInit] gives to [once]:
    [(_, destroyEventListener) => { if (document.visibilityState ===
    'visible') { destroyEventListener(); InitHelper.sessionInit({ __fromInit:
    true }); } }].  The call of [sessionInit] is not awaited and is the last
    statement of the task, so its actions follow in the order of [run]; a
    rejection of its promise reaches nobody. *)
Definition documentTask (env : SessionEnv) (id : nat) (t : DocumentTask)
    : Prog unit :=
  match t with
  | InternalInitWhenVisible =>
      Read (fun w =>
      if bool_decide (visibilityState w = Visible) then
        act (removeDocumentListener id) ;;
        sessionInit env (Some fromInitOptions)
      else Ret tt)
  end.

(** ** Renewal of an expiring subscription *)

(** [public static async processExpiringSubscriptions()] *)
Definition processExpiringSubscriptions (env : RenewalEnv) : Prog unit :=
  log Debug "Checking subscription expiration..." [] ;;
  isExpiring ← await_call SubscriptionManager_isSubscriptionExpiring
                 (isSubscriptionExpiring env);
  if negb isExpiring then
    log Debug "Subscription is not considered expired." []
  else
    integrationKind ← await_call SdkEnvironment_getIntegration
                        (getIntegration env);
    let windowEnv := getWindowEnv env in
    log Debug "Subscription is considered expiring. Current Integration:"
      [ArgIntegration integrationKind] ;;
    match integrationKind with
    | Secure =>
        rawPushSubscription ←
          await_call (SubscriptionManager_subscribe SubscribeNew)
            (subscribe env SubscribeNew);
        await_call (SubscriptionManager_registerSubscription rawPushSubscription)
          (registerSubscription env rawPushSubscription)
    | SecureProxy =>
        match windowEnv with
        | OneSignalProxyFrame =>
            Read (fun w =>
            let p := nextPromise w in
            act (set_promises (promises w) (S p)) ;;
            act (messenger_once CmdSubscribeNew (ResolveDeserialized p)) ;;
            fire (WorkerMessenger_unicast CmdSubscribeNew (appConfig env)) ;;
            AwaitPromise p (fun newSubscription =>
              log Debug "Finished registering brand new subscription:"
                [ArgSubscription newSubscription]))
        | OtherWindowEnvironment _ =>
            await_call (ProxyFrameHost_runCommand PROCESS_EXPIRING_SUBSCRIPTIONS)
              (runCommand env PROCESS_EXPIRING_SUBSCRIPTIONS)
        end
    | InsecureProxy =>
        database_remove "Ids" "registrationId" ;;
        log Debug "Unsubscribed expiring HTTP subscription by removing registration ID." []
    end.

(** ** The native permission hook *)

(** [static async installNativePromptPermissionChangedHook()] *)
Definition installNativePromptPermissionChangedHook (env : PermissionEnv)
    : Prog unit :=
  match navigatorPermissions env with
  | Some query =>
      if negb (firefox (permBowser env) && version_le (permBowser env) (45 # 1))
      then
        act (set_usingNativePermissionHook true) ;;
        permissionStatus ← permissions_query query;
        Read (fun w =>
          act (set_onchange
                 (<[permissionStatus := OnChangeTriggerPermissionChanged]>
                    (onchange w))))
      else Ret tt
  | None => Ret tt
  end.

End InitHelper.

(** ** What the browser does between the calls *)

(** Modelled from the spec: the wrapper that [once] (of [utils], not part of
    this file) installs on the target.  Without [manualDestroy] it removes
    itself before the task runs; with it, removal is left to the task. *)
Definition onceWrapper (env : SessionEnv)
    (l : nat * (DocumentTask * bool)) : Prog unit :=
  (if l.2.2 then Ret tt else act (removeDocumentListener l.1)) ;;
  InitHelper.documentTask env l.1 l.2.1.

(** The browser fires [visibilitychange] with the document in state [v]:
    every listener registered when the event starts and still registered
    when its turn comes is called. *)
Definition visibilitychange (env : SessionEnv) (v : VisibilityState)
    (w : World) : World :=
  let w1 := set_visibilityState v w in
  foldl (fun acc l =>
           if bool_decide (l.1 ∈ (documentListeners acc).*1)
           then (run (onceWrapper env l) acc).2
           else acc)
        w1 (documentListeners w1).

(** A sequence of [visibilitychange] events. *)
Definition visibilitychanges (env : SessionEnv) (vs : list VisibilityState)
    (w : World) : World :=
  foldl (fun acc v => visibilitychange env v acc) w vs.

(** What a [MessengerTask] does with the payload it is called with:
    [subscription => { resolve(Subscription.deserialize(subscription)); }].
    Resolving a promise that is already resolved changes nothing. *)
Definition messengerTask (env : RenewalEnv) (t : MessengerTask)
    (payload : Payload) (w : World) : World :=
  match t with
  | ResolveDeserialized p =>
      match promises w !! p with
      | Some _ => w
      | None => set_promises (<[p := deserialize env payload]> (promises w))
                  (nextPromise w) w
      end
  end.

(** Modelled from the spec: the worker messenger (not part of this file)
    receives command [c] with [payload].  One-shot listeners are keyed by
    command: those of [c] are removed and called once, the others stay. *)
Definition messenger_deliver (env : RenewalEnv) (c : WorkerMessengerCommand)
    (payload : Payload) (w : World) : World :=
  let hit := filter (fun l => l.1 = c) (messengerListeners w) in
  let rest := filter (fun l => l.1 ≠ c) (messengerListeners w) in
  foldl (fun acc l => messengerTask env l.2 payload acc)
        (set_messengerListeners rest w) hit.

(** What a [PermissionHandler] does:
    [function() { triggerNotificationPermissionChanged(); }]. *)
Definition permissionHandler (h : PermissionHandler) (w : World) : World :=
  match h with
  | OnChangeTriggerPermissionChanged =>
      record (EvCall TriggerNotificationPermissionChanged) w
  end.

(** The browser reports one change of the notification permission: every
    [PermissionStatus] object handed out by [query] calls its [onchange]. *)
Definition nativePermissionChange (w : World) : World :=
  foldl (fun acc oh => permissionHandler oh.2 acc) w (map_to_list (onchange w)).

(** [n] calls of [installNativePromptPermissionChangedHook], one after the
    other. *)
Fixpoint installTimes (env : PermissionEnv) (n : nat) (w : World) : World :=
  match n with
  | 0 => w
  | S n' =>
      (run (InitHelper.installNativePromptPermissionChangedHook env)
         (installTimes env n' w)).2
  end.

(** ** Reading the history *)

(** [evs], oldest first, are the actions that took [w] to [w']. *)
Definition events_since (w w' : World) (evs : list Effect) : Prop :=
  history w' = (rev evs ++ history w)%list.

Definition is_debug_log (e : Effect) : bool :=
  match e with EvLog Debug _ _ => true | _ => false end.

(** The world with the debug traces of its history left out. *)
Definition without_debug_logs (w : World) : World :=
  mkWorld (_sessionInitAlreadyRunning w) (subscriptionModalHost w)
    (_usingNativePermissionHook w)
    (database w) (visibilityState w) (documentListeners w) (nextListener w)
    (messengerListeners w) (promises w) (nextPromise w)
    (permissionQueries w) (onchange w)
    (List.filter (fun e => negb (is_debug_log e)) (history w)).

(** The options of the calls of [sessionInit] found in a history: each call
    starts with the trace [Called sessionInit(options)]. *)
Fixpoint sessionInit_calls (h : list Effect) : list SessionInitOptions :=
  match h with
  | [] => []
  | EvLog Debug msg [ArgOptions o] :: r =>
      if String.eqb msg "Called sessionInit"
      then o :: sessionInit_calls r
      else sessionInit_calls r
  | _ :: r => sessionInit_calls r
  end.

(** Whether a call of [sessionInit] that took the latch still holds it
    when it is suspended for the first time: it does on the paths that
    await something before [finishSessionInit], which are the load of the
    modal, [internalIsOptedOut()] and the HTTP prompt of the workaround
    path. *)
Definition holdsLatchAtFirstAwait (env : SessionEnv)
    (options : SessionInitOptions) : bool :=
  if truthy (__fromRegister options) && truthy (modalPrompt options) then true
  else if negb (isUsingSubscriptionWorkaround env)
  then negb (truthy (__fromInit options) && wasHttpsNativePromptDismissed env)
  else is_true (autoRegister (userConfig (config env))) &&
       negb (isHttpPromptAlreadyShown env).

(** The world after a call [sessionInit(second)] that found the latch set:
    the two debug traces are all it leaves. *)
Definition turnedAway (second : option SessionInitOptions) (w : World)
    : World :=
  record (EvLog Debug
            "Returning from sessionInit because it has already been called."
            [])
    (record (EvLog Debug "Called sessionInit"
               [ArgOptions (default emptyOptions second)]) w).

(** How often the completion signal [SDK_INITIALIZED] was emitted. *)
Fixpoint signals (evs : list Effect) : nat :=
  match evs with
  | [] => 0
  | EvCall (Event_trigger SDK_INITIALIZED) :: r => S (signals r)
  | _ :: r => signals r
  end.

(** Replays [evs] from the latch value [latch] and checks that the latch is
    idle whenever [SDK_INITIALIZED] is emitted. *)
Fixpoint latch_idle_at_signals (latch : bool) (evs : list Effect) : bool :=
  match evs with
  | [] => true
  | EvLatch b :: r => latch_idle_at_signals b r
  | EvCall (Event_trigger SDK_INITIALIZED) :: r =>
      negb latch && latch_idle_at_signals latch r
  | _ :: r => latch_idle_at_signals latch r
  end.

(** Whether [finishSessionInit] ran: it is the only writer of [false]. *)
Fixpoint finalized (evs : list Effect) : bool :=
  match evs with
  | [] => false
  | EvLatch false :: _ => true
  | _ :: r => finalized r
  end.

(** How often the shared permission-changed signal fired. *)
Fixpoint permissionSignals (h : list Effect) : nat :=
  match h with
  | [] => 0
  | EvCall TriggerNotificationPermissionChanged :: r => S (permissionSignals r)
  | _ :: r => permissionSignals r
  end.

(** The three outcomes of the prompt decision, read off the actions of one
    call of [sessionInit]: the native request ([registerForPush]), the
    slide-down ([privateShowHttpPrompt]) or neither. *)
Inductive PromptStrategy : Type := Native | SlideDown | Suppressed.

Fixpoint strategy_of (evs : list Effect) : PromptStrategy :=
  match evs with
  | [] => Suppressed
  | EvCall SubscriptionHelper_registerForPush :: _ => Native
  | EvCall OneSignal_privateShowHttpPrompt :: _ => SlideDown
  | _ :: r => strategy_of r
  end.

(** The browsers where a denied native prompt cannot be undone, as
    [showSlidedown] tests them. *)
Definition irreversibleNativePrompt (b : Bowser) : bool :=
  (chrome b && version_ge b (63 # 1) && (tablet b || mobile b)) ||
  (safari b && version_ge b literal_12_1).

(** ** Sample pages *)

Definition chrome65Tablet : Bowser :=
  mkBowser true false false true false (Some (65 # 1)).
Definition safari13 : Bowser :=
  mkBowser false true false false false (Some (13 # 1)).
Definition firefox90 : Bowser :=
  mkBowser false false true false false (Some (90 # 1)).

(** An HTTPS page without the subscription workaround. *)
Definition securePage (b : Bowser) (auto : option bool) (dismissed : bool)
    (load : Outcome unit) (optedOut : Outcome bool) (register : Outcome unit)
    : SessionEnv :=
  mkSessionEnv (mkAppConfig "app-id" None (mkUserConfig auto)) b
    false dismissed false load optedOut (Fulfilled tt) register
    (Fulfilled tt) (Fulfilled false).

(** A page that uses the subscription workaround, with [autoRegister] set
    and no prompt shown yet in this session. *)
Definition legacyPage (prompt : Outcome unit) : SessionEnv :=
  mkSessionEnv (mkAppConfig "app-id" (Some "site") (mkUserConfig (Some true)))
    firefox90 true false false (Fulfilled tt) (Fulfilled false) prompt
    (Fulfilled tt) (Fulfilled tt) (Fulfilled false).

(** [{ modalPrompt: true, __fromRegister: true }] *)
Definition modalOptions : SessionInitOptions :=
  mkOptions (Some true) (Some true) None None.

(** A page whose subscription is expiring. *)
Definition expiringPage (k : IntegrationKind) (frame : WindowEnvironmentKind)
    (sub : Outcome RawPushSubscription) (reg : Outcome unit) : RenewalEnv :=
  mkRenewalEnv (mkAppConfig "app-id" None (mkUserConfig None))
    (Fulfilled true) (Fulfilled k) frame (fun _ => sub) (fun _ => reg)
    (fun _ => Fulfilled tt) mkSubscription.

(** A browser whose [query] always resolves to the same status object, and
    one that makes a new status object for every [query]. *)
Definition sharedStatusBrowser : PermissionEnv :=
  mkPermissionEnv firefox90 (Some (fun _ => Fulfilled 0)).
Definition freshStatusBrowser : PermissionEnv :=
  mkPermissionEnv firefox90 (Some (fun n => Fulfilled n)).

(** ** More ways to read a world *)

(** The world with its history left out: what a call changed besides
    adding to the history. *)
Definition forget_history (w : World) : World :=
  mkWorld (_sessionInitAlreadyRunning w) (subscriptionModalHost w)
    (_usingNativePermissionHook w)
    (database w) (visibilityState w) (documentListeners w) (nextListener w)
    (messengerListeners w) (promises w) (nextPromise w)
    (permissionQueries w) (onchange w) [].

(** The calls that leave this file, in the order they were made. *)
Fixpoint calls (evs : list Effect) : list Collaborator :=
  match evs with
  | [] => []
  | EvCall c :: r => c :: calls r
  | _ :: r => calls r
  end.

(** The steps by which [processExpiringSubscriptions] renews or drops a
    subscription. *)
Definition isRenewalStep (c : Collaborator) : bool :=
  match c with
  | SubscriptionManager_subscribe _ => true
  | WorkerMessenger_unicast _ _ => true
  | ProxyFrameHost_runCommand _ => true
  | Database_remove _ _ => true
  | _ => false
  end.

(** What [sessionInit] can do to the visitor: the modal, a prompt, the
    native request or the silent re-subscription. *)
Definition isPromptStep (c : Collaborator) : bool :=
  match c with
  | SubscriptionModalHost_load _ _ => true
  | OneSignal_privateShowHttpPrompt => true
  | SubscriptionHelper_registerForPush => true
  | OneSignal_setSubscription _ => true
  | _ => false
  end.


(** ** The page around the bootstrap *)

(** The remaining methods of [InitHelper] call collaborators that the
    session bootstrap does not know, keep a few more [OneSignal] globals,
    and never suspend on a promise of their own.  They are embedded as
    state-passing functions over a [Page], which holds the [World] of the
    bootstrap, those globals, and a journal of everything that happened. *)

(** Only [NotificationPermission.Granted] is named by this file. *)
Inductive NotificationPermission : Type :=
| Granted
| OtherPermission (name : string).

(** Only [SubscriptionStateKind.Subscribed] is named by this file. *)
Inductive SubscriptionStateKind : Type :=
| Subscribed
| OtherSubscriptionState (name : string).

(** The values written to the database and to [LimitStore]. *)
Inductive StoredValue : Type :=
| VBool (b : bool)
| VString (s : string)
| VPermission (p : NotificationPermission).

(** What a user-supplied function may return. *)
Inductive JsValue : Type :=
| JUndefined
| JBool (b : bool)
| JString (s : string).

(** The entries of an options object such as [userConfig.notifyButton]; a
    function is given by what calling it yields. *)
Inductive OptionValue : Type :=
| OBool (b : bool)
| OString (s : string)
| OFunction (result : Outcome JsValue).

(** [new PushDeviceRecord()] with its [subscriptionState] set, and
    [new EmailDeviceRecord(null, emailAuthHash)]. *)
Inductive DeviceRecord : Type :=
| PushDeviceRecord (subscriptionState : SubscriptionStateKind)
| EmailDeviceRecord (emailAuthHash : option string).

(** The result of [Database.getEmailProfile()]. *)
Record EmailProfile : Type := mkEmailProfile {
  emailId : option string;
  emailAuthHash : option string
}.

(** The result of [ServiceWorkerManager.getRegistration()], when there is
    one: whether it has an active worker. *)
Record Registration : Type := mkRegistration { active : bool }.

(** [userConfig.webhooks]: the URL given for each event name, and whether
    [cors] is truthy. *)
Record Webhooks : Type := mkWebhooks {
  hooks : gmap string string;
  cors : bool
}.

(** [userConfig.promptOptions]: whether [slidedown.autoPrompt] is there and
    truthy, and the [customlink] object, kept opaque. *)
Record PromptOptions : Type := mkPromptOptions {
  slidedownAutoPrompt : bool;
  customlink : option string
}.

(** Calls that leave this file and that the session bootstrap does not
    make. *)
Inductive PageCall : Type :=
| OneSignal_privateGetNotificationPermission
| LimitStore_put (key : string) (value : StoredValue)
| Database_put (store key : string) (value : StoredValue)
| PermissionManager_getNotificationPermission (safariWebId : option string)
| SdkEnvironment_isFrameContextInsecure
| ServiceWorkerManager_getRegistration
| ServiceWorkerManager_establishServiceWorkerChannel
| CookieSyncer_install
| SubscriptionManager_isAlreadyRegisteredWithOneSignal
| MainHelper_getCurrentNotificationType
| Database_getSubscription
| OneSignalApiShared_updateUserSession (id : option string) (r : DeviceRecord)
| Database_getEmailProfile
| NotifyButton_displayPredicate
| Bell_create (options : gmap string OptionValue)
| CustomLink_initialize (customlink : option string)
| MainHelper_getAppId
| DynamicResourceLoader_loadFetchPolyfill.

(** An entry of the journal: an action of the kind the bootstrap records,
    or one of the calls above. *)
Inductive PageEvent : Type :=
| Core (e : Effect)
| Ext (c : PageCall).

Record Page : Type := mkPage {
  world : World;
  (** [OneSignal._initCalled] *)
  _initCalled : bool;
  (** [OneSignal.__doNotShowWelcomeNotification] *)
  __doNotShowWelcomeNotification : bool;
  (** [OneSignal.notifyButton]: the bell, by the options it was made from *)
  notifyButton : option (gmap string OptionValue);
  (** [OneSignal.config.userConfig.notifyButton] *)
  notifyButtonOptions : option (gmap string OptionValue);
  (** [OneSignal.config.userConfig.bell] *)
  bellOptions : option (gmap string OptionValue);
  (** everything that happened, newest first *)
  journal : list PageEvent
}.

Definition set_world (w : World) (pg : Page) : Page :=
  mkPage w (_initCalled pg) (__doNotShowWelcomeNotification pg)
    (notifyButton pg) (notifyButtonOptions pg) (bellOptions pg) (journal pg).

Definition set_initCalled (b : bool) (pg : Page) : Page :=
  mkPage (world pg) b (__doNotShowWelcomeNotification pg)
    (notifyButton pg) (notifyButtonOptions pg) (bellOptions pg) (journal pg).

Definition set_doNotShowWelcomeNotification (b : bool) (pg : Page) : Page :=
  mkPage (world pg) (_initCalled pg) b
    (notifyButton pg) (notifyButtonOptions pg) (bellOptions pg) (journal pg).

Definition set_notifyButton (o : gmap string OptionValue) (pg : Page) : Page :=
  mkPage (world pg) (_initCalled pg) (__doNotShowWelcomeNotification pg)
    (Some o) (notifyButtonOptions pg) (bellOptions pg) (journal pg).

Definition set_notifyButtonOptions (o : gmap string OptionValue) (pg : Page)
    : Page :=
  mkPage (world pg) (_initCalled pg) (__doNotShowWelcomeNotification pg)
    (notifyButton pg) (Some o) (bellOptions pg) (journal pg).

Definition set_bellOptions (o : gmap string OptionValue) (pg : Page) : Page :=
  mkPage (world pg) (_initCalled pg) (__doNotShowWelcomeNotification pg)
    (notifyButton pg) (notifyButtonOptions pg) (Some o) (journal pg).

(** Adds entries, newest first, to the journal. *)
Definition note (evs : list PageEvent) (pg : Page) : Page :=
  mkPage (world pg) (_initCalled pg) (__doNotShowWelcomeNotification pg)
    (notifyButton pg) (notifyButtonOptions pg) (bellOptions pg)
    (evs ++ journal pg)%list.

(** A page that has just loaded, with the given configuration of the
    notify button. *)
Definition freshPage (button bell : option (gmap string OptionValue)) : Page :=
  mkPage freshWorld false false None button bell [].

(** How a method of this part ends: it returned, it threw, or it is still
    waiting on a promise that nothing has resolved. *)
Inductive Result (A : Type) : Type :=
| Done (a : A)
| Failed (e : JsError)
| Waiting.
Arguments Done {A} a.
Arguments Failed {A} e.
Arguments Waiting {A}.

Definition Flow (A : Type) : Type := Page -> Result A * Page.

#[global] Instance Flow_ret : MRet Flow := fun A a pg => (Done a, pg).
#[global] Instance Flow_bind : MBind Flow := fun A B f m pg =>
  match m pg with
  | (Done a, pg') => f a pg'
  | (Failed e, pg') => (Failed e, pg')
  | (Waiting, pg') => (Waiting, pg')
  end.

Definition outcomeResult {A : Type} (o : Outcome A) : Result A :=
  match o with
  | Fulfilled a => Done a
  | Rejected e => Failed e
  end.

(** [await c(...)] for a call the bootstrap does not know. *)
Definition ext {A : Type} (c : PageCall) (o : Outcome A) : Flow A :=
  fun pg => (outcomeResult o, note [Ext c] pg).

(** [c(...);] for such a call whose result is not used. *)
Definition extFire (c : PageCall) : Flow unit :=
  fun pg => (Done tt, note [Ext c] pg).

(** [await c(...)] for a call the bootstrap knows. *)
Definition coreCall {A : Type} (c : Collaborator) (o : Outcome A) : Flow A :=
  fun pg => (outcomeResult o, note [Core (EvCall c)] pg).

(** [Log.debug], [Log.info] and [Log.error]. *)
Definition logF (level : LogLevel) (msg : string) (args : list LogArg)
    : Flow unit :=
  fun pg => (Done tt, note [Core (EvLog level msg args)] pg).

(** A change of the globals kept in the page. *)
Definition update (f : Page -> Page) : Flow unit := fun pg => (Done tt, f pg).

(** Reading the page. *)
Definition look {A : Type} (f : Page -> Flow A) : Flow A := fun pg => f pg pg.

(** [try { m } catch (e) { h e }] *)
Definition tryCatch {A : Type} (m : Flow A) (h : JsError -> Flow A) : Flow A :=
  fun pg =>
    match m pg with
    | (Failed e, pg') => h e pg'
    | r => r
    end.

(** What [h'] has that [h] had not yet, for histories kept newest first. *)
Definition since (h h' : list Effect) : list Effect :=
  take (length h' - length h) h'.

(** [await p(...)] for an asynchronous method [p] of the bootstrap: it runs
    on the world of the page, and what it did is copied to the journal. *)
Definition liftProg {A : Type} (p : Prog A) : Flow A :=
  fun pg =>
    let (s, w') := run p (world pg) in
    let pg' := note (Core <$> since (history (world pg)) (history w'))
                 (set_world w' pg) in
    match s with
    | Settled (Fulfilled a) => (Done a, pg')
    | Settled (Rejected e) => (Failed e, pg')
    | Suspended _ => (Waiting, pg')
    | Blocked _ _ => (Waiting, pg')
    end.

(** ** The collaborators of the page *)

(** The part of [OneSignal.config.userConfig] that [saveInitOptions]
    reads. *)
Record InitOptions : Type := mkInitOptions {
  persistNotification : option bool;
  webhooks : option Webhooks;
  notificationClickHandlerMatch : option string;
  notificationClickHandlerAction : option string
}.

(** What the code outside this file answers to the methods of this part.
    [databasePut] tells how [Database.put] settles for a store and a
    key. *)
Record PageEnv : Type := mkPageEnv {
  session : SessionEnv;
  renewal : RenewalEnv;
  permission : PermissionEnv;
  initOptions : InitOptions;
  (** [OneSignal.config.userConfig.promptOptions] *)
  promptOptions : option PromptOptions;
  (** [context.appConfig.safariWebId] *)
  safariWebId : option string;
  (** whether [context.appConfig.enableOnSession] is truthy *)
  enableOnSession : bool;
  (** whether [config.emailAuthRequired] is truthy *)
  emailAuthRequired : bool;
  (** [Environment.isBrowser()] *)
  isBrowser : bool;
  (** whether [navigator.serviceWorker] is there *)
  navigatorServiceWorker : bool;
  (** [window.location.protocol] *)
  locationProtocol : string;
  (** [document.title] *)
  documentTitle : string;
  (** whether [window.fetch] is defined *)
  fetchDefined : bool;
  (** [context.sessionManager.isFirstPageView()] *)
  isFirstPageView : bool;
  (** [OneSignal.privateGetNotificationPermission()] *)
  privateGetNotificationPermission : Outcome NotificationPermission;
  (** [context.permissionManager.getNotificationPermission(safariWebId)] *)
  getNotificationPermission : Outcome NotificationPermission;
  databasePut : string -> string -> Outcome unit;
  (** [SdkEnvironment.isFrameContextInsecure()] *)
  isFrameContextInsecure : Outcome bool;
  (** [ServiceWorkerManager.getRegistration()] *)
  getRegistration : Outcome (option Registration);
  (** [context.serviceWorkerManager.establishServiceWorkerChannel()] *)
  establishServiceWorkerChannel : Outcome unit;
  (** [context.cookieSyncer.install()] *)
  cookieSyncerInstall : Outcome unit;
  (** [context.subscriptionManager.isAlreadyRegisteredWithOneSignal()] *)
  isAlreadyRegisteredWithOneSignal : Outcome bool;
  (** [MainHelper.getCurrentNotificationType()] *)
  getCurrentNotificationType : Outcome SubscriptionStateKind;
  (** the [deviceId] of [Database.getSubscription()] *)
  getSubscription : Outcome (option string);
  (** [OneSignalApiShared.updateUserSession(id, record)] *)
  updateUserSession : option string -> DeviceRecord -> Outcome unit;
  (** [Database.getEmailProfile()] *)
  getEmailProfile : Outcome EmailProfile;
  (** [CustomLink.initialize(customlink)] *)
  customLinkInitialize : Outcome unit;
  (** [MainHelper.getAppId()] *)
  getAppId : Outcome string;
  (** [new DynamicResourceLoader().loadFetchPolyfill()] *)
  loadFetchPolyfill : Outcome unit
}.

(** [await Database.put(store, { key, value })] *)
Definition databasePutF (env : PageEnv) (store key : string)
    (value : StoredValue) : Flow unit :=
  ext (Database_put store key value) (databasePut env store key).


(** The first rejection of a list of settled promises. *)
Fixpoint firstRejection (os : list (Outcome unit)) : option JsError :=
  match os with
  | [] => None
  | Rejected e :: _ => Some e
  | Fulfilled _ :: r => firstRejection r
  end.

(** [Promise.all(ops)] over calls already made: every call of the list has
    been made, in order, when the result is awaited, and the result is a
    rejection exactly when one of them rejects.  Which error it carries
    when several reject depends on the order in which they settle; the
    first of the list is taken here. *)
Definition promiseAll (ops : list (PageCall * Outcome unit)) : Flow unit :=
  fun pg =>
    (match firstRejection ops.*2 with
     | Some e => Failed e
     | None => Done tt
     end,
     note (rev (Ext <$> ops.*1)) pg).

Inductive SdkInitErrorKind : Type := MultipleInitialization.

Module InitHelperPage.

(** [static async storeInitialValues()] *)
Definition storeInitialValues (env : PageEnv) : Flow unit :=
  isPushEnabled ← coreCall OneSignal_privateIsPushNotificationsEnabled
                    (privateIsPushNotificationsEnabled (session env));
  notificationPermission ← ext OneSignal_privateGetNotificationPermission
                             (privateGetNotificationPermission env);
  isOptedOut ← coreCall OneSignal_internalIsOptedOut
                 (internalIsOptedOut (session env));
  extFire (LimitStore_put "subscription.optedOut" (VBool isOptedOut)) ;;
  databasePutF env "Options" "isPushEnabled" (VBool isPushEnabled) ;;
  databasePutF env "Options" "notificationPermission"
    (VPermission notificationPermission).

(** [public static async sendOnSessionUpdate()].  The text given to
    [Log.error] is a template built from the error: its fixed part and the
    error are kept. *)
Definition sendOnSessionUpdate (env : PageEnv) : Flow unit :=
  if negb (enableOnSession env) &&
     negb (isUsingSubscriptionWorkaround (session env))
  then mret tt
  else if negb (isFirstPageView env) then mret tt
  else
    existingUser ← ext SubscriptionManager_isAlreadyRegisteredWithOneSignal
                     (isAlreadyRegisteredWithOneSignal env);
    if negb existingUser then mret tt
    else
      notificationType ← ext MainHelper_getCurrentNotificationType
                           (getCurrentNotificationType env);
      if isUsingSubscriptionWorkaround (session env) &&
         negb (match notificationType with Subscribed => true | _ => false end)
      then mret tt
      else
        let pushDeviceRecord := PushDeviceRecord notificationType in
        tryCatch
          (deviceId ← ext Database_getSubscription (getSubscription env);
           ext (OneSignalApiShared_updateUserSession deviceId pushDeviceRecord)
             (updateUserSession env deviceId pushDeviceRecord))
          (fun e => logF Error "Failed to update user session." [ArgError e]).

(** The merge of [showNotifyButton]:
    [bell = { ...bell, ...notifyButton }] and then
    [notifyButton = { ...notifyButton, ...bell }].  In a spread the later
    object wins, so the left-biased union has it on the left. *)
Definition mergeBell (pg : Page) : Page :=
  match bellOptions pg with
  | Some bell =>
      let button := default ∅ (notifyButtonOptions pg) in
      let bell' := button ∪ bell in
      set_notifyButtonOptions (bell' ∪ button) (set_bellOptions bell' pg)
  | None => pg
  end.

(** [OneSignal.notifyButton = new Bell(options);
     OneSignal.notifyButton.create();] *)
Definition createBell (options : gmap string OptionValue) : Flow unit :=
  update (set_notifyButton options) ;; extFire (Bell_create options).

(** [private static async showNotifyButton()] *)
Definition showNotifyButton (env : PageEnv) : Flow unit :=
  look (fun pg =>
  if isBrowser env && negb (bool_decide (is_Some (notifyButton pg))) then
    update (set_notifyButtonOptions (default ∅ (notifyButtonOptions pg))) ;;
    update mergeBell ;;
    look (fun pg =>
    let options := default ∅ (notifyButtonOptions pg) in
    match options !! "displayPredicate" with
    | Some (OFunction result) =>
        predicateValue ← ext NotifyButton_displayPredicate result;
        match predicateValue with
        | JBool false =>
            logF Debug "Notify button display predicate returned false so not showing the notify button." []
        | _ => createBell options
        end
    | _ => createBell options
    end)
  else mret tt).

(** [public static async updateEmailSessionCount()] *)
Definition updateEmailSessionCount (env : PageEnv) : Flow unit :=
  if isFirstPageView env then
    emailProfile ← ext Database_getEmailProfile (getEmailProfile env);
    if truthy_string (emailId emailProfile) then
      ext (OneSignalApiShared_updateUserSession (emailId emailProfile)
             (EmailDeviceRecord (emailAuthHash emailProfile)))
        (updateUserSession env (emailId emailProfile)
           (EmailDeviceRecord (emailAuthHash emailProfile)))
    else mret tt
  else mret tt.

(** [private static async showPromptsFromWebConfigEditor()] *)
Definition showPromptsFromWebConfigEditor (env : PageEnv) : Flow unit :=
  isPushEnabled ← coreCall OneSignal_privateIsPushNotificationsEnabled
                    (privateIsPushNotificationsEnabled (session env));
  (if negb isPushEnabled &&
      match promptOptions env with
      | Some o => slidedownAutoPrompt o
      | None => false
      end
   then
     isOptedOut ← coreCall OneSignal_internalIsOptedOut
                    (internalIsOptedOut (session env));
     if negb isOptedOut
     then coreCall OneSignal_privateShowHttpPrompt
            (privateShowHttpPrompt (session env))
     else mret tt
   else mret tt) ;;
  match promptOptions env with
  | Some o => ext (CustomLink_initialize (customlink o))
                (customLinkInitialize env)
  | None => mret tt
  end.

(** The writes of [saveInitOptions], in the order they are pushed: the key
    in the store [Options] and the value. *)
Definition initOptionWrites (o : InitOptions) : list (string * StoredValue) :=
  [("persistNotification",
    match persistNotification o with
    | Some false => VBool false
    | Some true => VString "force"
    | None => VBool true
    end)] ++
  ((fun event =>
      ("webhooks." +:+ event,
       match webhooks o with
       | Some wh =>
           match hooks wh !! event with
           | Some url => if String.eqb url "" then VBool false else VString url
           | None => VBool false
           end
       | None => VBool false
       end)) <$>
   ["notification.displayed"; "notification.clicked";
    "notification.dismissed"]) ++
  [("webhooks.cors",
    VBool match webhooks o with Some wh => cors wh | None => false end);
   ("notificationClickHandlerMatch",
    match notificationClickHandlerMatch o with
    | Some m => if String.eqb m "" then VString "exact" else VString m
    | None => VString "exact"
    end);
   ("notificationClickHandlerAction",
    match notificationClickHandlerAction o with
    | Some a => if String.eqb a "" then VString "navigate" else VString a
    | None => VString "navigate"
    end)].

(** [static async saveInitOptions()] *)
Definition saveInitOptions (env : PageEnv) : Flow unit :=
  promiseAll
    ((fun kv => (Database_put "Options" kv.1 kv.2,
                 databasePut env "Options" kv.1)) <$>
     initOptionWrites (initOptions env)).

(** [overridingPageTitle || document.title || 'Notification'] *)
Definition initialPageTitle (overridingPageTitle : option string)
    (title : string) : string :=
  if truthy_string overridingPageTitle then default "" overridingPageTitle
  else if negb (String.eqb title "") then title
  else "Notification".

(** [static async initSaveState(overridingPageTitle)] *)
Definition initSaveState (env : PageEnv) (overridingPageTitle : option string)
    : Flow unit :=
  appId ← ext MainHelper_getAppId (getAppId env);
  databasePutF env "Ids" "appId" (VString appId) ;;
  let title := initialPageTitle overridingPageTitle (documentTitle env) in
  databasePutF env "Options" "pageTitle" (VString title) ;;
  logF Info ("OneSignal: Set pageTitle to be '" +:+ title +:+ "'.") [] ;;
  databasePutF env "Options" "emailAuthRequired"
    (VBool (emailAuthRequired env)).

(** [static async polyfillSafariFetch()] *)
Definition polyfillSafariFetch (env : PageEnv) : Flow unit :=
  if safari (bowser (session env)) && negb (fetchDefined env) then
    logF Debug "Loading fetch polyfill for Safari.." [] ;;
    tryCatch
      (ext DynamicResourceLoader_loadFetchPolyfill (loadFetchPolyfill env) ;;
       logF Debug "Done loading fetch polyfill." [])
      (fun e => logF Debug "Error loading fetch polyfill:" [ArgError e])
  else mret tt.

(** [static errorIfInitAlreadyCalled()]: the error thrown, if any, and the
    page after the call. *)
Definition errorIfInitAlreadyCalled (pg : Page)
    : option SdkInitErrorKind * Page :=
  if _initCalled pg then (Some MultipleInitialization, pg)
  else (None, set_initCalled true pg).

(** The block of [onSdkInitialized] that brings up the channel to an
    active service worker. *)
Definition establishChannelIfActive (env : PageEnv) : Flow unit :=
  if navigatorServiceWorker env && String.eqb (locationProtocol env) "https:"
  then
    insecure ← ext SdkEnvironment_isFrameContextInsecure
                 (isFrameContextInsecure env);
    if negb insecure then
      tryCatch
        (registration ← ext ServiceWorkerManager_getRegistration
                          (getRegistration env);
         match registration with
         | Some r =>
             if active r
             then ext ServiceWorkerManager_establishServiceWorkerChannel
                    (establishServiceWorkerChannel env)
             else mret tt
         | None => mret tt
         end)
        (fun e => logF Error "" [ArgError e])
    else mret tt
  else mret tt.

(** [static async onSdkInitialized()] *)
Definition onSdkInitialized (env : PageEnv) : Flow unit :=
  storeInitialValues env ;;
  liftProg (InitHelper.installNativePromptPermissionChangedHook
              (permission env)) ;;
  granted ← ext (PermissionManager_getNotificationPermission (safariWebId env))
              (getNotificationPermission env);
  (match granted with
   | Granted => update (set_doNotShowWelcomeNotification true)
   | _ => mret tt
   end) ;;
  establishChannelIfActive env ;;
  liftProg (InitHelper.processExpiringSubscriptions (renewal env)) ;;
  showNotifyButton env ;;
  showPromptsFromWebConfigEditor env ;;
  sendOnSessionUpdate env ;;
  updateEmailSessionCount env ;;
  ext CookieSyncer_install (cookieSyncerInstall env) ;;
  coreCall (Event_trigger SDK_INITIALIZED_PUBLIC) (Fulfilled tt).

End InitHelperPage.

(** [n] calls of [errorIfInitAlreadyCalled] in a row: what each threw, and
    the page at the end. *)
Fixpoint callInitGuard (n : nat) (pg : Page)
    : list (option SdkInitErrorKind) * Page :=
  match n with
  | 0 => ([], pg)
  | S n' =>
      let (r, pg1) := InitHelperPage.errorIfInitAlreadyCalled pg in
      let (rs, pg2) := callInitGuard n' pg1 in
      (r :: rs, pg2)
  end.

(** Modelled from the spec: [Database.put] on one store (the database
    service is not part of this file) sets the key to the value.  The
    store after the writes [ws] have been applied in the order of the
    list. *)
Definition storeAll (ws : list (string * StoredValue))
    (db : gmap string StoredValue) : gmap string StoredValue :=
  foldl (fun d kv => <[kv.1 := kv.2]> d) db ws.

(** The calls of the journal entries [evs], oldest first among [evs] when
    [evs] is. *)
Fixpoint pageCalls (evs : list PageEvent) : list PageCall :=
  match evs with
  | [] => []
  | Ext c :: r => c :: pageCalls r
  | Core _ :: r => pageCalls r
  end.

(** The writes among page calls. *)
Definition isWrite (c : PageCall) : bool :=
  match c with
  | LimitStore_put _ _ => true
  | Database_put _ _ _ => true
  | _ => false
  end.

(** The public signal that the page is initialized. *)
Definition isPublicSignal (ev : PageEvent) : bool :=
  match ev with
  | Core (EvCall (Event_trigger SDK_INITIALIZED_PUBLIC)) => true
  | _ => false
  end.

(** [evs], oldest first, are the entries that took the journal of [pg] to
    that of [pg']. *)
Definition journal_since (pg pg' : Page) (evs : list PageEvent) : Prop :=
  journal pg' = (rev evs ++ journal pg)%list.

(** The page with its journal left out: what a method changed besides
    adding to the journal. *)
Definition forget_journal (pg : Page) : Page :=
  mkPage (world pg) (_initCalled pg) (__doNotShowWelcomeNotification pg)
    (notifyButton pg) (notifyButtonOptions pg) (bellOptions pg) [].


(** [pg'] comes from [pg] by journal entries none of which is the public
    signal, with the welcome flag as it was. *)
Definition quietly (pg pg' : Page) : Prop :=
  exists evs,
    journal_since pg pg' evs /\
    Forall (fun ev => isPublicSignal ev = false) evs /\
    __doNotShowWelcomeNotification pg' = __doNotShowWelcomeNotification pg.

(** A flow that only takes such steps, however it ends. *)
Definition quiet {A : Type} (m : Flow A) : Prop :=
  forall pg, quietly pg (m pg).2.

(** The entry of the journal that makes the page public. *)
Definition publicSignal : PageEvent :=
  Core (EvCall (Event_trigger SDK_INITIALIZED_PUBLIC)).

(** ** Sample pages of this part *)

(** A page served over HTTPS with an active service worker, seen for the
    first time in this session by a visitor who is registered and
    subscribed; every collaborator resolves. *)
Definition returningVisitorPage (sess : SessionEnv) (title : string)
    : PageEnv :=
  mkPageEnv sess
    (expiringPage Secure (OtherWindowEnvironment "host")
       (Fulfilled (mkRaw "raw")) (Fulfilled tt))
    sharedStatusBrowser
    (mkInitOptions None None None None)
    None None true false true true "https:" title true true
    (Fulfilled Granted) (Fulfilled Granted) (fun _ _ => Fulfilled tt)
    (Fulfilled false) (Fulfilled (Some (mkRegistration true)))
    (Fulfilled tt) (Fulfilled tt)
    (Fulfilled true) (Fulfilled Subscribed) (Fulfilled (Some "device"))
    (fun _ _ => Fulfilled tt)
    (Fulfilled (mkEmailProfile None None)) (Fulfilled tt)
    (Fulfilled "app-id") (Fulfilled tt).

(** A page configured with both [notifyButton] and [bell]. *)
Definition bothButtonsPage : Page :=
  freshPage (Some {[ "size" := OString "large" ]})
    (Some {[ "size" := OString "small"; "position" := OString "left" ]}).

(** * Properties *)

Import InitHelper.

(** ** Running programs step by step *)

Section RunLemmas.
Context {A B : Type}.

Lemma run_bind (p : Prog A) (f : A -> Prog B) (w : World) :
  run (p ≫= f) w =
  match run p w with
  | (Settled (Fulfilled a), w') => run (f a) w'
  | (Settled (Rejected e), w') => (Settled (Rejected e), w')
  | (Suspended k, w') => (Suspended (k ≫= f), w')
  | (Blocked q k, w') => (Blocked q (fun s => k s ≫= f), w')
  end.
Proof.
  revert w.
  induction p as [a|e|k IH|g k IH|k IH|q k IH]; intros w; simpl; auto.
  destruct (promises w !! q); [apply IH | reflexivity].
Qed.

Lemma start_bind (p : Prog A) (f : A -> Prog B) (w : World) :
  start (p ≫= f) w =
  match start p w with
  | (Settled (Fulfilled a), w') => start (f a) w'
  | (Settled (Rejected e), w') => (Settled (Rejected e), w')
  | (Suspended k, w') => (Suspended (k ≫= f), w')
  | (Blocked q k, w') => (Blocked q (fun s => k s ≫= f), w')
  end.
Proof.
  revert w.
  induction p as [a|e|k IH|g k IH|k IH|q k IH]; intros w; simpl; auto.
Qed.
End RunLemmas.

Lemma run_Read {A} (k : World -> Prog A) w : run (Read k) w = run (k w) w.
Proof. reflexivity. Qed.

Lemma run_Ret {A} (a : A) w : run (Ret a) w = (Settled (Fulfilled a), w).
Proof. reflexivity. Qed.

Lemma run_Throw {A} e w : run (@Throw A e) w = (Settled (Rejected e), w).
Proof. reflexivity. Qed.

Lemma run_Write {A} f (k : Prog A) w : run (Write f k) w = run k (f w).
Proof. reflexivity. Qed.

Lemma run_Tick {A} (k : Prog A) w : run (Tick k) w = run k w.
Proof. reflexivity. Qed.

Lemma run_settle {A} (o : Outcome A) w : run (settle o) w = (Settled o, w).
Proof. destruct o; reflexivity. Qed.

Lemma run_act f w : run (act f) w = (Settled (Fulfilled tt), f w).
Proof. reflexivity. Qed.

Lemma run_log l m a w :
  run (log l m a) w = (Settled (Fulfilled tt), record (EvLog l m a) w).
Proof. reflexivity. Qed.

Lemma run_fire c w :
  run (fire c) w = (Settled (Fulfilled tt), record (EvCall c) w).
Proof. reflexivity. Qed.

Lemma run_await_call {A} c (o : Outcome A) w :
  run (await_call c o) w = (Settled o, record (EvCall c) w).
Proof. destruct o; reflexivity. Qed.

Lemma run_await_call_catch c o h w :
  run (await_call_catch c o h) w =
  match o with
  | Fulfilled _ => (Settled (Fulfilled tt), record (EvCall c) w)
  | Rejected e => run (h e) (record (EvCall c) w)
  end.
Proof. destruct o; reflexivity. Qed.

Lemma run_trigger e w :
  run (trigger e) w =
  (Settled (Fulfilled tt), record (EvCall (Event_trigger e)) w).
Proof. reflexivity. Qed.

Lemma run_finishSessionInit o w :
  run (await_async (finishSessionInit o)) w =
  (Settled (Fulfilled tt),
   if truthy (__fromInit o)
   then record (EvCall (Event_trigger SDK_INITIALIZED))
          (set_sessionInitAlreadyRunning false w)
   else set_sessionInitAlreadyRunning false w).
Proof.
  unfold await_async, finishSessionInit.
  destruct (truthy _); reflexivity.
Qed.

Lemma run_onHttpPromptRejected e w :
  run (onHttpPromptRejected e) w =
  (Settled (Fulfilled tt),
   record (EvLog (if promptNotShowing e then Debug else Info)
                 (if promptNotShowing e then "[Prompt Not Showing]" else "")
                 [ArgError e]) w).
Proof.
  unfold onHttpPromptRejected. destruct (promptNotShowing e); reflexivity.
Qed.

Lemma run_database_remove store key w :
  run (database_remove store key) w =
  (Settled (Fulfilled tt),
   record (EvCall (Database_remove store key))
     (set_database (delete (store, key) (database w)) w)).
Proof. reflexivity. Qed.

Lemma run_permissions_query query w :
  run (permissions_query query) w =
  (Settled (query (permissionQueries w)),
   record (EvCall Permissions_query)
     (set_permissionQueries (S (permissionQueries w)) w)).
Proof.
  unfold permissions_query. simpl. destruct (query _); reflexivity.
Qed.

Lemma start_Read {A} (k : World -> Prog A) w : start (Read k) w = start (k w) w.
Proof. reflexivity. Qed.

Lemma start_Ret {A} (a : A) w : start (Ret a) w = (Settled (Fulfilled a), w).
Proof. reflexivity. Qed.

Lemma start_Throw {A} e w : start (@Throw A e) w = (Settled (Rejected e), w).
Proof. reflexivity. Qed.

Lemma start_Write {A} f (k : Prog A) w : start (Write f k) w = start k (f w).
Proof. reflexivity. Qed.

Lemma start_Tick {A} (k : Prog A) w : start (Tick k) w = (Suspended k, w).
Proof. reflexivity. Qed.

Lemma start_act f w : start (act f) w = (Settled (Fulfilled tt), f w).
Proof. reflexivity. Qed.

Lemma start_log l m a w :
  start (log l m a) w = (Settled (Fulfilled tt), record (EvLog l m a) w).
Proof. reflexivity. Qed.

Lemma start_await_call {A} c (o : Outcome A) w :
  start (await_call c o) w = (Suspended (settle o), record (EvCall c) w).
Proof. reflexivity. Qed.

Lemma start_await_call_catch c o h w :
  start (await_call_catch c o h) w =
  (Suspended (match o with Fulfilled _ => Ret tt | Rejected e => h e end),
   record (EvCall c) w).
Proof. reflexivity. Qed.

Lemma start_finishSessionInit o w :
  start (await_async (finishSessionInit o)) w =
  if truthy (__fromInit o)
  then (Suspended (settle (Fulfilled tt) ≫= fun x => Tick (Ret x)),
        record (EvCall (Event_trigger SDK_INITIALIZED))
          (set_sessionInitAlreadyRunning false w))
  else (Suspended (Ret tt), set_sessionInitAlreadyRunning false w).
Proof.
  unfold await_async, finishSessionInit.
  destruct (truthy _); reflexivity.
Qed.

Create Rewrite HintDb run.
#[local] Hint Rewrite @run_bind @run_Read @run_Ret @run_Throw @run_Write
  @run_Tick @run_settle run_act run_log
  run_fire @run_await_call run_await_call_catch run_trigger
  run_finishSessionInit run_onHttpPromptRejected run_database_remove
  run_permissions_query : run.

Create Rewrite HintDb start.
#[local] Hint Rewrite @start_bind @start_Read @start_Ret @start_Throw
  @start_Write @start_Tick start_act start_log
  @start_await_call start_await_call_catch start_finishSessionInit : start.

#[local] Arguments showSlidedown : simpl never.
#[local] Arguments promptNotShowing : simpl never.

(** Projections of a world that was built by the setters. *)
Ltac world_simpl :=
  cbn [_sessionInitAlreadyRunning subscriptionModalHost
       _usingNativePermissionHook database visibilityState documentListeners
       nextListener messengerListeners promises nextPromise permissionQueries
       onchange history record set_sessionInitAlreadyRunning
       set_subscriptionModalHost set_usingNativePermissionHook set_database
       set_visibilityState set_documentListeners set_messengerListeners
       set_promises set_permissionQueries set_onchange
       once_visibilitychange messenger_once removeDocumentListener] in *.

Lemma latch_record e w :
  _sessionInitAlreadyRunning (record e w) = _sessionInitAlreadyRunning w.
Proof. reflexivity. Qed.

(** Case analysis on whatever blocks the execution of [run]. *)
Ltac branch :=
  match goal with
  | |- context [run (match ?o with _ => _ end) _] => destruct o eqn:?
  | |- context [match ?o with Fulfilled _ => _ | Rejected _ => _ end] =>
      destruct o eqn:?
  end.

Ltac exec := repeat (autorewrite with run; try branch).

(** The same for a hypothesis [Hs] about [start]. *)
Ltac start_branch :=
  match goal with
  | H : context [start (match ?o with _ => _ end) _] |- _ => destruct o eqn:?
  | H : context [if ?b then (_, _) else _] |- _ => destruct b eqn:?
  end.

(** Turns a history equation into its oldest-first reading. *)
Lemma events_since_intro (w w' : World) (l : list Effect) :
  history w' = (l ++ history w)%list -> events_since w w' (rev l).
Proof. unfold events_since. rewrite rev_involutive. auto. Qed.

(** Reads the new part off a history [a :: b :: ... :: history w]. *)
Ltac prefix_of t base :=
  lazymatch t with
  | base => constr:(@nil Effect)
  | ?x :: ?r => let p := prefix_of r base in constr:(x :: p)
  end.

Ltac history_prefix :=
  lazymatch goal with
  | |- ?lhs = (?l ++ ?base)%list =>
      let p := prefix_of lhs base in unify l p; reflexivity
  end.

(** Case analysis on whatever blocks the execution of [start]. *)
Ltac start_goal_branch :=
  match goal with
  | |- context [start (if ?b then _ else _) _] => destruct b eqn:?
  | |- context [start (match ?o with _ => _ end) _] => destruct o eqn:?
  | |- context [if ?b then (_, _) else _] => destruct b eqn:?
  end.

(** ** The single-flight latch *)

(** C1, as stated, fails: [sessionInit] has no [try]/[finally].  With a
    modal prompt requested from an explicit register call, a rejection of
    [subscriptionModalHost.load()] makes the call reject while
    [_sessionInitAlreadyRunning] is still [true]. *)
Lemma sessionInit_latch_stuck_after_load_error :
  let env := securePage firefox90 (Some true) false
               (Rejected (OtherError "load failed")) (Fulfilled false)
               (Fulfilled tt) in
  let final := run (sessionInit env (Some modalOptions)) freshWorld in
  _sessionInitAlreadyRunning freshWorld = false /\
  final.1 = Settled (Rejected (OtherError "load failed")) /\
  _sessionInitAlreadyRunning final.2 = true.
Proof. vm_compute. auto. Qed.

(** C1, amended: a call of [sessionInit] that acquires the latch always
    settles; whenever it resolves (normal return or any early return) the
    latch is idle again, and the latch can only be left set when the call
    rejects with the error of [subscriptionModalHost.load()] or of
    [internalIsOptedOut()], the two awaits that precede
    [finishSessionInit].  A rejection of [registerForPush], which comes
    after [finishSessionInit], therefore leaves the latch idle. *)
Theorem sessionInit_latch_released (env : SessionEnv)
    (opts : option SessionInitOptions) (w : World) :
  _sessionInitAlreadyRunning w = false ->
  exists r w',
    run (sessionInit env opts) w = (Settled r, w') /\
    (r = Fulfilled tt -> _sessionInitAlreadyRunning w' = false) /\
    (_sessionInitAlreadyRunning w' = true ->
     exists e, r = Rejected e /\
       (modalHostLoad env = Rejected e \/ internalIsOptedOut env = Rejected e)).
Proof.
  intros Hl. unfold sessionInit.
  autorewrite with run. rewrite latch_record, Hl. exec.
  all: eexists _, _; (split; [reflexivity|]).
  all: repeat match goal with
         | |- context [if ?b then _ else _] => destruct b
         end; world_simpl.
  all: split; [done|]; intros H; try discriminate H; eauto.
Qed.

Lemma sessionInit_latch_released_witness :
  exists r w',
    run (sessionInit (legacyPage (Rejected AlreadySubscribedError)) None)
      freshWorld = (Settled r, w') /\
    (r = Fulfilled tt -> _sessionInitAlreadyRunning w' = false) /\
    (_sessionInitAlreadyRunning w' = true ->
     exists e, r = Rejected e /\
       (modalHostLoad (legacyPage (Rejected AlreadySubscribedError))
          = Rejected e \/
        internalIsOptedOut (legacyPage (Rejected AlreadySubscribedError))
          = Rejected e)).
Proof.
  apply (sessionInit_latch_released
           (legacyPage (Rejected AlreadySubscribedError)) None freshWorld).
  reflexivity.
Defined.

(** A call of [sessionInit] that finds the latch idle takes it: these are
    the first two things it does. *)
Lemma sessionInit_takes_idle_latch (env : SessionEnv)
    (opts : option SessionInitOptions) (w : World) :
  _sessionInitAlreadyRunning w = false ->
  exists s w' rest,
    start (sessionInit env opts) w = (s, w') /\
    events_since w w'
      (EvLog Debug "Called sessionInit"
         [ArgOptions (default emptyOptions opts)]
       :: EvLatch true :: rest).
Proof.
  intros Hl. unfold sessionInit. autorewrite with start.
  rewrite latch_record, Hl. autorewrite with start.
  repeat (start_goal_branch; autorewrite with start).
  all: eexists _, _, _; split; [reflexivity|].
  all: match goal with
       | |- events_since ?w ?w' _ =>
           let H := fresh in
           eassert (H : events_since w w' _)
             by (apply events_since_intro; world_simpl; history_prefix);
           rewrite ?rev_app_distr in H; cbn [rev app] in H; exact H
       end.
Qed.

(** C2, as stated, fails in its second half: the latch is released by
    [finishSessionInit], and on the path of a dismissed native prompt
    that runs before the first [await].  Two calls made one right after
    the other, before any continuation has run, both take the latch and
    both run the bootstrap: [SDK_INITIALIZED] is emitted twice. *)
Lemma sessionInit_twice_runs_twice_after_early_release :
  let env := securePage firefox90 (Some true) true (Fulfilled tt)
               (Fulfilled false) (Fulfilled tt) in
  let first := start (sessionInit env (Some fromInitOptions)) freshWorld in
  let second := start (sessionInit env (Some fromInitOptions)) first.2 in
  let after_first := resume first.1 second.2 in
  let final := resume second.1 after_first.2 in
  (exists k, first.1 = Suspended k) /\
  _sessionInitAlreadyRunning first.2 = false /\
  after_first.1 = Settled (Fulfilled tt) /\
  final.1 = Settled (Fulfilled tt) /\
  signals (history final.2) = 2 /\
  List.filter (fun e => negb (is_debug_log e)) (history final.2) =
    [EvCall (Event_trigger SDK_INITIALIZED); EvLatch false; EvLatch true;
     EvCall (Event_trigger SDK_INITIALIZED); EvLatch false; EvLatch true].
Proof. vm_compute. split; [eexists; reflexivity | auto]. Qed.

(** C2, amended: a call of [sessionInit] made while the latch is set
    returns at once, without suspending and without an error, and changes
    nothing but the history, to which it adds two debug traces.  A call
    that took the latch is suspended at its first [await], and it still
    holds the latch there exactly on the paths that await something
    before [finishSessionInit].  On those paths a second call made at
    that point is turned away, and the first call continues to the same
    result and the same world, debug traces apart: the side effects
    happen once.  On the other paths the latch is idle again at that
    point, and a second call takes it and runs the bootstrap once more. *)
Theorem sessionInit_reentrant_call_is_noop (env : SessionEnv)
    (first second : option SessionInitOptions) (w w0 : World) :
  _sessionInitAlreadyRunning w = true ->
  _sessionInitAlreadyRunning w0 = false ->
  start (sessionInit env second) w
    = (Settled (Fulfilled tt), turnedAway second w) /\
  exists k w1,
    start (sessionInit env first) w0 = (Suspended k, w1) /\
    _sessionInitAlreadyRunning w1
      = holdsLatchAtFirstAwait env (default emptyOptions first) /\
    (_sessionInitAlreadyRunning w1 = true ->
     start (sessionInit env second) w1
       = (Settled (Fulfilled tt), turnedAway second w1) /\
     (run k (turnedAway second w1)).1 = (run k w1).1 /\
     without_debug_logs (run k (turnedAway second w1)).2
       = without_debug_logs (run k w1).2) /\
    (_sessionInitAlreadyRunning w1 = false ->
     exists s2 w2 rest,
       start (sessionInit env second) w1 = (s2, w2) /\
       events_since w1 w2
         (EvLog Debug "Called sessionInit"
            [ArgOptions (default emptyOptions second)]
          :: EvLatch true :: rest)).
Proof.
  assert (Haway : forall w', _sessionInitAlreadyRunning w' = true ->
            start (sessionInit env second) w'
              = (Settled (Fulfilled tt), turnedAway second w')).
  { intros w' Hl'. unfold sessionInit. autorewrite with start.
    rewrite latch_record, Hl'. autorewrite with start. reflexivity. }
  intros Hl Hl0. split; [apply Haway; exact Hl|].
  assert (Hfirst : exists k w1,
    start (sessionInit env first) w0 = (Suspended k, w1) /\
    _sessionInitAlreadyRunning w1
      = holdsLatchAtFirstAwait env (default emptyOptions first) /\
    (_sessionInitAlreadyRunning w1 = true ->
     (run k (turnedAway second w1)).1 = (run k w1).1 /\
     without_debug_logs (run k (turnedAway second w1)).2
       = without_debug_logs (run k w1).2)).
  { unfold sessionInit, holdsLatchAtFirstAwait, turnedAway.
    autorewrite with start. rewrite latch_record, Hl0.
    autorewrite with start.
    repeat (start_goal_branch; autorewrite with start).
    all: eexists _, _; split; [reflexivity|].
    all: world_simpl; cbn [negb andb]; split; [reflexivity|].
    all: intros Hheld; try discriminate Hheld.
    all: exec.
    all: repeat match goal with
           | |- context [if ?b then _ else _] => destruct b
           end; split; reflexivity. }
  destruct Hfirst as (k & w1 & Hs & Hholds & Honce).
  exists k, w1. split; [exact Hs|]. split; [exact Hholds|]. split.
  - intros Hheld. split; [apply Haway; exact Hheld|]. apply Honce, Hheld.
  - intros Hidle. apply sessionInit_takes_idle_latch. exact Hidle.
Qed.

Lemma sessionInit_reentrant_call_is_noop_witness :
  let env := securePage firefox90 (Some true) false (Fulfilled tt)
               (Fulfilled false) (Fulfilled tt) in
  let held := (start (sessionInit env None) freshWorld).2 in
  _sessionInitAlreadyRunning held = true /\
  start (sessionInit env (Some fromInitOptions)) held
    = (Settled (Fulfilled tt), turnedAway (Some fromInitOptions) held) /\
  exists k w1,
    start (sessionInit env None) freshWorld = (Suspended k, w1) /\
    _sessionInitAlreadyRunning w1 = true /\
    (run k (turnedAway (Some fromInitOptions) w1)).1 = (run k w1).1 /\
    without_debug_logs (run k (turnedAway (Some fromInitOptions) w1)).2
      = without_debug_logs (run k w1).2.
Proof.
  intros env held.
  destruct (sessionInit_reentrant_call_is_noop env None
              (Some fromInitOptions) held freshWorld eq_refl eq_refl)
    as (Haway & k & w1 & Hs & Hholds & Hheld & _).
  split; [reflexivity|]. split; [exact Haway|].
  exists k, w1. split; [exact Hs|]. split; [exact Hholds|].
  apply Hheld. exact Hholds.
Defined.

(** The window in which a second call is turned away closes when
    [finishSessionInit] runs.  On the path of a dismissed native prompt
    that happens before the first call suspends for the first time: the
    latch is already idle when the caller gets its promise back. *)
Lemma sessionInit_dismissed_path_releases_before_suspending :
  let env := securePage firefox90 (Some true) true (Fulfilled tt)
               (Fulfilled false) (Fulfilled tt) in
  let started := start (sessionInit env (Some fromInitOptions)) freshWorld in
  (exists k, started.1 = Suspended k) /\
  _sessionInitAlreadyRunning started.2 = false.
Proof. vm_compute. split; [eexists; reflexivity | reflexivity]. Qed.

(** ** Errors of the prompt flow *)

(** C3, as stated, fails off the workaround path: the rejection handler
    exists only on the call of [privateShowHttpPrompt] made there.  On a
    secure page the benign [PushPermissionNotGrantedError] raised by
    [registerForPush] is neither caught nor logged, and [sessionInit]
    rejects with it. *)
Lemma sessionInit_rejects_with_registerForPush_error :
  let env := securePage firefox90 (Some true) false (Fulfilled tt)
               (Fulfilled false) (Rejected PushPermissionNotGrantedError) in
  let final := run (sessionInit env None) freshWorld in
  promptNotShowing PushPermissionNotGrantedError = true /\
  final.1 = Settled (Rejected PushPermissionNotGrantedError) /\
  history final.2 =
    [EvCall SubscriptionHelper_registerForPush; EvLatch false;
     EvCall OneSignal_internalIsOptedOut; EvLatch true;
     EvLog Debug "Called sessionInit" [ArgOptions emptyOptions]].
Proof. vm_compute. auto. Qed.

(** C3, amended: on the subscription-workaround path (no modal prompt from
    an explicit register call, [autoRegister === true], no prompt shown yet
    in this session) every rejection of [privateShowHttpPrompt] is caught.
    The four benign errors (permission message dismissed, already
    subscribed, invalid state with the redundant-permission-message reason,
    push permission not granted) are logged at debug level, any other error
    at info level; [sessionInit] then finalizes and resolves. *)
Theorem sessionInit_legacy_prompt_rejection_absorbed (env : SessionEnv)
    (opts : option SessionInitOptions) (w : World) (e : JsError) :
  let options := default emptyOptions opts in
  _sessionInitAlreadyRunning w = false ->
  truthy (__fromRegister options) && truthy (modalPrompt options) = false ->
  isUsingSubscriptionWorkaround env = true ->
  autoRegister (userConfig (config env)) = Some true ->
  isHttpPromptAlreadyShown env = false ->
  privateShowHttpPrompt env = Rejected e ->
  (promptNotShowing e = true <->
     e = PermissionMessageDismissedError \/ e = AlreadySubscribedError \/
     e = InvalidStateError "RedundantPermissionMessage" \/
     e = PushPermissionNotGrantedError) /\
  exists w',
    run (sessionInit env opts) w = (Settled (Fulfilled tt), w') /\
    _sessionInitAlreadyRunning w' = false /\
    events_since w w'
      ([EvLog Debug "Called sessionInit" [ArgOptions options];
        EvLatch true;
        EvCall OneSignal_privateShowHttpPrompt;
        EvLog (if promptNotShowing e then Debug else Info)
              (if promptNotShowing e then "[Prompt Not Showing]" else "")
              [ArgError e];
        EvLatch false] ++
       (if truthy (__fromInit options)
        then [EvCall (Event_trigger SDK_INITIALIZED)] else []))%list.
Proof.
  intros options Hl Hmodal Hwork Hauto Hshown Hprompt. split.
  - destruct e; unfold promptNotShowing; simpl.
    + rewrite String.eqb_eq. split; [intros ->; auto|].
      intros [H|[H|[H|H]]]; congruence.
    + split; auto.
    + split; auto.
    + split; auto.
    + split; [discriminate|]. intros [H|[H|[H|H]]]; discriminate.
  - unfold sessionInit. fold options.
    autorewrite with run. rewrite latch_record, Hl.
    autorewrite with run. rewrite Hmodal, Hwork, Hauto, Hshown.
    cbn [negb is_true andb]. autorewrite with run.
    rewrite Hprompt. autorewrite with run.
    eexists. split; [reflexivity|].
    unfold events_since.
    destruct (truthy (__fromInit options)); split; reflexivity.
Qed.

Lemma sessionInit_legacy_prompt_rejection_absorbed_witness :
  exists w',
    run (sessionInit (legacyPage (Rejected AlreadySubscribedError)) None)
      freshWorld = (Settled (Fulfilled tt), w') /\
    _sessionInitAlreadyRunning w' = false /\
    events_since freshWorld w'
      [EvLog Debug "Called sessionInit" [ArgOptions emptyOptions];
       EvLatch true;
       EvCall OneSignal_privateShowHttpPrompt;
       EvLog Debug "[Prompt Not Showing]" [ArgError AlreadySubscribedError];
       EvLatch false].
Proof.
  apply (sessionInit_legacy_prompt_rejection_absorbed
           (legacyPage (Rejected AlreadySubscribedError)) None freshWorld
           AlreadySubscribedError); reflexivity.
Defined.

(** ** The prompt decision *)

(** C4: on a secure page (no subscription workaround) whose user has not
    opted out, [sessionInit] shows the slide-down when the browser is
    Chrome 63+ on a tablet or phone or Safari 12.1+, [autoRegister] is
    [true], the call is not an explicit register call and the native prompt
    was not dismissed before.  In particular Chrome 65 on a tablet and
    Safari 13 get the slide-down, Firefox 90 with no prior prompt gets the
    native request, and a call from init after a dismissed native prompt
    gets neither. *)
Theorem sessionInit_prompt_strategy_table (env : SessionEnv)
    (opts : option SessionInitOptions) (w : World) :
  let options := default emptyOptions opts in
  let auto := is_true (autoRegister (userConfig (config env))) in
  let explicit := truthy (__fromRegister options) in
  let modal := truthy (__fromRegister options) && truthy (modalPrompt options) in
  let prior := truthy (__fromInit options) &&
               wasHttpsNativePromptDismissed env in
  _sessionInitAlreadyRunning w = false ->
  isUsingSubscriptionWorkaround env = false ->
  internalIsOptedOut env = Fulfilled false ->
  exists s w' evs,
    run (sessionInit env opts) w = (s, w') /\
    events_since w w' evs /\
    (irreversibleNativePrompt (bowser env) = true -> auto = true ->
     explicit = false -> prior = false -> strategy_of evs = SlideDown) /\
    (chrome (bowser env) = true -> tablet (bowser env) = true ->
     version (bowser env) = Some (65 # 1) -> auto = true ->
     explicit = false -> prior = false -> strategy_of evs = SlideDown) /\
    (safari (bowser env) = true -> version (bowser env) = Some (13 # 1) ->
     auto = true -> explicit = false -> prior = false ->
     strategy_of evs = SlideDown) /\
    (firefox (bowser env) = true -> chrome (bowser env) = false ->
     safari (bowser env) = false -> version (bowser env) = Some (90 # 1) ->
     auto = true -> modal = false -> prior = false ->
     strategy_of evs = Native) /\
    (prior = true -> strategy_of evs = Suppressed).
Proof.
  intros options auto explicit modal prior Hl Hwork Hopt.
  assert (Hrule : irreversibleNativePrompt (bowser env) = true ->
            auto = true -> explicit = false ->
            showSlidedown env options = true).
  { unfold showSlidedown, irreversibleNativePrompt. fold auto explicit.
    intros -> -> ->. reflexivity. }
  assert (Hfox : chrome (bowser env) = false -> safari (bowser env) = false ->
            showSlidedown env options = false).
  { unfold showSlidedown. intros -> ->.
    destruct (negb _), (is_true _); reflexivity. }
  assert (Hchrome : chrome (bowser env) = true -> tablet (bowser env) = true ->
            version (bowser env) = Some (65 # 1) ->
            irreversibleNativePrompt (bowser env) = true).
  { unfold irreversibleNativePrompt, version_ge. intros -> -> ->.
    reflexivity. }
  assert (Hsafari : safari (bowser env) = true ->
            version (bowser env) = Some (13 # 1) ->
            irreversibleNativePrompt (bowser env) = true).
  { unfold irreversibleNativePrompt, version_ge. intros -> ->.
    apply orb_true_r. }
  assert (Hmodal_explicit : modal = true -> explicit = true).
  { unfold modal, explicit. intros H. apply andb_true_iff in H. tauto. }
  unfold sessionInit. fold options.
  autorewrite with run. rewrite latch_record, Hl.
  autorewrite with run. rewrite Hwork, Hopt. fold modal prior.
  cbn [negb]. 
  destruct modal eqn:Hmodal, prior eqn:Hprior,
    (showSlidedown env options) eqn:Hslide; exec.
  all: repeat match goal with
         | |- context [if ?b then _ else _] => destruct b
         end.
  all: eexists _, _, _; split; [reflexivity|].
  all: split; [apply events_since_intro; world_simpl; history_prefix|].
  all: try match goal with H : negb false = false |- _ => discriminate H end.
  all: cbn [rev app strategy_of]; intuition congruence.
Qed.

Lemma sessionInit_prompt_strategy_table_witness :
  (exists s w' evs,
     run (sessionInit
            (securePage chrome65Tablet (Some true) false (Fulfilled tt)
               (Fulfilled false) (Fulfilled tt)) None) freshWorld = (s, w') /\
     events_since freshWorld w' evs /\ strategy_of evs = SlideDown) /\
  (exists s w' evs,
     run (sessionInit
            (securePage safari13 (Some true) false (Fulfilled tt)
               (Fulfilled false) (Fulfilled tt)) None) freshWorld = (s, w') /\
     events_since freshWorld w' evs /\ strategy_of evs = SlideDown) /\
  (exists s w' evs,
     run (sessionInit
            (securePage firefox90 (Some true) false (Fulfilled tt)
               (Fulfilled false) (Fulfilled tt)) None) freshWorld = (s, w') /\
     events_since freshWorld w' evs /\ strategy_of evs = Native) /\
  (exists s w' evs,
     run (sessionInit
            (securePage firefox90 (Some true) true (Fulfilled tt)
               (Fulfilled false) (Fulfilled tt)) (Some fromInitOptions))
       freshWorld = (s, w') /\
     events_since freshWorld w' evs /\ strategy_of evs = Suppressed).
Proof.
  repeat split.
  - destruct (sessionInit_prompt_strategy_table
                (securePage chrome65Tablet (Some true) false (Fulfilled tt)
                   (Fulfilled false) (Fulfilled tt)) None freshWorld
                eq_refl eq_refl eq_refl)
      as (s & w' & evs & Hrun & Hev & _ & Hrow & _).
    exists s, w', evs. repeat split; [exact Hrun | exact Hev |].
    apply Hrow; reflexivity.
  - destruct (sessionInit_prompt_strategy_table
                (securePage safari13 (Some true) false (Fulfilled tt)
                   (Fulfilled false) (Fulfilled tt)) None freshWorld
                eq_refl eq_refl eq_refl)
      as (s & w' & evs & Hrun & Hev & _ & _ & Hrow & _).
    exists s, w', evs. repeat split; [exact Hrun | exact Hev |].
    apply Hrow; reflexivity.
  - destruct (sessionInit_prompt_strategy_table
                (securePage firefox90 (Some true) false (Fulfilled tt)
                   (Fulfilled false) (Fulfilled tt)) None freshWorld
                eq_refl eq_refl eq_refl)
      as (s & w' & evs & Hrun & Hev & _ & _ & _ & Hrow & _).
    exists s, w', evs. repeat split; [exact Hrun | exact Hev |].
    apply Hrow; reflexivity.
  - destruct (sessionInit_prompt_strategy_table
                (securePage firefox90 (Some true) true (Fulfilled tt)
                   (Fulfilled false) (Fulfilled tt)) (Some fromInitOptions)
                freshWorld eq_refl eq_refl eq_refl)
      as (s & w' & evs & Hrun & Hev & _ & _ & _ & _ & Hrow).
    exists s, w', evs. repeat split; [exact Hrun | exact Hev |].
    apply Hrow; reflexivity.
Defined.

(** ** Finalization *)

(** C9: in a call of [sessionInit] that acquired the latch and settles, the
    latch is idle whenever [SDK_INITIALIZED] is emitted, because
    [finishSessionInit] resets it first; the signal is emitted once when
    [finishSessionInit] ran and [options.__fromInit] is set, and not at all
    otherwise; and every call that resolves went through
    [finishSessionInit] and ends with the latch idle. *)
Theorem sessionInit_finalization (env : SessionEnv)
    (opts : option SessionInitOptions) (w : World) :
  _sessionInitAlreadyRunning w = false ->
  exists r w' evs,
    run (sessionInit env opts) w = (Settled r, w') /\
    events_since w w' evs /\
    latch_idle_at_signals false evs = true /\
    signals evs =
      (if finalized evs && truthy (__fromInit (default emptyOptions opts))
       then 1 else 0) /\
    (r = Fulfilled tt ->
     finalized evs = true /\ _sessionInitAlreadyRunning w' = false).
Proof.
  intros Hl. unfold sessionInit.
  autorewrite with run. rewrite latch_record, Hl. exec.
  all: repeat match goal with
         | |- context [if ?b then _ else _] => destruct b eqn:?
         end.
  all: eexists _, _, _; split; [reflexivity|].
  all: split; [apply events_since_intro; world_simpl; history_prefix|].
  all: cbn [rev app latch_idle_at_signals signals finalized negb andb].
  all: repeat match goal with
         | H : ?b = _ |- context [?b] => rewrite H
         end.
  all: repeat split; try reflexivity; try discriminate.

Qed.

Lemma sessionInit_finalization_witness :
  exists r w' evs,
    run (sessionInit
           (securePage chrome65Tablet (Some true) false (Fulfilled tt)
              (Fulfilled false) (Fulfilled tt)) (Some fromInitOptions))
      freshWorld = (Settled r, w') /\
    events_since freshWorld w' evs /\
    latch_idle_at_signals false evs = true /\
    signals evs =
      (if finalized evs && truthy (__fromInit fromInitOptions)
       then 1 else 0) /\
    (r = Fulfilled tt ->
     finalized evs = true /\ _sessionInitAlreadyRunning w' = false).
Proof.
  apply (sessionInit_finalization
           (securePage chrome65Tablet (Some true) false (Fulfilled tt)
              (Fulfilled false) (Fulfilled tt)) (Some fromInitOptions)
           freshWorld).
  reflexivity.
Defined.

(** ** Renewal of an expiring subscription *)

(** C7: with an expiring subscription on a [Secure] integration,
    [processExpiringSubscriptions] first calls [subscribe(SubscribeNew)];
    when that rejects, the error reaches the caller and
    [registerSubscription] is not called; when it resolves,
    [registerSubscription] is called next with the subscription it returned,
    and the call settles the way [registerSubscription] does, so its error
    reaches the caller as well. *)
Theorem processExpiringSubscriptions_secure (env : RenewalEnv) (w : World) :
  isSubscriptionExpiring env = Fulfilled true ->
  getIntegration env = Fulfilled Secure ->
  let before :=
    [EvLog Debug "Checking subscription expiration..." [];
     EvCall SubscriptionManager_isSubscriptionExpiring;
     EvCall SdkEnvironment_getIntegration;
     EvLog Debug "Subscription is considered expiring. Current Integration:"
       [ArgIntegration Secure];
     EvCall (SubscriptionManager_subscribe SubscribeNew)] in
  exists r w',
    run (processExpiringSubscriptions env) w = (Settled r, w') /\
    match subscribe env SubscribeNew with
    | Rejected e => r = Rejected e /\ events_since w w' before
    | Fulfilled raw =>
        r = registerSubscription env raw /\
        events_since w w'
          (before ++ [EvCall (SubscriptionManager_registerSubscription raw)])
    end.
Proof.
  intros Hexp Hint before. unfold processExpiringSubscriptions.
  autorewrite with run. rewrite Hexp. autorewrite with run.
  rewrite Hint. cbn [negb]. autorewrite with run.
  destruct (subscribe env SubscribeNew) as [raw|e]; autorewrite with run.
  - eexists _, _. split; [reflexivity|]. split; reflexivity.
  - eexists _, _. split; [reflexivity|]. split; reflexivity.
Qed.

Lemma processExpiringSubscriptions_secure_witness :
  exists r w',
    run (processExpiringSubscriptions
           (expiringPage Secure (OtherWindowEnvironment "host")
              (Fulfilled (mkRaw "endpoint"))
              (Rejected (OtherError "register failed")))) freshWorld
      = (Settled r, w') /\
    r = Rejected (OtherError "register failed") /\
    events_since freshWorld w'
      [EvLog Debug "Checking subscription expiration..." [];
       EvCall SubscriptionManager_isSubscriptionExpiring;
       EvCall SdkEnvironment_getIntegration;
       EvLog Debug "Subscription is considered expiring. Current Integration:"
         [ArgIntegration Secure];
       EvCall (SubscriptionManager_subscribe SubscribeNew);
       EvCall (SubscriptionManager_registerSubscription (mkRaw "endpoint"))].
Proof.
  apply (processExpiringSubscriptions_secure
           (expiringPage Secure (OtherWindowEnvironment "host")
              (Fulfilled (mkRaw "endpoint"))
              (Rejected (OtherError "register failed"))) freshWorld);
    reflexivity.
Defined.

(** C8: with an expiring subscription on an [InsecureProxy] integration,
    [processExpiringSubscriptions] resolves after removing the key
    [registrationId] of the store [Ids], which is then absent while every
    other entry is kept; neither [subscribe] nor [registerSubscription] is
    called. *)
Theorem processExpiringSubscriptions_insecure (env : RenewalEnv) (w : World) :
  isSubscriptionExpiring env = Fulfilled true ->
  getIntegration env = Fulfilled InsecureProxy ->
  exists w',
    run (processExpiringSubscriptions env) w = (Settled (Fulfilled tt), w') /\
    database w' !! ("Ids", "registrationId") = None /\
    (forall k, k <> ("Ids", "registrationId") ->
               database w' !! k = database w !! k) /\
    events_since w w'
      [EvLog Debug "Checking subscription expiration..." [];
       EvCall SubscriptionManager_isSubscriptionExpiring;
       EvCall SdkEnvironment_getIntegration;
       EvLog Debug "Subscription is considered expiring. Current Integration:"
         [ArgIntegration InsecureProxy];
       EvCall (Database_remove "Ids" "registrationId");
       EvLog Debug
         "Unsubscribed expiring HTTP subscription by removing registration ID."
         []].
Proof.
  intros Hexp Hint. unfold processExpiringSubscriptions.
  autorewrite with run. rewrite Hexp. autorewrite with run.
  rewrite Hint. cbn [negb]. autorewrite with run.
  eexists. split; [reflexivity|]. world_simpl.
  split; [apply lookup_delete_eq|].
  split; [|reflexivity].
  intros k Hk. apply lookup_delete_ne. congruence.
Qed.

Lemma processExpiringSubscriptions_insecure_witness :
  let env := expiringPage InsecureProxy (OtherWindowEnvironment "host")
               (Fulfilled (mkRaw "endpoint")) (Fulfilled tt) in
  let w := set_database {[ ("Ids", "registrationId") := "token" ]} freshWorld in
  database w !! ("Ids", "registrationId") = Some "token" /\
  exists w',
    run (processExpiringSubscriptions env) w = (Settled (Fulfilled tt), w') /\
    database w' !! ("Ids", "registrationId") = None.
Proof.
  intros env w. split; [reflexivity|].
  destruct (processExpiringSubscriptions_insecure env w eq_refl eq_refl)
    as (w' & Hrun & Habsent & _).
  exists w'. split; [exact Hrun | exact Habsent].
Defined.

Lemma run_AwaitPromise_pending {A} p (k : Subscription -> Prog A) w :
  promises w !! p = None -> run (AwaitPromise p k) w = (Blocked p k, w).
Proof. intros H. simpl. rewrite H. reflexivity. Qed.

Lemma run_AwaitPromise_resolved {A} p (k : Subscription -> Prog A) w s :
  promises w !! p = Some s -> run (AwaitPromise p k) w = run (k s) w.
Proof. intros H. simpl. rewrite H. reflexivity. Qed.

Lemma messenger_deliver_armed env c t payload w :
  messengerListeners w = [(c, t)] ->
  messenger_deliver env c payload w =
  messengerTask env t payload (set_messengerListeners [] w).
Proof.
  intros H. unfold messenger_deliver. rewrite H.
  rewrite !filter_cons, !filter_nil. simpl.
  repeat case_decide; first [reflexivity | congruence].
Qed.

Lemma messenger_deliver_other env c c' t payload w :
  messengerListeners w = [(c, t)] -> c' <> c ->
  messenger_deliver env c' payload w = set_messengerListeners [(c, t)] w.
Proof.
  intros H Hc. unfold messenger_deliver. rewrite H.
  rewrite !filter_cons, !filter_nil. simpl.
  repeat case_decide; first [reflexivity | congruence].
Qed.

Lemma messenger_deliver_idle env c payload w :
  messengerListeners w = [] ->
  messenger_deliver env c payload w = set_messengerListeners [] w.
Proof. intros H. unfold messenger_deliver. rewrite H. reflexivity. Qed.

(** C5: with an expiring subscription on a [SecureProxy] integration, inside
    the proxy frame, [processExpiringSubscriptions] arms the one-shot
    listener for [SubscribeNew] and only then sends [SubscribeNew] with the
    application configuration, and waits.  A [SubscribeNew] reply resolves
    the promise with the deserialized payload, after which the call
    completes with that subscription, the listener is gone and later
    messages change nothing; any other command leaves the promise
    unresolved and the call waiting. *)
Theorem processExpiringSubscriptions_proxy_frame (env : RenewalEnv)
    (w : World) :
  isSubscriptionExpiring env = Fulfilled true ->
  getIntegration env = Fulfilled SecureProxy ->
  getWindowEnv env = OneSignalProxyFrame ->
  messengerListeners w = [] ->
  promises w !! nextPromise w = None ->
  let p := nextPromise w in
  exists k w1,
    run (processExpiringSubscriptions env) w = (Blocked p k, w1) /\
    events_since w w1
      [EvLog Debug "Checking subscription expiration..." [];
       EvCall SubscriptionManager_isSubscriptionExpiring;
       EvCall SdkEnvironment_getIntegration;
       EvLog Debug "Subscription is considered expiring. Current Integration:"
         [ArgIntegration SecureProxy];
       EvCall (WorkerMessenger_once CmdSubscribeNew);
       EvCall (WorkerMessenger_unicast CmdSubscribeNew (appConfig env))] /\
    messengerListeners w1 = [(CmdSubscribeNew, ResolveDeserialized p)] /\
    (forall payload,
       let w2 := messenger_deliver env CmdSubscribeNew payload w1 in
       promises w2 !! p = Some (deserialize env payload) /\
       messengerListeners w2 = [] /\
       resume (Blocked p k) w2 =
         (Settled (Fulfilled tt),
          record (EvLog Debug "Finished registering brand new subscription:"
                    [ArgSubscription (deserialize env payload)]) w2) /\
       forall c' payload',
         promises (messenger_deliver env c' payload' w2) !! p =
         Some (deserialize env payload)) /\
    (forall c payload,
       c <> CmdSubscribeNew ->
       let w2 := messenger_deliver env c payload w1 in
       promises w2 !! p = None /\
       messengerListeners w2 = messengerListeners w1 /\
       resume (Blocked p k) w2 = (Blocked p k, w2)).
Proof.
  intros Hexp Hint Hframe Hlisteners Hfresh p. subst p.
  unfold processExpiringSubscriptions.
  autorewrite with run. rewrite Hexp. autorewrite with run.
  rewrite Hint, Hframe. cbn [negb]. autorewrite with run.
  rewrite run_AwaitPromise_pending by (world_simpl; exact Hfresh).
  eexists _, _. split; [reflexivity|].
  split; [reflexivity|].
  match goal with
  | |- messengerListeners ?w1 = _ /\ _ =>
      assert (Harmed : messengerListeners w1
                       = [(CmdSubscribeNew,
                           ResolveDeserialized (nextPromise w))])
        by (world_simpl; rewrite Hlisteners; reflexivity)
  end.
  split; [exact Harmed|]. split.
  - intros payload.
    rewrite (messenger_deliver_armed _ _ _ _ _ Harmed).
    cbn [messengerTask]. world_simpl. rewrite Hfresh. world_simpl.
    cbn [resume]. world_simpl. rewrite lookup_insert_eq.
    repeat split; try reflexivity.
    intros c' payload'. rewrite messenger_deliver_idle by reflexivity.
    world_simpl. apply lookup_insert_eq.
  - intros c payload Hc.
    rewrite (messenger_deliver_other _ _ _ _ _ _ Harmed Hc).
    cbn [resume]. world_simpl. rewrite Hfresh, Hlisteners.
    repeat split; reflexivity.
Qed.

Lemma processExpiringSubscriptions_proxy_frame_witness :
  let env := expiringPage SecureProxy OneSignalProxyFrame
               (Fulfilled (mkRaw "endpoint")) (Fulfilled tt) in
  exists k w1,
    run (processExpiringSubscriptions env) freshWorld = (Blocked 0 k, w1) /\
    messengerListeners w1 = [(CmdSubscribeNew, ResolveDeserialized 0)] /\
    (let w2 := messenger_deliver env (CmdOther "redirect") "ignored" w1 in
     promises w2 !! 0 = None) /\
    (let w2 := messenger_deliver env CmdSubscribeNew "reply" w1 in
     promises w2 !! 0 = Some (mkSubscription "reply") /\
     resume (Blocked 0 k) w2 =
       (Settled (Fulfilled tt),
        record (EvLog Debug "Finished registering brand new subscription:"
                  [ArgSubscription (mkSubscription "reply")]) w2)).
Proof.
  intros env.
  destruct (processExpiringSubscriptions_proxy_frame env freshWorld
              eq_refl eq_refl eq_refl eq_refl eq_refl)
    as (k & w1 & Hrun & _ & Hlisteners & Hreply & Hother).
  exists k, w1. split; [exact Hrun|]. split; [exact Hlisteners|]. split.
  - apply (Hother (CmdOther "redirect") "ignored"). discriminate.
  - destruct (Hreply "reply") as (Hp & _ & Hres & _). split; assumption.
Defined.

(** ** Waiting for the page to become visible *)

(** Whatever path it takes, one call of [sessionInit] leaves the document
    listeners and the visibility alone and adds exactly its own trace
    [Called sessionInit(options)] to the history. *)
Lemma sessionInit_frame (env : SessionEnv) (opts : option SessionInitOptions)
    (w : World) :
  exists s w',
    run (sessionInit env opts) w = (s, w') /\
    documentListeners w' = documentListeners w /\
    visibilityState w' = visibilityState w /\
    sessionInit_calls (history w') =
      default emptyOptions opts :: sessionInit_calls (history w).
Proof.
  unfold sessionInit. autorewrite with run. rewrite latch_record.
  destruct (_sessionInitAlreadyRunning w); exec.
  all: repeat match goal with
         | |- context [if ?b then _ else _] => destruct b eqn:?
         end.
  all: eexists _, _; split; [reflexivity|]; world_simpl.
  all: repeat split; reflexivity.
Qed.

Lemma visibilitychange_idle env v w :
  documentListeners w = [] ->
  visibilitychange env v w = set_visibilityState v w.
Proof.
  intros H. unfold visibilitychange. world_simpl. rewrite H. reflexivity.
Qed.

Lemma visibilitychange_not_visible env v w id :
  v <> Visible ->
  documentListeners w = [(id, (InternalInitWhenVisible, true))] ->
  visibilitychange env v w = set_visibilityState v w.
Proof.
  intros Hv H. unfold visibilitychange. world_simpl. rewrite H.
  cbn [foldl fst snd fmap list_fmap]. world_simpl. rewrite H.
  rewrite bool_decide_eq_true_2 by (cbn; set_solver).
  unfold onceWrapper, documentTask. cbn [fst snd].
  autorewrite with run. world_simpl.
  rewrite bool_decide_eq_false_2 by exact Hv.
  autorewrite with run. reflexivity.
Qed.

Lemma visibilitychange_visible env w id :
  documentListeners w = [(id, (InternalInitWhenVisible, true))] ->
  visibilitychange env Visible w =
  (run (sessionInit env (Some fromInitOptions))
     (removeDocumentListener id (set_visibilityState Visible w))).2.
Proof.
  intros H. unfold visibilitychange. world_simpl. rewrite H.
  cbn [foldl fst snd fmap list_fmap]. world_simpl. rewrite H.
  rewrite bool_decide_eq_true_2 by (cbn; set_solver).
  unfold onceWrapper, documentTask. cbn [fst snd].
  autorewrite with run. world_simpl.
  rewrite bool_decide_eq_true_2 by reflexivity.
  autorewrite with run.
  destruct (run _ _) as [[[r|r]|k|q k] w']; reflexivity.
Qed.

Lemma visibilitychanges_hidden env vs : forall w id,
  Forall (fun v => v <> Visible) vs ->
  documentListeners w = [(id, (InternalInitWhenVisible, true))] ->
  documentListeners (visibilitychanges env vs w) = documentListeners w /\
  history (visibilitychanges env vs w) = history w.
Proof.
  induction vs as [|v vs IH]; intros w id Hvs Hw; [split; reflexivity|].
  inversion Hvs as [|? ? Hv Hvs']; subst.
  unfold visibilitychanges. cbn [foldl].
  rewrite (visibilitychange_not_visible env v w id Hv Hw).
  destruct (IH (set_visibilityState v w) id Hvs' Hw) as [H1 H2].
  unfold visibilitychanges in H1, H2. rewrite H1, H2. split; reflexivity.
Qed.

Lemma visibilitychanges_idle env vs : forall w,
  documentListeners w = [] ->
  documentListeners (visibilitychanges env vs w) = [] /\
  history (visibilitychanges env vs w) = history w.
Proof.
  induction vs as [|v vs IH]; intros w Hw; [split; [exact Hw | reflexivity]|].
  unfold visibilitychanges. cbn [foldl].
  rewrite (visibilitychange_idle env v w Hw).
  destruct (IH (set_visibilityState v w) Hw) as [H1 H2].
  unfold visibilitychanges in H1, H2. rewrite H1, H2. split; reflexivity.
Qed.

(** C6: when [internalInit] reaches its visibility check while the document
    is not visible, it returns without calling [sessionInit] and leaves one
    listener on [visibilitychange].  Events that leave the document hidden
    change neither; the first event that finds it visible removes the
    listener and calls [sessionInit({ __fromInit: true })] once; no later
    event calls it again. *)
Theorem internalInit_waits_until_visible (env : SessionEnv) (w : World)
    (hidden later : list VisibilityState) :
  updateWorker env = Fulfilled tt ->
  safari (bowser env) && is_false (autoRegister (userConfig (config env)))
    = false ->
  is_false (autoRegister (userConfig (config env))) &&
    negb (truthy_string (subdomain (config env))) = false ->
  visibilityState w <> Visible ->
  documentListeners w = [] ->
  Forall (fun v => v <> Visible) hidden ->
  exists w1,
    run (internalInit env) w = (Settled (Fulfilled tt), w1) /\
    sessionInit_calls (history w1) = sessionInit_calls (history w) /\
    documentListeners w1 = [(nextListener w, (InternalInitWhenVisible, true))] /\
    let w2 := visibilitychanges env hidden w1 in
    sessionInit_calls (history w2) = sessionInit_calls (history w) /\
    documentListeners w2 = documentListeners w1 /\
    let w3 := visibilitychange env Visible w2 in
    sessionInit_calls (history w3) =
      fromInitOptions :: sessionInit_calls (history w) /\
    documentListeners w3 = [] /\
    let w4 := visibilitychanges env later w3 in
    sessionInit_calls (history w4) = sessionInit_calls (history w3) /\
    documentListeners w4 = [].
Proof.
  intros Hupdate Hsafari Hauto Hvis Hnone Hhidden.
  unfold internalInit. autorewrite with run. rewrite Hupdate.
  autorewrite with run. rewrite Hsafari, Hauto. autorewrite with run.
  world_simpl. rewrite (bool_decide_eq_false_2 _ Hvis). cbn [negb].
  autorewrite with run.
  eexists. split; [reflexivity|].
  match goal with
  | |- _ /\ documentListeners ?w1 = _ /\ _ =>
      assert (Hw1 : documentListeners w1
                    = [(nextListener w, (InternalInitWhenVisible, true))])
        by (world_simpl; rewrite Hnone; reflexivity);
      assert (Hh1 : sessionInit_calls (history w1)
                    = sessionInit_calls (history w))
        by reflexivity;
      generalize dependent w1
  end.
  intros w1 Hw1 Hh1.
  split; [exact Hh1|]. split; [exact Hw1|].
  destruct (visibilitychanges_hidden env hidden w1 _ Hhidden Hw1)
    as [Hl2 Hh2].
  cbv zeta. rewrite Hh2. split; [exact Hh1|]. split; [exact Hl2|].
  rewrite Hw1 in Hl2.
  rewrite (visibilitychange_visible env _ _ Hl2).
  destruct (sessionInit_frame env (Some fromInitOptions)
              (removeDocumentListener (nextListener w)
                 (set_visibilityState Visible
                    (visibilitychanges env hidden w1))))
    as (s & w3 & Hrun & Hl3 & _ & Hh3).
  rewrite Hrun. cbn [snd].
  assert (Hl3' : documentListeners w3 = []).
  { rewrite Hl3. world_simpl. rewrite Hl2.
    rewrite filter_cons, filter_nil. cbn [fst].
    rewrite decide_False by (intros Hne; apply Hne; reflexivity).
    reflexivity. }
  destruct (visibilitychanges_idle env later w3 Hl3') as [Hl4 Hh4].
  rewrite Hh3. world_simpl. rewrite Hh2, Hh1, Hh4, Hh3.
  world_simpl. rewrite Hh2, Hh1. auto.
Qed.

Lemma internalInit_waits_until_visible_witness :
  let env := securePage firefox90 (Some true) false (Fulfilled tt)
               (Fulfilled false) (Fulfilled tt) in
  let w := set_visibilityState Hidden freshWorld in
  exists w1,
    run (internalInit env) w = (Settled (Fulfilled tt), w1) /\
    sessionInit_calls (history w1) = [] /\
    sessionInit_calls
      (history (visibilitychanges env [Prerender; Hidden] w1)) = [] /\
    sessionInit_calls
      (history (visibilitychanges env
                  [Prerender; Hidden; Visible; Hidden; Visible] w1))
      = [fromInitOptions].
Proof.
  intros env w.
  assert (Hhidden : Forall (fun v => v <> Visible) [Prerender; Hidden])
    by (repeat constructor; discriminate).
  destruct (internalInit_waits_until_visible env w [Prerender; Hidden]
              [Hidden; Visible] eq_refl eq_refl eq_refl
              ltac:(discriminate) eq_refl Hhidden)
    as (w1 & Hrun & Hh1 & _ & Hh2 & _ & Hh3 & _ & Hh4 & _).
  exists w1. split; [exact Hrun|]. split; [exact Hh1|]. split; [exact Hh2|].
  change (visibilitychanges env [Prerender; Hidden; Visible; Hidden; Visible]
            w1)
    with (visibilitychanges env [Hidden; Visible]
            (visibilitychange env Visible
               (visibilitychanges env [Prerender; Hidden] w1))).
  rewrite Hh4. exact Hh3.
Defined.

(** ** The native permission hook *)

(** One installation in a browser that has [navigator.permissions] and is
    not Firefox 45 or older. *)
Lemma run_installNativePromptPermissionChangedHook env query w :
  navigatorPermissions env = Some query ->
  firefox (permBowser env) && version_le (permBowser env) (45 # 1) = false ->
  run (installNativePromptPermissionChangedHook env) w =
  match query (permissionQueries w) with
  | Fulfilled st =>
      (Settled (Fulfilled tt),
       set_onchange (<[st := OnChangeTriggerPermissionChanged]> (onchange w))
         (record (EvCall Permissions_query)
            (set_permissionQueries (S (permissionQueries w))
               (set_usingNativePermissionHook true w))))
  | Rejected e =>
      (Settled (Rejected e),
       record (EvCall Permissions_query)
         (set_permissionQueries (S (permissionQueries w))
            (set_usingNativePermissionHook true w)))
  end.
Proof.
  intros Hq Hff. unfold installNativePromptPermissionChangedHook.
  rewrite Hq, Hff. cbn [negb]. autorewrite with run. world_simpl.
  destruct (query (permissionQueries w)); autorewrite with run; reflexivity.
Qed.

(** C10, as stated, fails: nothing in the function keeps a second
    installation from adding a second handler.  In a browser whose [query]
    makes a new [PermissionStatus] object for each call, two installations
    leave two handlers, and one permission change fires the shared signal
    twice. *)
Lemma permission_hook_fires_once_per_status_object :
  let w2 := installTimes freshStatusBrowser 2 freshWorld in
  navigatorPermissions freshStatusBrowser <> None /\
  firefox (permBowser freshStatusBrowser) = true /\
  version_le (permBowser freshStatusBrowser) (45 # 1) = false /\
  size (onchange w2) = 2 /\
  permissionSignals (history w2) = 0 /\
  permissionSignals (history (nativePermissionChange w2)) = 2.
Proof. vm_compute. repeat split; discriminate. Qed.

(** C10, amended: when [navigator.permissions.query] resolves to the same
    [PermissionStatus] object each time, any number of installations
    leaves that object with the one handler that the last assignment of
    [onchange] put there, and one permission change then fires the shared
    signal exactly once. *)
Theorem permission_hook_single_handler_on_shared_status (env : PermissionEnv)
    (query : nat -> Outcome nat) (st n : nat) (w : World) :
  navigatorPermissions env = Some query ->
  firefox (permBowser env) && version_le (permBowser env) (45 # 1) = false ->
  (forall i, query i = Fulfilled st) ->
  let w' := installTimes env (S n) w in
  _usingNativePermissionHook w' = true /\
  onchange w' = <[st := OnChangeTriggerPermissionChanged]> (onchange w) /\
  (onchange w = ∅ ->
   history (nativePermissionChange w') =
   EvCall TriggerNotificationPermissionChanged :: history w').
Proof.
  intros Hq Hff Hshared w'. subst w'.
  assert (Hn : _usingNativePermissionHook (installTimes env (S n) w) = true /\
               onchange (installTimes env (S n) w) =
               <[st := OnChangeTriggerPermissionChanged]> (onchange w)).
  { induction n as [|n [IH1 IH2]].
    - cbn [installTimes].
      rewrite (run_installNativePromptPermissionChangedHook env query w Hq Hff).
      rewrite Hshared. split; reflexivity.
    - change (installTimes env (S (S n)) w)
        with (run (installNativePromptPermissionChangedHook env)
                (installTimes env (S n) w)).2.
      rewrite (run_installNativePromptPermissionChangedHook env query _ Hq Hff).
      rewrite Hshared. cbn [snd]. world_simpl. split; [reflexivity|].
      rewrite IH2. apply insert_insert_eq. }
  destruct Hn as [H1 H2]. split; [exact H1|]. split; [exact H2|].
  intros Hempty. unfold nativePermissionChange.
  rewrite H2, Hempty, insert_empty, map_to_list_singleton. reflexivity.
Qed.

Lemma permission_hook_single_handler_on_shared_status_witness :
  let w' := installTimes sharedStatusBrowser 3 freshWorld in
  onchange w' = {[ 0 := OnChangeTriggerPermissionChanged ]} /\
  history (nativePermissionChange w') =
  EvCall TriggerNotificationPermissionChanged :: history w'.
Proof.
  intros w'.
  destruct (permission_hook_single_handler_on_shared_status
              sharedStatusBrowser (fun _ => Fulfilled 0) 0 2 freshWorld
              eq_refl eq_refl (fun _ => eq_refl))
    as (_ & Hhandlers & Hsignal).
  split; [exact Hhandlers | exact (Hsignal eq_refl)].
Defined.


(** * Further properties of the bootstrap *)

(** ** Renewal, the remaining branches *)

Lemma run_AwaitPromise {A} p (k : Subscription -> Prog A) w :
  run (AwaitPromise p k) w =
  match promises w !! p with
  | Some s => run (k s) w
  | None => (Blocked p k, w)
  end.
Proof. reflexivity. Qed.

(** X1: unless the subscription manager reports the subscription as
    expiring, [processExpiringSubscriptions] asks nothing else and renews
    nothing: it settles as the check did (resolving when the answer is
    [false]), its only call is [isSubscriptionExpiring], and the world is
    unchanged apart from the history. *)
Theorem processExpiringSubscriptions_not_expiring (env : RenewalEnv)
    (w : World) :
  isSubscriptionExpiring env <> Fulfilled true ->
  exists w' evs,
    run (processExpiringSubscriptions env) w =
      (Settled (match isSubscriptionExpiring env with
                | Fulfilled _ => Fulfilled tt
                | Rejected e => Rejected e
                end), w') /\
    events_since w w' evs /\
    calls evs = [SubscriptionManager_isSubscriptionExpiring] /\
    forget_history w' = forget_history w.
Proof.
  intros Hexp. unfold processExpiringSubscriptions.
  autorewrite with run.
  destruct (isSubscriptionExpiring env) as [[|]|e]; [congruence| |].
  - cbn [negb]. autorewrite with run.
    eexists _, _. split; [reflexivity|].
    split; [apply events_since_intro; world_simpl; history_prefix|].
    split; reflexivity.
  - eexists _, _. split; [reflexivity|].
    split; [apply events_since_intro; world_simpl; history_prefix|].
    split; reflexivity.
Qed.

Lemma processExpiringSubscriptions_not_expiring_witness :
  exists w' evs,
    run (processExpiringSubscriptions
           (mkRenewalEnv (mkAppConfig "app-id" None (mkUserConfig None))
              (Rejected (OtherError "database closed")) (Fulfilled Secure)
              OneSignalProxyFrame (fun _ => Fulfilled (mkRaw "endpoint"))
              (fun _ => Fulfilled tt) (fun _ => Fulfilled tt)
              mkSubscription)) freshWorld =
      (Settled (Rejected (OtherError "database closed")), w') /\
    events_since freshWorld w' evs /\
    calls evs = [SubscriptionManager_isSubscriptionExpiring] /\
    forget_history w' = forget_history freshWorld.
Proof.
  apply (processExpiringSubscriptions_not_expiring
           (mkRenewalEnv (mkAppConfig "app-id" None (mkUserConfig None))
              (Rejected (OtherError "database closed")) (Fulfilled Secure)
              OneSignalProxyFrame (fun _ => Fulfilled (mkRaw "endpoint"))
              (fun _ => Fulfilled tt) (fun _ => Fulfilled tt)
              mkSubscription) freshWorld).
  discriminate.
Defined.

(** X2: with an expiring subscription on a [SecureProxy] integration,
    outside the proxy frame, [processExpiringSubscriptions] hands the work
    to the proxy frame: it runs [PROCESS_EXPIRING_SUBSCRIPTIONS] there and
    settles as that command does, without subscribing itself and without
    arming a listener or making a promise. *)
Theorem processExpiringSubscriptions_top_frame (env : RenewalEnv) (w : World)
    (frame : string) :
  isSubscriptionExpiring env = Fulfilled true ->
  getIntegration env = Fulfilled SecureProxy ->
  getWindowEnv env = OtherWindowEnvironment frame ->
  exists w',
    run (processExpiringSubscriptions env) w =
      (Settled (runCommand env PROCESS_EXPIRING_SUBSCRIPTIONS), w') /\
    events_since w w'
      [EvLog Debug "Checking subscription expiration..." [];
       EvCall SubscriptionManager_isSubscriptionExpiring;
       EvCall SdkEnvironment_getIntegration;
       EvLog Debug "Subscription is considered expiring. Current Integration:"
         [ArgIntegration SecureProxy];
       EvCall (ProxyFrameHost_runCommand PROCESS_EXPIRING_SUBSCRIPTIONS)] /\
    forget_history w' = forget_history w.
Proof.
  intros Hexp Hint Hframe. unfold processExpiringSubscriptions.
  autorewrite with run. rewrite Hexp. autorewrite with run.
  rewrite Hint, Hframe. cbn [negb]. autorewrite with run.
  eexists. split; [reflexivity|]. split; reflexivity.
Qed.

Lemma processExpiringSubscriptions_top_frame_witness :
  exists w',
    run (processExpiringSubscriptions
           (expiringPage SecureProxy (OtherWindowEnvironment "host")
              (Fulfilled (mkRaw "endpoint")) (Fulfilled tt))) freshWorld =
      (Settled (Fulfilled tt), w') /\
    calls (rev (history w')) =
      [SubscriptionManager_isSubscriptionExpiring;
       SdkEnvironment_getIntegration;
       ProxyFrameHost_runCommand PROCESS_EXPIRING_SUBSCRIPTIONS].
Proof.
  destruct (processExpiringSubscriptions_top_frame
              (expiringPage SecureProxy (OtherWindowEnvironment "host")
                 (Fulfilled (mkRaw "endpoint")) (Fulfilled tt)) freshWorld
              "host" eq_refl eq_refl eq_refl) as (w' & Hrun & Hev & _).
  exists w'. split; [exact Hrun|].
  unfold events_since in Hev. rewrite Hev. reflexivity.
Defined.

(** X3: whatever the collaborators answer, one call of
    [processExpiringSubscriptions] takes at most one renewal step
    (subscribe, the cross-frame request, the proxy command or the removal
    of the registration id), never touches the single-flight latch, the
    document listeners or the permission handlers, and changes no entry of
    the database other than [registrationId] of [Ids]. *)
Theorem processExpiringSubscriptions_one_step (env : RenewalEnv) (w : World) :
  exists s w' evs,
    run (processExpiringSubscriptions env) w = (s, w') /\
    events_since w w' evs /\
    length (List.filter isRenewalStep (calls evs)) <= 1 /\
    _sessionInitAlreadyRunning w' = _sessionInitAlreadyRunning w /\
    documentListeners w' = documentListeners w /\
    onchange w' = onchange w /\
    forall k, k <> ("Ids", "registrationId") ->
              database w' !! k = database w !! k.
Proof.
  unfold processExpiringSubscriptions.
  autorewrite with run.
  destruct (isSubscriptionExpiring env) as [[|]|e]; cbn [negb];
    autorewrite with run.
  2,3: eexists _, _, _; split; [reflexivity|];
       (split; [apply events_since_intro; world_simpl; history_prefix|]);
       cbn; repeat split; auto.
  destruct (getIntegration env) as [[| |]|e]; autorewrite with run.
  - destruct (subscribe env SubscribeNew) as [raw|e]; autorewrite with run.
    + eexists _, _, _; split; [reflexivity|];
        (split; [apply events_since_intro; world_simpl; history_prefix|]);
        cbn; repeat split; auto.
    + eexists _, _, _; split; [reflexivity|];
        (split; [apply events_since_intro; world_simpl; history_prefix|]);
        cbn; repeat split; auto.
  - destruct (getWindowEnv env) as [|name]; autorewrite with run.
    + rewrite run_AwaitPromise.
      match goal with
      | |- context [match ?o with Some _ => _ | None => _ end] =>
          destruct o
      end; autorewrite with run.
      * eexists _, _, _; split; [reflexivity|];
          (split; [apply events_since_intro; world_simpl; history_prefix|]);
          cbn; repeat split; auto.
      * eexists _, _, _; split; [reflexivity|];
          (split; [apply events_since_intro; world_simpl; history_prefix|]);
          cbn; repeat split; auto.
    + eexists _, _, _; split; [reflexivity|];
        (split; [apply events_since_intro; world_simpl; history_prefix|]);
        cbn; repeat split; auto.
  - eexists _, _, _; split; [reflexivity|];
      (split; [apply events_since_intro; world_simpl; history_prefix|]);
      cbn; repeat split; auto.
    intros k Hk. apply lookup_delete_ne. congruence.
  - eexists _, _, _; split; [reflexivity|];
      (split; [apply events_since_intro; world_simpl; history_prefix|]);
      cbn; repeat split; auto.
Qed.

(** ** The native permission hook, the remaining cases *)

(** X4: [installNativePromptPermissionChangedHook] records that the native
    hook is in use before it asks for the permission status.  When
    [navigator.permissions.query] rejects, the call rejects with that
    error, no handler has been installed, and
    [_usingNativePermissionHook] is [true] all the same. *)
Theorem installHook_query_rejected (env : PermissionEnv)
    (query : nat -> Outcome nat) (e : JsError) (w : World) :
  navigatorPermissions env = Some query ->
  firefox (permBowser env) && version_le (permBowser env) (45 # 1) = false ->
  query (permissionQueries w) = Rejected e ->
  exists w',
    run (installNativePromptPermissionChangedHook env) w
      = (Settled (Rejected e), w') /\
    _usingNativePermissionHook w' = true /\
    onchange w' = onchange w /\
    permissionQueries w' = S (permissionQueries w).
Proof.
  intros Hq Hff Hrej. unfold installNativePromptPermissionChangedHook.
  rewrite Hq, Hff. cbn [negb]. autorewrite with run. world_simpl.
  rewrite Hrej. autorewrite with run.
  eexists. split; [reflexivity|]. repeat split; reflexivity.
Qed.

Lemma installHook_query_rejected_witness :
  exists w',
    run (installNativePromptPermissionChangedHook
           (mkPermissionEnv firefox90
              (Some (fun _ => Rejected (OtherError "not allowed")))))
      freshWorld = (Settled (Rejected (OtherError "not allowed")), w') /\
    _usingNativePermissionHook w' = true /\
    onchange w' = onchange freshWorld /\
    permissionQueries w' = S (permissionQueries freshWorld).
Proof.
  apply (installHook_query_rejected
           (mkPermissionEnv firefox90
              (Some (fun _ => Rejected (OtherError "not allowed"))))
           (fun _ => Rejected (OtherError "not allowed"))
           (OtherError "not allowed") freshWorld); reflexivity.
Defined.

(** X5: starting with the native hook not in use, one call of
    [installNativePromptPermissionChangedHook] puts it in use exactly when
    [navigator.permissions] exists and the browser is not a Firefox whose
    version parses to a number at most 45; a Firefox whose version does
    not parse is treated as supported.  When it is not supported the call
    resolves and leaves the world as it was, history included. *)
Theorem installHook_support (env : PermissionEnv) (w : World) :
  _usingNativePermissionHook w = false ->
  let supported :=
    is_Some (navigatorPermissions env) /\
    ~ (firefox (permBowser env) = true /\
       exists v, version (permBowser env) = Some v /\ (v <= 45 # 1)%Q) in
  exists s w',
    run (installNativePromptPermissionChangedHook env) w = (s, w') /\
    (_usingNativePermissionHook w' = true <-> supported) /\
    (~ supported -> s = Settled (Fulfilled tt) /\ w' = w).
Proof.
  intros Hoff supported. subst supported.
  unfold installNativePromptPermissionChangedHook.
  assert (Hle : version_le (permBowser env) (45 # 1) = true <->
                exists v, version (permBowser env) = Some v /\
                          (v <= 45 # 1)%Q).
  { unfold version_le. destruct (version (permBowser env)) as [v|].
    - rewrite Qle_bool_iff. split; [eauto|]. intros (v' & [= <-] & H). exact H.
    - split; [discriminate|]. intros (v' & [=] & _). }
  destruct (navigatorPermissions env) as [query|].
  - destruct (firefox (permBowser env)) eqn:Hff;
      destruct (version_le (permBowser env) (45 # 1)) eqn:Hv; cbn [andb negb].
    + eexists _, _. split; [reflexivity|]. split.
      * rewrite Hoff. split; [discriminate|].
        intros [_ Hn]. exfalso. apply Hn. split; [reflexivity|].
        apply Hle. reflexivity.
      * auto.
    + autorewrite with run. world_simpl.
      destruct (query (permissionQueries w)); autorewrite with run;
        eexists _, _; (split; [reflexivity|]); world_simpl.
      all: assert (Hs : is_Some (Some query) /\
             ~ (true = true /\
                exists v, version (permBowser env) = Some v /\
                          (v <= 45 # 1)%Q))
          by (split; [eauto|]; intros [_ H]; apply Hle in H; discriminate).
      all: split; [tauto|]; intros Hn; exfalso; apply Hn; exact Hs.
    + autorewrite with run. world_simpl.
      destruct (query (permissionQueries w)); autorewrite with run;
        eexists _, _; (split; [reflexivity|]); world_simpl.
      all: assert (Hs : is_Some (Some query) /\
             ~ (false = true /\
                exists v, version (permBowser env) = Some v /\
                          (v <= 45 # 1)%Q))
          by (split; [eauto|]; intros [H _]; discriminate).
      all: split; [tauto|]; intros Hn; exfalso; apply Hn; exact Hs.
    + autorewrite with run. world_simpl.
      destruct (query (permissionQueries w)); autorewrite with run;
        eexists _, _; (split; [reflexivity|]); world_simpl.
      all: assert (Hs : is_Some (Some query) /\
             ~ (false = true /\
                exists v, version (permBowser env) = Some v /\
                          (v <= 45 # 1)%Q))
          by (split; [eauto|]; intros [H _]; discriminate).
      all: split; [tauto|]; intros Hn; exfalso; apply Hn; exact Hs.
  - eexists _, _. split; [reflexivity|]. split.
    + rewrite Hoff. split; [discriminate|].
      intros [[q Hq] _]. discriminate.
    + auto.
Qed.

Lemma installHook_support_witness :
  let env := mkPermissionEnv
               (mkBowser false false true false false None)
               (Some (fun _ => Fulfilled 0)) in
  exists s w',
    run (installNativePromptPermissionChangedHook env) freshWorld = (s, w') /\
    _usingNativePermissionHook w' = true.
Proof.
  intros env.
  destruct (installHook_support env freshWorld eq_refl)
    as (s & w' & Hrun & Hiff & _).
  exists s, w'. split; [exact Hrun|]. apply Hiff. split; [eauto|].
  intros [_ (v & Hv & _)]. discriminate Hv.
Defined.

(** ** [internalInit], the remaining branches *)

(** X6: when [serviceWorkerManager.updateWorker()] rejects, [internalInit]
    rejects with that error before anything else happens: the page view is
    not counted, [SDK_INITIALIZED] is not emitted, [sessionInit] is not
    called and no listener is left behind. *)
Theorem internalInit_updateWorker_rejected (env : SessionEnv) (w : World)
    (e : JsError) :
  updateWorker env = Rejected e ->
  exists w',
    run (internalInit env) w = (Settled (Rejected e), w') /\
    events_since w w'
      [EvLog Debug "Called internalInit()" [];
       EvCall ServiceWorkerManager_updateWorker] /\
    forget_history w' = forget_history w.
Proof.
  intros Hup. unfold internalInit. autorewrite with run. rewrite Hup.
  eexists. split; [reflexivity|]. split; reflexivity.
Qed.

Lemma internalInit_updateWorker_rejected_witness :
  let env := mkSessionEnv
               (mkAppConfig "app-id" None (mkUserConfig (Some true)))
               firefox90 false false false (Fulfilled tt) (Fulfilled false)
               (Fulfilled tt) (Fulfilled tt)
               (Rejected (OtherError "worker update failed"))
               (Fulfilled false) in
  exists w',
    run (internalInit env) freshWorld
      = (Settled (Rejected (OtherError "worker update failed")), w') /\
    calls (rev (history w')) = [ServiceWorkerManager_updateWorker].
Proof.
  intros env.
  destruct (internalInit_updateWorker_rejected env freshWorld
              (OtherError "worker update failed") eq_refl)
    as (w' & Hrun & Hev & _).
  exists w'. split; [exact Hrun|].
  unfold events_since in Hev. rewrite Hev. reflexivity.
Defined.






(** Two worlds reached from the same one by adding to its history were
    reached by the same actions. *)
Lemma events_since_inj (w w' : World) (evs1 evs2 : list Effect) :
  events_since w w' evs1 -> events_since w w' evs2 -> evs1 = evs2.
Proof.
  unfold events_since. intros H1 H2. rewrite H1 in H2.
  apply app_inv_tail in H2. apply (f_equal (@rev Effect)) in H2.
  rewrite !rev_involutive in H2. exact H2.
Qed.

(** One call of [sessionInit], whatever the latch and the collaborators:
    it settles, it takes at most one prompt step, and it leaves everything
    but the latch, the modal host and the history as it was.  When it
    found the latch idle it took it first, and when it then resolves it
    has emitted [SDK_INITIALIZED] once if [__fromInit] is set and not at
    all otherwise, and the latch is idle again. *)
Lemma sessionInit_summary (env : SessionEnv)
    (opts : option SessionInitOptions) (w : World) :
  exists r w' evs,
    run (sessionInit env opts) w = (Settled r, w') /\
    events_since w w' evs /\
    length (List.filter isPromptStep (calls evs)) <= 1 /\
    _usingNativePermissionHook w' = _usingNativePermissionHook w /\
    database w' = database w /\
    visibilityState w' = visibilityState w /\
    documentListeners w' = documentListeners w /\
    nextListener w' = nextListener w /\
    messengerListeners w' = messengerListeners w /\
    promises w' = promises w /\
    nextPromise w' = nextPromise w /\
    permissionQueries w' = permissionQueries w /\
    onchange w' = onchange w /\
    (_sessionInitAlreadyRunning w = false ->
     (exists rest,
        evs = EvLog Debug "Called sessionInit"
                [ArgOptions (default emptyOptions opts)]
              :: EvLatch true :: rest) /\
     (r = Fulfilled tt ->
      _sessionInitAlreadyRunning w' = false /\
      signals evs =
        if truthy (__fromInit (default emptyOptions opts)) then 1 else 0)).
Proof.
  unfold sessionInit. autorewrite with run. rewrite latch_record.
  destruct (_sessionInitAlreadyRunning w); exec.
  all: repeat match goal with
         | |- context [if ?b then _ else _] => destruct b
         end.
  all: eexists _, _, _; split; [reflexivity|].
  all: split; [apply events_since_intro; world_simpl; history_prefix|].
  all: cbn [rev app calls List.filter isPromptStep length signals].
  all: repeat split; auto; try discriminate; try (eexists; reflexivity).
Qed.

(** X9: past its two early exits and with the document visible,
    [internalInit] is the call [sessionInit({ __fromInit: true })] made
    after the worker update and the page view count: it ends in the state
    and with the result of that call. *)
Theorem internalInit_visible_runs_sessionInit (env : SessionEnv) (w : World) :
  updateWorker env = Fulfilled tt ->
  safari (bowser env) && is_false (autoRegister (userConfig (config env)))
    = false ->
  is_false (autoRegister (userConfig (config env))) &&
    negb (truthy_string (subdomain (config env))) = false ->
  visibilityState w = Visible ->
  run (internalInit env) w =
  run (sessionInit env (Some fromInitOptions))
    (record (EvCall SessionManager_incrementPageViewCount)
       (record (EvCall ServiceWorkerManager_updateWorker)
          (record (EvLog Debug "Called internalInit()" []) w))).
Proof.
  intros Hup Hsafari Hauto Hvis. unfold internalInit.
  autorewrite with run. rewrite Hup. autorewrite with run.
  rewrite Hsafari, Hauto. autorewrite with run. world_simpl.
  rewrite Hvis. rewrite bool_decide_eq_true_2 by reflexivity. cbn [negb].
  unfold await_async. rewrite run_bind.
  destruct (sessionInit_summary env (Some fromInitOptions)
              (record (EvCall SessionManager_incrementPageViewCount)
                 (record (EvCall ServiceWorkerManager_updateWorker)
                    (record (EvLog Debug "Called internalInit()" []) w))))
    as ([[]|e] & w' & evs & Hrun & _); rewrite Hrun; reflexivity.
Qed.

Lemma internalInit_visible_runs_sessionInit_witness :
  let env := securePage chrome65Tablet (Some true) false (Fulfilled tt)
               (Fulfilled false) (Fulfilled tt) in
  calls (rev (history (run (internalInit env) freshWorld).2)) =
    [ServiceWorkerManager_updateWorker;
     SessionManager_incrementPageViewCount;
     OneSignal_internalIsOptedOut;
     Event_trigger SDK_INITIALIZED;
     OneSignal_privateShowHttpPrompt].
Proof.
  intros env.
  rewrite (internalInit_visible_runs_sessionInit env freshWorld
             eq_refl eq_refl eq_refl eq_refl).
  reflexivity.
Defined.

(** Replaces the actions of a hypothesis [events_since w w' evs], where
    [w'] is given by its construction, by their list. *)
Ltac know_events Hev :=
  lazymatch type of Hev with
  | events_since ?w ?w' ?evs =>
      let H := fresh in
      eassert (H : events_since w w' _)
        by (apply events_since_intro; world_simpl; history_prefix);
      rewrite (events_since_inj _ _ _ _ Hev H); clear H
  end.

(** X10: from an idle latch, every [internalInit] that resolves has emitted
    [SDK_INITIALIZED] exactly once, whichever branch it took, unless it
    put the bootstrap off until the document is visible, in which case it
    has not emitted it yet. *)
Theorem internalInit_signals_once (env : SessionEnv) (w w' : World)
    (evs : list Effect) :
  _sessionInitAlreadyRunning w = false ->
  run (internalInit env) w = (Settled (Fulfilled tt), w') ->
  events_since w w' evs ->
  let auto := autoRegister (userConfig (config env)) in
  let deferred :=
    negb (safari (bowser env) && is_false auto) &&
    negb (is_false auto && negb (truthy_string (subdomain (config env)))) &&
    negb (bool_decide (visibilityState w = Visible)) in
  signals evs = if deferred then 0 else 1.
Proof.
  intros Hl Hrun Hev auto deferred. subst auto deferred.
  revert Hrun. unfold internalInit.
  autorewrite with run.
  destruct (updateWorker env) as [[]|e]; [|discriminate].
  autorewrite with run.
  destruct (safari (bowser env) &&
            is_false (autoRegister (userConfig (config env)))) eqn:H1;
    cbn [negb andb]; autorewrite with run.
  { intros [= <-].
    know_events Hev. reflexivity. }
  destruct (is_false (autoRegister (userConfig (config env))) &&
            negb (truthy_string (subdomain (config env)))) eqn:H2;
    cbn [negb andb]; autorewrite with run.
  { destruct (privateIsPushNotificationsEnabled env) as [enabled|e];
      autorewrite with run; [|discriminate].
    destruct (enabled && negb (isUsingSubscriptionWorkaround env));
      autorewrite with run.
    - destruct (registerForPush env) as [[]|e]; [|discriminate].
      intros [= <-].
      know_events Hev. reflexivity.
    - intros [= <-].
      know_events Hev. reflexivity. }
  world_simpl.
  destruct (bool_decide (visibilityState w = Visible)); cbn [negb];
    autorewrite with run.
  - unfold await_async. rewrite run_bind.
    destruct (sessionInit_summary env (Some fromInitOptions)
                (record (EvCall SessionManager_incrementPageViewCount)
                   (record (EvCall ServiceWorkerManager_updateWorker)
                      (record (EvLog Debug "Called internalInit()" []) w))))
      as (r & w2 & evs2 & Hrun2 & Hev2 & _ & _ & _ & _ & _ & _ & _ & _ & _
          & _ & _ & Hidle).
    rewrite Hrun2. destruct r as [[]|e]; autorewrite with run;
      [|discriminate].
    intros [= <-].
    destruct (Hidle Hl) as [_ Hres]. destruct (Hres eq_refl) as [_ Hsig].
    unfold events_since in Hev, Hev2. world_simpl.
    rewrite Hev2 in Hev. 
    change (rev evs2 ++
            EvCall SessionManager_incrementPageViewCount
            :: EvCall ServiceWorkerManager_updateWorker
            :: EvLog Debug "Called internalInit()" [] :: history w)%list
      with (rev evs2 ++
            rev [EvLog Debug "Called internalInit()" [];
                 EvCall ServiceWorkerManager_updateWorker;
                 EvCall SessionManager_incrementPageViewCount] ++
            history w)%list in Hev.
    rewrite app_assoc, <- rev_app_distr in Hev.
    apply app_inv_tail in Hev. apply (f_equal (@rev Effect)) in Hev.
    rewrite !rev_involutive in Hev. subst evs.
    cbn [app signals]. exact Hsig.
  - intros [= <-].
    know_events Hev. reflexivity.
Qed.

Lemma internalInit_signals_once_witness :
  let env := securePage firefox90 (Some true) false (Fulfilled tt)
               (Fulfilled false) (Fulfilled tt) in
  signals (rev (history (run (internalInit env) freshWorld).2)) = 1.
Proof.
  intros env.
  apply (internalInit_signals_once env freshWorld
           (run (internalInit env) freshWorld).2
           (rev (history (run (internalInit env) freshWorld).2))).
  - reflexivity.
  - reflexivity.
  - unfold events_since. rewrite rev_involutive. symmetry. apply app_nil_r.
Defined.

(** ** [sessionInit], path by path *)









(** X15: one call of [sessionInit] takes at most one of its prompt steps
    (loading the modal, showing the HTTP prompt, the native request, the
    silent [setSubscription]), and it changes nothing of the world but the
    latch, the modal host and the history: the database, the listeners,
    the promises and the permission handlers are as before. *)
Theorem sessionInit_one_prompt_step (env : SessionEnv)
    (opts : option SessionInitOptions) (w : World) :
  exists r w' evs,
    run (sessionInit env opts) w = (Settled r, w') /\
    events_since w w' evs /\
    length (List.filter isPromptStep (calls evs)) <= 1 /\
    database w' = database w /\
    documentListeners w' = documentListeners w /\
    messengerListeners w' = messengerListeners w /\
    promises w' = promises w /\
    onchange w' = onchange w /\
    _usingNativePermissionHook w' = _usingNativePermissionHook w.
Proof.
  destruct (sessionInit_summary env opts w)
    as (r & w' & evs & Hrun & Hev & Hone & Hhook & Hdb & _ & Hdoc & _ & Hmsg
        & Hprom & _ & _ & Hon & _).
  exists r, w', evs. repeat split; assumption.
Qed.

(** X16: the latch does not stay shut.  After a call of [sessionInit] that
    took the latch and resolved, the next call takes the latch again and
    runs its own bootstrap instead of returning at once. *)
Theorem sessionInit_latch_reusable (env : SessionEnv)
    (first second : option SessionInitOptions) (w w1 : World) :
  _sessionInitAlreadyRunning w = false ->
  run (sessionInit env first) w = (Settled (Fulfilled tt), w1) ->
  exists r w2 rest,
    run (sessionInit env second) w1 = (Settled r, w2) /\
    events_since w1 w2
      (EvLog Debug "Called sessionInit"
         [ArgOptions (default emptyOptions second)]
       :: EvLatch true :: rest).
Proof.
  intros Hl Hrun.
  destruct (sessionInit_summary env first w)
    as (r1 & w1' & evs1 & Hrun1 & _ & _ & _ & _ & _ & _ & _ & _ & _ & _ & _
        & _ & Hidle).
  rewrite Hrun in Hrun1. injection Hrun1 as <- <-.
  destruct (Hidle Hl) as [_ Hres]. destruct (Hres eq_refl) as [Hl1 _].
  destruct (sessionInit_summary env second w1)
    as (r2 & w2 & evs2 & Hrun2 & Hev2 & _ & _ & _ & _ & _ & _ & _ & _ & _ & _
        & _ & Hidle2).
  destruct (Hidle2 Hl1) as [[rest ->] _].
  exists r2, w2, rest. split; assumption.
Qed.

Lemma sessionInit_latch_reusable_witness :
  let env := securePage firefox90 (Some true) false (Fulfilled tt)
               (Fulfilled false) (Fulfilled tt) in
  exists r w2 rest,
    run (sessionInit env (Some fromInitOptions))
      (run (sessionInit env None) freshWorld).2 = (Settled r, w2) /\
    events_since (run (sessionInit env None) freshWorld).2 w2
      (EvLog Debug "Called sessionInit" [ArgOptions fromInitOptions]
       :: EvLatch true :: rest).
Proof.
  intros env.
  apply (sessionInit_latch_reusable env None (Some fromInitOptions)
           freshWorld (run (sessionInit env None) freshWorld).2);
    reflexivity.
Defined.


(** * The page around the bootstrap *)

Import InitHelperPage.

(** ** Running flows step by step *)

Lemma flow_bind {A B} (m : Flow A) (f : A -> Flow B) pg :
  (m ≫= f) pg =
  match m pg with
  | (Done a, pg') => f a pg'
  | (Failed e, pg') => (Failed e, pg')
  | (Waiting, pg') => (Waiting, pg')
  end.
Proof. reflexivity. Qed.

Lemma flow_ret {A} (a : A) pg : (mret a : Flow A) pg = (Done a, pg).
Proof. reflexivity. Qed.

Lemma flow_ext {A} c (o : Outcome A) pg :
  ext c o pg = (outcomeResult o, note [Ext c] pg).
Proof. reflexivity. Qed.

Lemma flow_extFire c pg : extFire c pg = (Done tt, note [Ext c] pg).
Proof. reflexivity. Qed.

Lemma flow_coreCall {A} c (o : Outcome A) pg :
  coreCall c o pg = (outcomeResult o, note [Core (EvCall c)] pg).
Proof. reflexivity. Qed.

Lemma flow_logF l m a pg :
  logF l m a pg = (Done tt, note [Core (EvLog l m a)] pg).
Proof. reflexivity. Qed.

Lemma flow_update f pg : update f pg = (Done tt, f pg).
Proof. reflexivity. Qed.

Lemma flow_look {A} (f : Page -> Flow A) pg : look f pg = f pg pg.
Proof. reflexivity. Qed.

Lemma flow_tryCatch {A} (m : Flow A) h pg :
  tryCatch m h pg =
  match m pg with
  | (Failed e, pg') => h e pg'
  | r => r
  end.
Proof. reflexivity. Qed.

Lemma flow_databasePutF env store key value pg :
  databasePutF env store key value pg =
  (outcomeResult (databasePut env store key),
   note [Ext (Database_put store key value)] pg).
Proof. reflexivity. Qed.

Create Rewrite HintDb flow.
#[local] Hint Rewrite @flow_bind @flow_ret @flow_ext flow_extFire
  @flow_coreCall flow_logF flow_update @flow_look @flow_tryCatch
  flow_databasePutF : flow.

(** Projections of a page that was built by the setters. *)
Ltac page_simpl :=
  cbn [world _initCalled __doNotShowWelcomeNotification notifyButton
       notifyButtonOptions bellOptions journal set_world set_initCalled
       set_doNotShowWelcomeNotification set_notifyButton
       set_notifyButtonOptions set_bellOptions note outcomeResult
       app fst snd] in *.

Lemma journal_since_intro (pg pg' : Page) (l : list PageEvent) :
  journal pg' = (l ++ journal pg)%list -> journal_since pg pg' (rev l).
Proof. unfold journal_since. rewrite rev_involutive. auto. Qed.

(** Reads the new part off a journal [a :: b :: ... :: journal pg]. *)
Ltac journal_prefix_of t base :=
  lazymatch t with
  | base => constr:(@nil PageEvent)
  | ?x :: ?r => let p := journal_prefix_of r base in constr:(x :: p)
  end.

Ltac journal_prefix :=
  lazymatch goal with
  | |- ?lhs = (?l ++ ?base)%list =>
      let p := journal_prefix_of lhs base in unify l p; reflexivity
  end.

(** Proves [journal_since pg pg' evs] for a page [pg'] given by its
    construction from [pg], also when [evs] is only partly known. *)
Ltac solve_journal_since :=
  lazymatch goal with
  | |- journal_since ?pg ?pg' _ =>
      let H := fresh in
      eassert (H : journal_since pg pg' _)
        by (apply journal_since_intro; page_simpl; journal_prefix);
      cbn [rev app] in H; exact H
  end.

(** ** The guard against a second initialization *)

(** X17: of any number of calls of [errorIfInitAlreadyCalled] on a page
    that was not initialized, the first returns and every later one throws
    [MultipleInitialization]; the page is marked as initialized from the
    first call on and nothing else of it changes. *)
Theorem errorIfInitAlreadyCalled_only_first_passes (n : nat) (pg : Page) :
  _initCalled pg = false ->
  callInitGuard (S n) pg =
  (None :: replicate n (Some MultipleInitialization), set_initCalled true pg).
Proof.
  intros Hfresh.
  assert (Hlater : forall m pg1,
            _initCalled pg1 = true ->
            callInitGuard m pg1 =
            (replicate m (Some MultipleInitialization), pg1)).
  { induction m as [|m IH]; intros pg1 H1; [reflexivity|].
    cbn [callInitGuard]. unfold errorIfInitAlreadyCalled. rewrite H1.
    rewrite (IH pg1 H1). reflexivity. }
  cbn [callInitGuard]. unfold errorIfInitAlreadyCalled. rewrite Hfresh.
  rewrite (Hlater n (set_initCalled true pg) eq_refl). reflexivity.
Qed.

Lemma errorIfInitAlreadyCalled_only_first_passes_witness :
  callInitGuard 3 (freshPage None None) =
  ([None; Some MultipleInitialization; Some MultipleInitialization],
   set_initCalled true (freshPage None None)).
Proof.
  apply (errorIfInitAlreadyCalled_only_first_passes 2 (freshPage None None)).
  reflexivity.
Defined.


(** ** Saving the init options *)

Lemma firstRejection_None (os : list (Outcome unit)) :
  firstRejection os = None <-> Forall (fun o => exists x, o = Fulfilled x) os.
Proof.
  induction os as [|[x|e] os IH]; cbn [firstRejection].
  - split; [constructor | reflexivity].
  - rewrite IH. split.
    + intros H. constructor; [eauto | exact H].
    + intros H. inversion H; assumption.
  - split; [discriminate|]. intros H. inversion H as [|? ? [x Hx] _].
    discriminate Hx.
Qed.

Lemma initOptionWrites_keys (o : InitOptions) :
  (initOptionWrites o).*1 =
  ["persistNotification"; "webhooks.notification.displayed";
   "webhooks.notification.clicked"; "webhooks.notification.dismissed";
   "webhooks.cors"; "notificationClickHandlerMatch";
   "notificationClickHandlerAction"].
Proof. reflexivity. Qed.

Lemma initOptionWrites_NoDup (o : InitOptions) : NoDup (initOptionWrites o).*1.
Proof.
  rewrite initOptionWrites_keys. apply (bool_decide_unpack _). vm_compute.
  exact I.
Qed.

(** X18: [saveInitOptions] always issues the same seven writes to the store
    [Options], one per option key and in the same order, whatever the
    configuration is and even when some of the writes fail; it resolves
    exactly when all seven do, and it changes nothing of the page but the
    journal. *)
Theorem saveInitOptions_issues_all_writes (env : PageEnv) (pg : Page) :
  let writes := initOptionWrites (initOptions env) in
  exists r pg',
    saveInitOptions env pg = (r, pg') /\
    journal_since pg pg'
      ((fun kv => Ext (Database_put "Options" kv.1 kv.2)) <$> writes) /\
    writes.*1 =
      ["persistNotification"; "webhooks.notification.displayed";
       "webhooks.notification.clicked"; "webhooks.notification.dismissed";
       "webhooks.cors"; "notificationClickHandlerMatch";
       "notificationClickHandlerAction"] /\
    (r = Done tt <->
     forall k, k ∈ writes.*1 ->
               exists x, databasePut env "Options" k = Fulfilled x) /\
    forget_journal pg' = forget_journal pg.
Proof.
  intros writes. unfold saveInitOptions, promiseAll. fold writes.
  eexists _, _. split; [reflexivity|]. split; [|split; [|split]].
  - unfold journal_since. page_simpl.
    rewrite <- list_fmap_compose. reflexivity.
  - apply initOptionWrites_keys.
  - rewrite <- list_fmap_compose.
    change ((snd ∘ (fun kv : string * StoredValue =>
                      (Database_put "Options" kv.1 kv.2,
                       databasePut env "Options" kv.1))) <$> writes)
      with ((fun kv : string * StoredValue =>
               databasePut env "Options" kv.1) <$> writes).
    destruct (firstRejection _) as [e|] eqn:Hfirst.
    + split; [discriminate|]. intros Hall. exfalso.
      assert (Hnone : firstRejection
                ((fun kv : string * StoredValue =>
                    databasePut env "Options" kv.1) <$> writes) = None).
      { apply firstRejection_None. apply Forall_fmap, Forall_forall.
        intros kv Hkv. apply Hall. apply list_elem_of_fmap. eauto. }
      congruence.
    + split; [|reflexivity]. intros _ k Hk.
      apply firstRejection_None in Hfirst.
      rewrite Forall_fmap, Forall_forall in Hfirst.
      apply list_elem_of_fmap in Hk as (kv & -> & Hkv).
      apply (Hfirst kv Hkv).
  - reflexivity.
Qed.

(** What is stored is never an empty string: an option that is missing or
    empty is stored as its default. *)
Lemma initOptionWrites_not_empty (o : InitOptions) (k : string)
    (v : StoredValue) :
  (k, v) ∈ initOptionWrites o -> v <> VString "".
Proof.
  unfold initOptionWrites. cbn [app fmap list_fmap].
  rewrite !elem_of_cons, elem_of_nil.
  intros [H|[H|[H|[H|[H|[H|[H|[]]]]]]]]; injection H as -> ->.
  all: repeat match goal with
         | |- context [match ?x with _ => _ end] => destruct x eqn:?
         end; try discriminate.
  all: intros [= ->]; discriminate.
Qed.

Lemma storeAll_list_to_map (ws : list (string * StoredValue)) :
  forall db, NoDup ws.*1 -> storeAll ws db = list_to_map ws ∪ db.
Proof.
  unfold storeAll.
  induction ws as [|[k v] ws IH]; intros db Hnd; cbn [foldl fst snd].
  - cbn. symmetry. apply (left_id ∅ (∪)).
  - cbn [fmap list_fmap fst] in Hnd. apply NoDup_cons in Hnd as [Hk Hnd].
    rewrite (IH _ Hnd). cbn [list_to_map foldr fst snd].
    rewrite <- insert_union_l. symmetry.
    apply insert_union_r. apply not_elem_of_list_to_map_1. exact Hk.
Qed.

(** X19: the seven writes of [saveInitOptions] go to seven different keys,
    so the order in which the database carries them out does not matter:
    in whatever order, each key ends up with the value written for it,
    that value is never an empty string, and no other key of the store
    changes. *)
Theorem saveInitOptions_order_free (o : InitOptions)
    (ws : list (string * StoredValue)) (db : gmap string StoredValue) :
  ws ≡ₚ initOptionWrites o ->
  storeAll ws db = storeAll (initOptionWrites o) db /\
  (forall k v, (k, v) ∈ initOptionWrites o ->
               storeAll ws db !! k = Some v /\ v <> VString "") /\
  (forall k, k ∉ (initOptionWrites o).*1 -> storeAll ws db !! k = db !! k).
Proof.
  intros Hperm.
  pose proof (initOptionWrites_NoDup o) as Hnd.
  assert (Hnd' : NoDup ws.*1) by (rewrite Hperm; exact Hnd).
  rewrite !storeAll_list_to_map by assumption.
  assert (Hmap : (list_to_map ws : gmap string StoredValue)
                 = list_to_map (initOptionWrites o))
    by (apply list_to_map_proper; assumption).
  rewrite Hmap. split; [reflexivity|]. split.
  - intros k v Hkv. split.
    + apply lookup_union_Some_l. apply elem_of_list_to_map; assumption.
    + exact (initOptionWrites_not_empty o k v Hkv).
  - intros k Hk. apply lookup_union_r.
    apply not_elem_of_list_to_map_1. exact Hk.
Qed.

Lemma saveInitOptions_order_free_witness :
  let o := mkInitOptions (Some true)
             (Some (mkWebhooks {[ "notification.clicked" := "https://hook" ]}
                      false))
             (Some "") None in
  storeAll (rev (initOptionWrites o)) ∅ !! "persistNotification"
    = Some (VString "force") /\
  storeAll (rev (initOptionWrites o)) ∅ !! "webhooks.notification.clicked"
    = Some (VString "https://hook") /\
  storeAll (rev (initOptionWrites o)) ∅ !! "notificationClickHandlerMatch"
    = Some (VString "exact").
Proof.
  intros o.
  destruct (saveInitOptions_order_free o (rev (initOptionWrites o)) ∅
              (Permutation_sym (Permutation_rev _)))
    as (_ & Hread & _).
  repeat split; apply Hread; apply (bool_decide_unpack _); vm_compute; exact I.
Defined.


(** ** Saving the state of the page *)

(** X20: the page title that [initSaveState] stores is never empty: it is
    the overriding title when that is a non-empty string, else the title
    of the document when that is non-empty, else ['Notification'].  When
    the app id is obtained and stored, the title is written to
    [Options.pageTitle] right after [Ids.appId]. *)
Theorem initSaveState_title (env : PageEnv) (overriding : option string)
    (pg : Page) (app : string) :
  getAppId env = Fulfilled app ->
  databasePut env "Ids" "appId" = Fulfilled tt ->
  let title := initialPageTitle overriding (documentTitle env) in
  title <> "" /\
  (forall t, overriding = Some t -> t <> "" -> title = t) /\
  (truthy_string overriding = false -> documentTitle env <> "" ->
   title = documentTitle env) /\
  (truthy_string overriding = false -> documentTitle env = "" ->
   title = "Notification") /\
  exists r pg' rest,
    initSaveState env overriding pg = (r, pg') /\
    journal_since pg pg'
      (Ext MainHelper_getAppId
       :: Ext (Database_put "Ids" "appId" (VString app))
       :: Ext (Database_put "Options" "pageTitle" (VString title))
       :: rest).
Proof.
  intros Happ Hids title. subst title. unfold initialPageTitle.
  split; [|split; [|split; [|split]]].
  - destruct overriding as [t|]; cbn [truthy_string default].
    + destruct (String.eqb t "") eqn:Ht; cbn [negb].
      * destruct (String.eqb (documentTitle env) "") eqn:Hd; cbn [negb].
        -- discriminate.
        -- apply String.eqb_neq. exact Hd.
      * apply String.eqb_neq. exact Ht.
    + destruct (String.eqb (documentTitle env) "") eqn:Hd; cbn [negb].
      * discriminate.
      * apply String.eqb_neq. exact Hd.
  - intros t -> Ht. cbn [truthy_string default].
    apply String.eqb_neq in Ht. rewrite Ht. reflexivity.
  - intros -> Hd. apply String.eqb_neq in Hd. rewrite Hd. reflexivity.
  - intros -> ->. reflexivity.
  - unfold initSaveState. autorewrite with flow. rewrite Happ.
    cbn [outcomeResult]. autorewrite with flow. rewrite Hids.
    cbn [outcomeResult]. autorewrite with flow.
    unfold initialPageTitle.
    destruct (databasePut env "Options" "pageTitle") as [[]|e];
      cbn [outcomeResult]; autorewrite with flow.
    + destruct (databasePut env "Options" "emailAuthRequired") as [[]|e];
        cbn [outcomeResult].
      all: eexists _, _, _; split; [reflexivity|].
      all: solve_journal_since.
    + eexists _, _, _; split; [reflexivity|].
      solve_journal_since.
Qed.

Lemma initSaveState_title_witness :
  let env := returningVisitorPage (legacyPage (Fulfilled tt)) "" in
  initialPageTitle None (documentTitle env) = "Notification" /\
  exists r pg' rest,
    initSaveState env None (freshPage None None) = (r, pg') /\
    journal_since (freshPage None None) pg'
      (Ext MainHelper_getAppId
       :: Ext (Database_put "Ids" "appId" (VString "app-id"))
       :: Ext (Database_put "Options" "pageTitle" (VString "Notification"))
       :: rest).
Proof.
  intros env.
  destruct (initSaveState_title env None (freshPage None None) "app-id"
              eq_refl eq_refl) as (_ & _ & _ & Hdefault & Hrun).
  split; [apply Hdefault; reflexivity | exact Hrun].
Defined.


(** ** The first values *)

(** X21: [storeInitialValues] reads all three values before it writes any.
    When one of the reads rejects, the call fails before anything is
    stored; when all three resolve, it stores the opt-out flag in
    [LimitStore], then [isPushEnabled], then [notificationPermission],
    each with the value read.  The page itself is unchanged apart from
    the journal. *)
Theorem storeInitialValues_reads_before_writes (env : PageEnv) (pg : Page) :
  exists r pg' evs,
    storeInitialValues env pg = (r, pg') /\
    journal_since pg pg' evs /\
    forget_journal pg' = forget_journal pg /\
    match privateIsPushNotificationsEnabled (session env),
          privateGetNotificationPermission env,
          internalIsOptedOut (session env) with
    | Fulfilled enabled, Fulfilled perm, Fulfilled opted =>
        List.filter isWrite (pageCalls evs) =
          LimitStore_put "subscription.optedOut" (VBool opted)
          :: Database_put "Options" "isPushEnabled" (VBool enabled)
          :: match databasePut env "Options" "isPushEnabled" with
             | Fulfilled _ =>
                 [Database_put "Options" "notificationPermission"
                    (VPermission perm)]
             | Rejected _ => []
             end
    | _, _, _ =>
        List.filter isWrite (pageCalls evs) = [] /\ exists e, r = Failed e
    end.
Proof.
  unfold storeInitialValues. autorewrite with flow.
  destruct (privateIsPushNotificationsEnabled (session env)) as [enabled|e1];
    cbn [outcomeResult]; autorewrite with flow.
  2: { eexists _, _, _. split; [reflexivity|].
       split; [solve_journal_since|]. split; [reflexivity|].
       split; [reflexivity | eauto]. }
  destruct (privateGetNotificationPermission env) as [perm|e2];
    cbn [outcomeResult]; autorewrite with flow.
  2: { eexists _, _, _. split; [reflexivity|].
       split; [solve_journal_since|]. split; [reflexivity|].
       split; [reflexivity | eauto]. }
  destruct (internalIsOptedOut (session env)) as [opted|e3];
    cbn [outcomeResult]; autorewrite with flow.
  2: { eexists _, _, _. split; [reflexivity|].
       split; [solve_journal_since|]. split; [reflexivity|].
       split; [reflexivity | eauto]. }
  destruct (databasePut env "Options" "isPushEnabled") as [[]|e4];
    cbn [outcomeResult]; autorewrite with flow.
  - eexists _, _, _. split; [reflexivity|].
    split; [solve_journal_since|]. split; reflexivity.
  - eexists _, _, _. split; [reflexivity|].
    split; [solve_journal_since|]. split; reflexivity.
Qed.

(** ** The fetch polyfill *)

(** X22: [polyfillSafariFetch] never fails: it loads the polyfill exactly
    when the browser is Safari and [window.fetch] is undefined, and an
    error of the loader is caught and logged at debug level. *)
Theorem polyfillSafariFetch_never_fails (env : PageEnv) (pg : Page) :
  exists pg' evs,
    polyfillSafariFetch env pg = (Done tt, pg') /\
    journal_since pg pg' evs /\
    pageCalls evs =
      (if safari (bowser (session env)) && negb (fetchDefined env)
       then [DynamicResourceLoader_loadFetchPolyfill] else []) /\
    (forall e, loadFetchPolyfill env = Rejected e ->
               safari (bowser (session env)) && negb (fetchDefined env) = true ->
               Core (EvLog Debug "Error loading fetch polyfill:" [ArgError e])
                 ∈ evs) /\
    forget_journal pg' = forget_journal pg.
Proof.
  unfold polyfillSafariFetch.
  destruct (safari (bowser (session env)) && negb (fetchDefined env)).
  - autorewrite with flow.
    destruct (loadFetchPolyfill env) as [[]|e]; cbn [outcomeResult];
      autorewrite with flow.
    + eexists _, _. split; [reflexivity|].
      split; [solve_journal_since|]. split; [reflexivity|].
      split; [|reflexivity]. intros e [=].
    + eexists _, _. split; [reflexivity|].
      split; [solve_journal_since|]. split; [reflexivity|].
      split; [|reflexivity]. intros e' [= <-] _. set_solver.
  - autorewrite with flow.
    eexists _, _. split; [reflexivity|].
    split; [solve_journal_since|]. split; [reflexivity|].
    split; [|reflexivity]. intros e _ [=].
Qed.

(** ** The session updates *)

(** X23: [sendOnSessionUpdate] is never failed by the update itself: an
    error of [Database.getSubscription] or of [updateUserSession] is
    caught and logged at error level, and the call resolves.  The call
    fails only with the error of [isAlreadyRegisteredWithOneSignal] or of
    [getCurrentNotificationType], and it never waits. *)
Theorem sendOnSessionUpdate_absorbs_update_errors (env : PageEnv) (pg : Page) :
  exists r pg' evs,
    sendOnSessionUpdate env pg = (r, pg') /\
    journal_since pg pg' evs /\
    r <> Waiting /\
    (forall e, r = Failed e ->
       isAlreadyRegisteredWithOneSignal env = Rejected e \/
       getCurrentNotificationType env = Rejected e) /\
    (forall e,
       Ext Database_getSubscription ∈ evs ->
       match getSubscription env, getCurrentNotificationType env with
       | Rejected e', _ => Some e'
       | Fulfilled id, Fulfilled t =>
           match updateUserSession env id (PushDeviceRecord t) with
           | Rejected e' => Some e'
           | Fulfilled _ => None
           end
       | _, _ => None
       end = Some e ->
       r = Done tt /\
       Core (EvLog Error "Failed to update user session." [ArgError e])
         ∈ evs).
Proof.
  unfold sendOnSessionUpdate.
  assert (Hno : forall l : list PageEvent,
             Forall (fun ev => ev <> Ext Database_getSubscription) l ->
             Ext Database_getSubscription ∈ l -> False).
  { intros l Hl Hin. rewrite Forall_forall in Hl. exact (Hl _ Hin eq_refl). }
  destruct (negb (enableOnSession env) &&
            negb (isUsingSubscriptionWorkaround (session env))).
  { autorewrite with flow. eexists _, _, _. split; [reflexivity|].
    split; [solve_journal_since|]. split; [discriminate|].
    split; [discriminate|]. intros e H. exfalso. revert H. apply Hno. constructor. }
  destruct (negb (isFirstPageView env)).
  { autorewrite with flow. eexists _, _, _. split; [reflexivity|].
    split; [solve_journal_since|]. split; [discriminate|].
    split; [discriminate|]. intros e H. exfalso. revert H. apply Hno. constructor. }
  autorewrite with flow.
  destruct (isAlreadyRegisteredWithOneSignal env) as [[|]|e1];
    cbn [outcomeResult negb]; autorewrite with flow.
  2: { eexists _, _, _. split; [reflexivity|].
       split; [solve_journal_since|]. split; [discriminate|].
       split; [discriminate|]. intros e H. exfalso.
       revert H. apply Hno. repeat constructor; discriminate. }
  2: { eexists _, _, _. split; [reflexivity|].
       split; [solve_journal_since|]. split; [discriminate|].
       split; [intros e [= <-]; auto|]. intros e H. exfalso.
       revert H. apply Hno. repeat constructor; discriminate. }
  destruct (getCurrentNotificationType env) as [t|e2];
    cbn [outcomeResult]; autorewrite with flow.
  2: { eexists _, _, _. split; [reflexivity|].
       split; [solve_journal_since|]. split; [discriminate|].
       split; [intros e [= <-]; auto|]. intros e H. exfalso.
       revert H. apply Hno. repeat constructor; discriminate. }
  destruct (isUsingSubscriptionWorkaround (session env) &&
            negb match t with Subscribed => true | _ => false end).
  { autorewrite with flow. eexists _, _, _. split; [reflexivity|].
    split; [solve_journal_since|]. split; [discriminate|].
    split; [discriminate|]. intros e H. exfalso.
    revert H. apply Hno. repeat constructor; discriminate. }
  autorewrite with flow.
  destruct (getSubscription env) as [id|e3]; cbn [outcomeResult];
    autorewrite with flow.
  - destruct (updateUserSession env id (PushDeviceRecord t)) as [[]|e4];
      cbn [outcomeResult]; autorewrite with flow.
    + eexists _, _, _. split; [reflexivity|].
      split; [solve_journal_since|]. split; [discriminate|].
      split; [discriminate|]. intros e _ [=].
    + eexists _, _, _. split; [reflexivity|].
      split; [solve_journal_since|]. split; [discriminate|].
      split; [discriminate|]. intros e _ [= <-].
      split; [reflexivity|]. set_solver.
  - eexists _, _, _. split; [reflexivity|].
    split; [solve_journal_since|]. split; [discriminate|].
    split; [discriminate|]. intros e _ [= <-].
    split; [reflexivity|]. set_solver.
Qed.




(** ** The prompts of the configuration editor *)

(** X25: in [showPromptsFromWebConfigEditor] the opt-out state is read
    only when push is not enabled and the slide-down is set to prompt
    automatically, and the slide-down is shown only when the user has not
    opted out.  Unlike in [sessionInit], the prompt is awaited and nothing
    is caught: when it rejects the call fails with that error and the
    custom link is not initialized. *)
Theorem showPromptsFromWebConfigEditor_prompt_awaited (env : PageEnv)
    (pg : Page) :
  let auto := match promptOptions env with
              | Some o => slidedownAutoPrompt o
              | None => false
              end in
  let reads := privateIsPushNotificationsEnabled (session env) = Fulfilled false
               /\ auto = true in
  exists r pg' evs,
    showPromptsFromWebConfigEditor env pg = (r, pg') /\
    journal_since pg pg' evs /\
    (Core (EvCall OneSignal_internalIsOptedOut) ∈ evs <-> reads) /\
    (Core (EvCall OneSignal_privateShowHttpPrompt) ∈ evs <->
     reads /\ internalIsOptedOut (session env) = Fulfilled false) /\
    (forall e, Core (EvCall OneSignal_privateShowHttpPrompt) ∈ evs ->
               privateShowHttpPrompt (session env) = Rejected e ->
               r = Failed e /\
               forall l, Ext (CustomLink_initialize l) ∉ evs) /\
    (forall l, Ext (CustomLink_initialize l) ∈ evs ->
               exists o, promptOptions env = Some o /\ l = customlink o) /\
    (r = Done tt -> forall o, promptOptions env = Some o ->
                    Ext (CustomLink_initialize (customlink o)) ∈ evs).
Proof.
  intros auto reads. subst reads auto. unfold showPromptsFromWebConfigEditor.
  autorewrite with flow.
  destruct (privateIsPushNotificationsEnabled (session env)) as [[|]|e1];
    cbn [outcomeResult negb andb]; autorewrite with flow;
    destruct (promptOptions env) as [[auto link]|];
    cbn [slidedownAutoPrompt customlink]; try destruct auto;
    autorewrite with flow;
    try (destruct (internalIsOptedOut (session env)) as [[|]|e2];
         cbn [outcomeResult negb]; autorewrite with flow);
    try (destruct (privateShowHttpPrompt (session env)) as [[]|e3];
         cbn [outcomeResult]; autorewrite with flow);
    try (destruct (customLinkInitialize env) as [[]|e4];
         cbn [outcomeResult]; autorewrite with flow);
    (eexists _, _, _; split; [reflexivity|]; split; [solve_journal_since|]);
    rewrite ?elem_of_cons, ?elem_of_nil; repeat split;
    try (intros; rewrite ?elem_of_cons, ?elem_of_nil in *); naive_solver.
Qed.


(** ** The notify button *)

Lemma union_absorbs (button bell : gmap string OptionValue) :
  (button ∪ bell) ∪ button = button ∪ bell.
Proof.
  apply map_eq. intros k. rewrite !lookup_union.
  destruct (button !! k), (bell !! k); reflexivity.
Qed.

Lemma mergeBell_merged (pg : Page) (bell : gmap string OptionValue) :
  bellOptions pg = Some bell ->
  mergeBell pg =
  set_notifyButtonOptions (default ∅ (notifyButtonOptions pg) ∪ bell)
    (set_bellOptions (default ∅ (notifyButtonOptions pg) ∪ bell) pg).
Proof.
  intros Hbell. unfold mergeBell. rewrite Hbell. cbv zeta.
  rewrite union_absorbs. reflexivity.
Qed.

(** What [showNotifyButton] does on a browser page without a bell, once
    the options it works with are known. *)
Lemma showNotifyButton_with (env : PageEnv) (pg : Page) :
  isBrowser env = true ->
  notifyButton pg = None ->
  let pg1 := mergeBell
               (set_notifyButtonOptions (default ∅ (notifyButtonOptions pg))
                  pg) in
  let options := default ∅ (notifyButtonOptions pg1) in
  showNotifyButton env pg =
  match options !! "displayPredicate" with
  | Some (OFunction (Fulfilled (JBool false))) =>
      (Done tt,
       note [Core (EvLog Debug "Notify button display predicate returned false so not showing the notify button." []);
             Ext NotifyButton_displayPredicate] pg1)
  | Some (OFunction (Rejected e)) =>
      (Failed e, note [Ext NotifyButton_displayPredicate] pg1)
  | Some (OFunction (Fulfilled _)) =>
      (Done tt,
       note [Ext (Bell_create options)]
         (set_notifyButton options
            (note [Ext NotifyButton_displayPredicate] pg1)))
  | _ => (Done tt, note [Ext (Bell_create options)]
                     (set_notifyButton options pg1))
  end.
Proof.
  intros Hbrowser Hnone pg1 options. subst options pg1.
  unfold showNotifyButton. rewrite flow_look, Hbrowser, Hnone.
  rewrite bool_decide_eq_false_2 by (intros [? [=]]).
  cbn [andb negb]. rewrite flow_bind, flow_update, flow_bind, flow_update.
  rewrite flow_look.
  set (pg1 := mergeBell _).
  destruct (default ∅ (notifyButtonOptions pg1) !! "displayPredicate")
    as [[b|s|[[|[|]|s]|e]]|]; unfold createBell; autorewrite with flow;
    cbn [outcomeResult]; autorewrite with flow; reflexivity.
Qed.

(** As [solve_journal_since], after rewriting with [Hj]. *)
Ltac solve_journal_since_with Hj :=
  lazymatch goal with
  | |- journal_since ?pg ?pg' _ =>
      let H := fresh in
      eassert (H : journal_since pg pg' _)
        by (apply journal_since_intro; page_simpl; rewrite ?Hj;
            journal_prefix);
      cbn [rev app] in H; exact H
  end.

(** X26: on a browser page without a bell whose configuration has both
    [bell] and [notifyButton], [showNotifyButton] leaves both equal to
    the same merge, in which an option of [notifyButton] wins over the
    option of [bell] with the same name: this holds even when the display
    predicate fails or hides the button.  A bell that is created is made
    from the merged options, so a [displayPredicate] given only under
    [bell] decides as well. *)
Theorem showNotifyButton_merge (env : PageEnv) (pg : Page)
    (bell : gmap string OptionValue) :
  isBrowser env = true ->
  notifyButton pg = None ->
  bellOptions pg = Some bell ->
  let button := default ∅ (notifyButtonOptions pg) in
  exists r pg',
    showNotifyButton env pg = (r, pg') /\
    bellOptions pg' = Some (button ∪ bell) /\
    notifyButtonOptions pg' = Some (button ∪ bell) /\
    (forall k, (button ∪ bell) !! k =
               match button !! k with
               | Some v => Some v
               | None => bell !! k
               end) /\
    (forall options, notifyButton pg' = Some options ->
                     options = button ∪ bell) /\
    (button !! "displayPredicate" = None ->
     bell !! "displayPredicate" = Some (OFunction (Fulfilled (JBool false))) ->
     notifyButton pg' = None).
Proof.
  intros Hbrowser Hnone Hbell button.
  rewrite (showNotifyButton_with env pg Hbrowser Hnone).
  rewrite (mergeBell_merged _ bell) by exact Hbell.
  cbn [notifyButtonOptions set_notifyButtonOptions set_bellOptions
       from_option id].
  fold button.
  assert (Hlook : forall k, (button ∪ bell) !! k =
                            match button !! k with
                            | Some v => Some v
                            | None => bell !! k
                            end).
  { intros k. rewrite lookup_union.
    destruct (button !! k), (bell !! k); reflexivity. }
  destruct ((button ∪ bell) !! "displayPredicate")
    as [[b|s|[[|[|]|s]|e]]|] eqn:Hp;
    (eexists _, _; split; [reflexivity|]); page_simpl;
    repeat split; try reflexivity; try exact Hlook;
    try (intros options [=]; congruence);
    try (intros Hb Hbl; rewrite Hlook, Hb, Hbl in Hp; congruence).
Qed.

Lemma showNotifyButton_merge_witness :
  let env := returningVisitorPage (legacyPage (Fulfilled tt)) "Shop" in
  exists r pg',
    showNotifyButton env bothButtonsPage = (r, pg') /\
    bellOptions pg' = notifyButtonOptions pg' /\
    forall options,
      notifyButton pg' = Some options ->
      options !! "size" = Some (OString "large") /\
      options !! "position" = Some (OString "left").
Proof.
  intros env.
  destruct (showNotifyButton_merge env bothButtonsPage
              {[ "size" := OString "small"; "position" := OString "left" ]}
              eq_refl eq_refl eq_refl)
    as (r & pg' & Hrun & Hbell & Hbutton & Hlook & Hmade & _).
  exists r, pg'. split; [exact Hrun|].
  split; [rewrite Hbell, Hbutton; reflexivity|].
  intros options Hoptions. rewrite (Hmade options Hoptions), !Hlook.
  split; reflexivity.
Defined.

(** X27: [showNotifyButton] creates a bell at most once.  On a page that
    has a bell it does nothing at all; on a browser page without one it
    creates the bell unless the merged options have a function as
    [displayPredicate] that fails or returns exactly [false]; and once a
    call has left a bell, every later call, whatever the environment, is
    a no-op. *)
Theorem showNotifyButton_creates_once (env : PageEnv) (pg : Page) :
  exists r pg' evs,
    showNotifyButton env pg = (r, pg') /\
    journal_since pg pg' evs /\
    (is_Some (notifyButton pg) -> r = Done tt /\ pg' = pg) /\
    (notifyButton pg = None ->
     forall options,
       notifyButton pg' = Some options <->
       notifyButtonOptions pg' = Some options /\
       pageCalls evs =
         match options !! "displayPredicate" with
         | Some (OFunction _) =>
             [NotifyButton_displayPredicate; Bell_create options]
         | _ => [Bell_create options]
         end) /\
    (notifyButton pg = None -> isBrowser env = true ->
     forall options,
       notifyButtonOptions pg' = Some options ->
       (is_Some (notifyButton pg') <->
        forall result,
          options !! "displayPredicate" = Some (OFunction result) ->
          exists v, result = Fulfilled v /\ v <> JBool false)) /\
    (is_Some (notifyButton pg') ->
     forall env2, showNotifyButton env2 pg' = (Done tt, pg')).
Proof.
  assert (Hnoop : forall env2 pg2, is_Some (notifyButton pg2) ->
                    showNotifyButton env2 pg2 = (Done tt, pg2)).
  { intros env2 pg2 Hsome. unfold showNotifyButton. rewrite flow_look.
    rewrite bool_decide_eq_true_2 by exact Hsome.
    rewrite andb_false_r. reflexivity. }
  destruct (notifyButton pg) as [b|] eqn:Hb.
  { rewrite Hnoop by (rewrite Hb; eauto).
    exists (Done tt), pg, []. split; [reflexivity|].
    split; [reflexivity|]. split; [auto|].
    split; [discriminate|]. split; [discriminate|].
    intros _ env2. apply Hnoop. rewrite Hb; eauto. }
  destruct (isBrowser env) eqn:Hbrowser.
  2: { unfold showNotifyButton. rewrite flow_look, Hbrowser. cbn [andb].
       exists (Done tt), pg, []. split; [reflexivity|].
       split; [reflexivity|]. split; [auto|].
       split; [|split; [discriminate|]].
       - intros _ options. rewrite Hb. split; [discriminate|].
         intros [_ Hcalls]. cbn [pageCalls] in Hcalls.
         repeat case_match; discriminate.
       - intros Hs env2. apply Hnoop. exact Hs. }
  rewrite (showNotifyButton_with env pg Hbrowser Hb).
  set (pg1 := mergeBell _).
  assert (Hb1 : notifyButton pg1 = None).
  { subst pg1. unfold mergeBell. cbn [bellOptions set_notifyButtonOptions].
    destruct (bellOptions pg); exact Hb. }
  assert (Hsome1 : is_Some (notifyButtonOptions pg1)).
  { subst pg1. unfold mergeBell. cbn [bellOptions set_notifyButtonOptions].
    destruct (bellOptions pg); cbn [notifyButtonOptions
      set_notifyButtonOptions set_bellOptions]; eauto. }
  assert (Hj1 : journal pg1 = journal pg).
  { subst pg1. unfold mergeBell. cbn [bellOptions set_notifyButtonOptions].
    destruct (bellOptions pg); reflexivity. }
  destruct Hsome1 as [o1 Ho1]. rewrite Ho1. cbn [from_option id].
  clearbody pg1.
  destruct (o1 !! "displayPredicate") as [[b|s|[[|[|]|s]|e]]|] eqn:Hp;
    (eexists _, _, _; split; [reflexivity|];
     split; [solve_journal_since_with Hj1|]);
    page_simpl; rewrite ?Hb1, ?Ho1; cbn [pageCalls];
    (split; [intros [? [=]]|]);
    (split; [|split]).
  all: try (first [intros Hs env2; apply Hnoop; exact Hs | intros [? [=]]]).
  all: try (intros _ options; split;
            [intros Heq|intros [Heq Hcalls]]; simplify_eq;
            rewrite ?Hp in *; first [done | split; done]).
  all: intros _ _ options Heq; simplify_eq; rewrite Hp; split.
  all: first [intros [x Hx] result Hr; simplify_eq;
              try (eexists; split; [reflexivity|discriminate])
             |intros _; eexists; reflexivity
             |intros H; destruct (H _ eq_refl) as (v & Hv & Hne);
              simplify_eq].
Qed.


(** ** The channel to the service worker *)

(** X28: the block of [onSdkInitialized] that brings up the channel to
    the service worker never waits and fails only with the error of
    [isFrameContextInsecure]: an error of [getRegistration] or of
    [establishServiceWorkerChannel] is caught and logged.  The channel is
    asked for exactly when the page has [navigator.serviceWorker], is
    served over [https:], the frame context is not insecure and the
    registration has an active worker. *)
Theorem establishChannelIfActive_absorbs (env : PageEnv) (pg : Page) :
  exists r pg' evs,
    establishChannelIfActive env pg = (r, pg') /\
    journal_since pg pg' evs /\
    forget_journal pg' = forget_journal pg /\
    r <> Waiting /\
    (forall e, r = Failed e -> isFrameContextInsecure env = Rejected e) /\
    (Ext ServiceWorkerManager_establishServiceWorkerChannel ∈ evs <->
     navigatorServiceWorker env = true /\
     locationProtocol env = "https:" /\
     isFrameContextInsecure env = Fulfilled false /\
     exists reg, getRegistration env = Fulfilled (Some reg) /\
                 active reg = true) /\
    (forall e,
       Ext ServiceWorkerManager_getRegistration ∈ evs ->
       getRegistration env = Rejected e \/
       (Ext ServiceWorkerManager_establishServiceWorkerChannel ∈ evs /\
        establishServiceWorkerChannel env = Rejected e) ->
       r = Done tt /\ Core (EvLog Error "" [ArgError e]) ∈ evs).
Proof.
  unfold establishChannelIfActive.
  destruct (navigatorServiceWorker env); cbn [andb].
  2: { autorewrite with flow. eexists _, _, _. split; [reflexivity|].
       split; [solve_journal_since|]. split; [reflexivity|].
       repeat split; try discriminate; intros;
       rewrite ?elem_of_nil in *; naive_solver. }
  destruct (String.eqb (locationProtocol env) "https:") eqn:Hp.
  2: { apply String.eqb_neq in Hp.
       autorewrite with flow. eexists _, _, _. split; [reflexivity|].
       split; [solve_journal_since|]. split; [reflexivity|].
       repeat split; try discriminate; intros;
       rewrite ?elem_of_nil in *; naive_solver. }
  apply String.eqb_eq in Hp. autorewrite with flow.
  destruct (isFrameContextInsecure env) as [[|]|e1]; cbn [outcomeResult negb];
    autorewrite with flow;
    try (destruct (getRegistration env) as [[[[|]]|]|e2];
         cbn [outcomeResult active]; autorewrite with flow);
    try (destruct (establishServiceWorkerChannel env) as [[]|e3];
         cbn [outcomeResult]; autorewrite with flow);
    (eexists _, _, _; split; [reflexivity|]; split; [solve_journal_since|];
     split; [reflexivity|]);
    rewrite ?elem_of_cons, ?elem_of_nil;
    (split; [discriminate|]);
    (split; [intros e [=]; congruence|]);
    (split; [split; [intros H|intros (_ & _ & H1 & reg & H2 & H3)];
             simplify_eq; naive_solver|]);
    intros e H1 H2; rewrite ?elem_of_cons, ?elem_of_nil in *;
    naive_solver.
Qed.

(** ** Steps that do not announce the page *)

Lemma quietly_refl (pg : Page) : quietly pg pg.
Proof. exists []. split; [reflexivity|]. split; [constructor|reflexivity]. Qed.

Lemma quietly_trans (pg1 pg2 pg3 : Page) :
  quietly pg1 pg2 -> quietly pg2 pg3 -> quietly pg1 pg3.
Proof.
  intros (evs1 & Hj1 & Hq1 & Hf1) (evs2 & Hj2 & Hq2 & Hf2).
  exists (evs1 ++ evs2)%list. split; [|split].
  - unfold journal_since in *. rewrite Hj2, Hj1, rev_app_distr, app_assoc.
    reflexivity.
  - apply Forall_app. split; assumption.
  - congruence.
Qed.

Lemma quietly_note (evs : list PageEvent) (pg : Page) :
  Forall (fun ev => isPublicSignal ev = false) evs ->
  quietly pg (note evs pg).
Proof.
  intros Hq. exists (rev evs). split; [|split].
  - unfold journal_since. rewrite rev_involutive. reflexivity.
  - apply Forall_rev. exact Hq.
  - reflexivity.
Qed.

Lemma quiet_ret {A} (a : A) : quiet (mret a : Flow A).
Proof. intros pg. apply quietly_refl. Qed.

Lemma quiet_bind {A B} (m : Flow A) (f : A -> Flow B) :
  quiet m -> (forall a, quiet (f a)) -> quiet (m ≫= f).
Proof.
  intros Hm Hf pg. rewrite flow_bind. specialize (Hm pg).
  destruct (m pg) as [[a|e|] pg1]; cbn [snd] in *; try exact Hm.
  eapply quietly_trans; [exact Hm | apply Hf].
Qed.

Lemma quiet_ext {A} (c : PageCall) (o : Outcome A) : quiet (ext c o).
Proof. intros pg. apply quietly_note. repeat constructor. Qed.

Lemma quiet_extFire (c : PageCall) : quiet (extFire c).
Proof. intros pg. apply quietly_note. repeat constructor. Qed.

Lemma quiet_databasePutF env store key value :
  quiet (databasePutF env store key value).
Proof. apply quiet_ext. Qed.

Lemma quiet_coreCall {A} (c : Collaborator) (o : Outcome A) :
  isPublicSignal (Core (EvCall c)) = false -> quiet (coreCall c o).
Proof. intros Hc pg. apply quietly_note. repeat constructor. exact Hc. Qed.

Lemma quiet_logF l m a : quiet (logF l m a).
Proof. intros pg. apply quietly_note. repeat constructor. Qed.

Lemma quiet_update (f : Page -> Page) :
  (forall pg, journal (f pg) = journal pg /\
              __doNotShowWelcomeNotification (f pg)
                = __doNotShowWelcomeNotification pg) ->
  quiet (update f).
Proof.
  intros Hf pg. destruct (Hf pg) as [Hj Hw]. exists [].
  split; [exact Hj|]. split; [constructor|exact Hw].
Qed.

Lemma quiet_look {A} (f : Page -> Flow A) :
  (forall pg, quiet (f pg)) -> quiet (look f).
Proof. intros Hf pg. apply Hf. Qed.

Lemma quiet_tryCatch {A} (m : Flow A) (h : JsError -> Flow A) :
  quiet m -> (forall e, quiet (h e)) -> quiet (tryCatch m h).
Proof.
  intros Hm Hh pg. rewrite flow_tryCatch. specialize (Hm pg).
  destruct (m pg) as [[a|e|] pg1]; cbn [snd] in *; try exact Hm.
  eapply quietly_trans; [exact Hm | apply Hh].
Qed.

Lemma since_app (new h : list Effect) : since h (new ++ h) = new.
Proof.
  unfold since. rewrite length_app, Nat.add_sub.
  apply take_app_length.
Qed.

Lemma fmap_rev {A B} (f : A -> B) (l : list A) :
  f <$> rev l = rev (f <$> l).
Proof.
  induction l as [|x l IH]; [reflexivity|].
  cbn [rev]. rewrite fmap_app, IH. reflexivity.
Qed.

Lemma quiet_liftProg {A} (p : Prog A) :
  (forall w, exists evs,
      events_since w (run p w).2 evs /\
      Forall (fun e => isPublicSignal (Core e) = false) evs) ->
  quiet (liftProg p).
Proof.
  intros Hp pg. unfold liftProg. specialize (Hp (world pg)).
  destruct (run p (world pg)) as [s w']. cbn [snd] in Hp.
  destruct Hp as (evs & Hev & Hq). unfold events_since in Hev.
  rewrite Hev, since_app.
  assert (Hstep : quietly pg (note (Core <$> rev evs) (set_world w' pg))).
  { exists (Core <$> evs). split; [|split].
    - unfold journal_since. cbn [journal note set_world].
      rewrite fmap_rev. reflexivity.
    - apply Forall_fmap. exact Hq.
    - reflexivity. }
  destruct s as [[a|e]|k|q k]; exact Hstep.
Qed.

(** Takes apart the flows built from the steps above. *)
Ltac quiet_solve :=
  repeat lazymatch goal with
    | |- quiet (mret _) => apply quiet_ret
    | |- quiet (ext _ _) => apply quiet_ext
    | |- quiet (extFire _) => apply quiet_extFire
    | |- quiet (databasePutF _ _ _ _) => apply quiet_databasePutF
    | |- quiet (logF _ _ _) => apply quiet_logF
    | |- quiet (coreCall _ _) => apply quiet_coreCall; reflexivity
    | |- quiet (_ ≫= _) => apply quiet_bind; [|intros ?]
    | |- quiet (tryCatch _ _) => apply quiet_tryCatch; [|intros ?]
    | |- quiet (look _) => apply quiet_look; intros ?
    | |- quiet (if ?b then _ else _) => destruct b
    | |- quiet (match ?x with _ => _ end) => destruct x
    | |- quiet (let _ := _ in _) => cbv zeta
    end.

Lemma quiet_storeInitialValues env : quiet (storeInitialValues env).
Proof. unfold storeInitialValues. quiet_solve. Qed.

Lemma quiet_establishChannelIfActive env : quiet (establishChannelIfActive env).
Proof. unfold establishChannelIfActive. quiet_solve. Qed.

Lemma quiet_showPromptsFromWebConfigEditor env :
  quiet (showPromptsFromWebConfigEditor env).
Proof. unfold showPromptsFromWebConfigEditor. quiet_solve. Qed.

Lemma quiet_sendOnSessionUpdate env : quiet (sendOnSessionUpdate env).
Proof. unfold sendOnSessionUpdate. quiet_solve. Qed.

Lemma quiet_updateEmailSessionCount env : quiet (updateEmailSessionCount env).
Proof. unfold updateEmailSessionCount. quiet_solve. Qed.

Lemma quiet_showNotifyButton env : quiet (showNotifyButton env).
Proof.
  assert (Hcreate : forall o, quiet (createBell o)).
  { intros o. unfold createBell. apply quiet_bind.
    - apply quiet_update. intros pg. split; reflexivity.
    - intros _. apply quiet_extFire. }
  unfold showNotifyButton. apply quiet_look. intros pg0.
  destruct (isBrowser env && negb (bool_decide (is_Some (notifyButton pg0))));
    [|apply quiet_ret].
  apply quiet_bind; [apply quiet_update; intros pg; split; reflexivity|].
  intros _. apply quiet_bind.
  { apply quiet_update. intros pg. unfold mergeBell.
    destruct (bellOptions pg); split; reflexivity. }
  intros _. apply quiet_look. intros pg1. cbv zeta.
  destruct (default ∅ (notifyButtonOptions pg1) !! "displayPredicate")
    as [[b|s|result]|]; try apply Hcreate.
  apply quiet_bind; [apply quiet_ext|].
  intros [|[|]|s]; first [apply Hcreate | apply quiet_logF].
Qed.


(** ** After the initialization *)

(** Neither [processExpiringSubscriptions] nor the installation of the
    permission hook emits the public signal. *)
Lemma processExpiringSubscriptions_history (env : RenewalEnv) (w : World) :
  exists evs,
    events_since w (run (processExpiringSubscriptions env) w).2 evs /\
    Forall (fun e => isPublicSignal (Core e) = false) evs.
Proof.
  unfold processExpiringSubscriptions. autorewrite with run.
  destruct (isSubscriptionExpiring env) as [[|]|e]; cbn [negb];
    autorewrite with run;
    try (destruct (getIntegration env) as [[| |]|e']; autorewrite with run);
    try (destruct (subscribe env SubscribeNew) as [raw|e'];
         autorewrite with run);
    try (destruct (getWindowEnv env) as [|name]; autorewrite with run);
    rewrite ?run_AwaitPromise;
    try match goal with
        | |- context [match ?o with Some _ => _ | None => _ end] =>
            destruct o
        end; autorewrite with run; cbn [snd].
  all: eexists; split;
    [apply events_since_intro; world_simpl; history_prefix
    |cbn [rev app]; repeat constructor].
Qed.

Lemma installHook_history (env : PermissionEnv) (w : World) :
  exists evs,
    events_since w
      (run (installNativePromptPermissionChangedHook env) w).2 evs /\
    Forall (fun e => isPublicSignal (Core e) = false) evs.
Proof.
  unfold installNativePromptPermissionChangedHook.
  destruct (navigatorPermissions env) as [query|].
  - destruct (negb (firefox (permBowser env) &&
                    version_le (permBowser env) (45 # 1))).
    + autorewrite with run. world_simpl.
      destruct (query (permissionQueries w)); autorewrite with run;
        cbn [snd].
      all: eexists; split;
        [apply events_since_intro; world_simpl; history_prefix
        |cbn [rev app]; repeat constructor].
    + autorewrite with run. cbn [snd]. exists []. split;
        [reflexivity|constructor].
  - autorewrite with run. cbn [snd]. exists []. split;
      [reflexivity|constructor].
Qed.

(** How a quiet step followed by something else goes on. *)
Lemma quiet_then {A B} (m : Flow A) (rest : A -> Flow B) (pg : Page) :
  quiet m ->
  exists pg1,
    quietly pg pg1 /\
    ((exists a, (m ≫= rest) pg = rest a pg1) \/
     (exists e, (m ≫= rest) pg = (Failed e, pg1)) \/
     (m ≫= rest) pg = (Waiting, pg1)).
Proof.
  intros Hm. specialize (Hm pg). rewrite flow_bind.
  destruct (m pg) as [[a|e|] pg1]; cbn [snd] in Hm; exists pg1;
    (split; [exact Hm|]); eauto.
Qed.

(** One quiet step of a chain, with what is known of the page so far kept
    in [Q]. *)
Ltac quiet_step Hq Q :=
  lazymatch goal with
  | |- context [(?m ≫= ?rest) ?pg] =>
      let Qn := fresh "Qn" in
      let pg1 := fresh "pg" in
      destruct (quiet_then m rest pg Hq)
        as (pg1 & Qn & [(? & ->)|[(? & ->)| ->]]);
      (let Q' := fresh "Q" in
       pose proof (quietly_trans _ _ _ Q Qn) as Q'; clear Q Qn;
       rename Q' into Q);
      cbv beta
  end.

(** A chain that stopped at a page reached quietly. *)
Ltac stopped_quietly Q :=
  let evs := fresh "evs" in
  let Hj := fresh "Hj" in
  let Hq := fresh "Hq" in
  let Hf := fresh "Hf" in
  destruct Q as (evs & Hj & Hq & Hf);
  eexists _, _, evs; split; [reflexivity|];
  split; [exact Hj|]; split; [exact Hf|];
  split; [discriminate | intros _; exact Hq].

Lemma onSdkInitialized_rest (env : PageEnv) (pg : Page) :
  exists r pg' evs,
    (establishChannelIfActive env ;;
     liftProg (processExpiringSubscriptions (renewal env)) ;;
     showNotifyButton env ;;
     showPromptsFromWebConfigEditor env ;;
     sendOnSessionUpdate env ;;
     updateEmailSessionCount env ;;
     ext CookieSyncer_install (cookieSyncerInstall env) ;;
     coreCall (Event_trigger SDK_INITIALIZED_PUBLIC) (Fulfilled tt)) pg
      = (r, pg') /\
    journal_since pg pg' evs /\
    __doNotShowWelcomeNotification pg' = __doNotShowWelcomeNotification pg /\
    (r = Done tt ->
     exists before, evs = (before ++ [publicSignal])%list /\
                    Forall (fun ev => isPublicSignal ev = false) before) /\
    (r <> Done tt -> Forall (fun ev => isPublicSignal ev = false) evs).
Proof.
  pose proof (quietly_refl pg) as Q.
  quiet_step (quiet_establishChannelIfActive env) Q;
    [|stopped_quietly Q..].
  quiet_step (quiet_liftProg _
                (processExpiringSubscriptions_history (renewal env))) Q;
    [|stopped_quietly Q..].
  quiet_step (quiet_showNotifyButton env) Q; [|stopped_quietly Q..].
  quiet_step (quiet_showPromptsFromWebConfigEditor env) Q;
    [|stopped_quietly Q..].
  quiet_step (quiet_sendOnSessionUpdate env) Q; [|stopped_quietly Q..].
  quiet_step (quiet_updateEmailSessionCount env) Q; [|stopped_quietly Q..].
  quiet_step (@quiet_ext unit CookieSyncer_install (cookieSyncerInstall env)) Q;
    [|stopped_quietly Q..].
  rewrite flow_coreCall. cbn [outcomeResult].
  destruct Q as (evs & Hj & Hq & Hf).
  eexists _, _, (evs ++ [publicSignal])%list.
  split; [reflexivity|]. split; [|split; [exact Hf|split]].
  - unfold journal_since in *. cbn [journal note app].
    rewrite rev_app_distr, Hj. reflexivity.
  - intros _. exists evs. split; [reflexivity|exact Hq].
  - intros H. exfalso. apply H. reflexivity.
Qed.

(** A run that stopped early, given what holds of every such run. *)
Ltac stopped_with Hstop Q :=
  lazymatch goal with
  | |- exists r pg' evs, (?r0, ?p) = (r, pg') /\ _ =>
      let H := fresh in
      destruct (Hstop r0 p ltac:(discriminate) Q) as (? & H);
      eexists _, _, _; split; [reflexivity | exact H]
  end.

(** The whole of [onSdkInitialized]: what its journal looks like and what
    became of the welcome flag. *)
Lemma onSdkInitialized_summary (env : PageEnv) (pg : Page) :
  exists r pg' evs,
    onSdkInitialized env pg = (r, pg') /\
    journal_since pg pg' evs /\
    (r = Done tt ->
     exists before, evs = (before ++ [publicSignal])%list /\
                    Forall (fun ev => isPublicSignal ev = false) before) /\
    (r <> Done tt -> Forall (fun ev => isPublicSignal ev = false) evs) /\
    (__doNotShowWelcomeNotification pg' = __doNotShowWelcomeNotification pg \/
     __doNotShowWelcomeNotification pg' = true /\
     getNotificationPermission env = Fulfilled Granted) /\
    (r = Done tt -> getNotificationPermission env = Fulfilled Granted ->
     __doNotShowWelcomeNotification pg' = true).
Proof.
  assert (Hstop : forall (r : Result unit) pg1,
            r <> Done tt -> quietly pg pg1 ->
            exists evs,
              journal_since pg pg1 evs /\
              (r = Done tt ->
               exists before, evs = (before ++ [publicSignal])%list /\
                 Forall (fun ev => isPublicSignal ev = false) before) /\
              (r <> Done tt ->
               Forall (fun ev => isPublicSignal ev = false) evs) /\
              (__doNotShowWelcomeNotification pg1
                 = __doNotShowWelcomeNotification pg \/
               __doNotShowWelcomeNotification pg1 = true /\
               getNotificationPermission env = Fulfilled Granted) /\
              (r = Done tt ->
               getNotificationPermission env = Fulfilled Granted ->
               __doNotShowWelcomeNotification pg1 = true)).
  { intros r pg1 Hr (evs & Hj & Hq & Hf). exists evs.
    split; [exact Hj|]. split; [intros H; contradiction|].
    split; [intros _; exact Hq|]. split; [left; exact Hf|].
    intros H; contradiction. }
  unfold onSdkInitialized.
  pose proof (quietly_refl pg) as Q.
  quiet_step (quiet_storeInitialValues env) Q.
  2,3: stopped_with Hstop Q.
  quiet_step (quiet_liftProg _ (installHook_history (permission env))) Q.
  2,3: stopped_with Hstop Q.
  rewrite flow_bind, flow_ext.
  pose proof (quietly_trans _ _ _ Q
                (quietly_note
                   [Ext (PermissionManager_getNotificationPermission
                           (safariWebId env))] _
                   ltac:(repeat constructor))) as Q3.
  destruct (getNotificationPermission env) as [np|e] eqn:Hnp;
    cbn [outcomeResult].
  2: stopped_with Hstop Q3.
  rewrite flow_bind.
  destruct Q3 as (evs3 & Hj3 & Hq3 & Hf3).
  destruct np as [|other].
  - rewrite flow_update.
    match goal with
    | |- context [_ (set_doNotShowWelcomeNotification true ?p)] =>
        destruct (onSdkInitialized_rest env
                    (set_doNotShowWelcomeNotification true p))
          as (r & pg' & evs & Hrest & Hj & Hf & Hd & Hn)
    end.
    rewrite Hrest. exists r, pg', (evs3 ++ evs)%list.
    split; [reflexivity|]. split; [|split; [|split; [|split]]].
    + unfold journal_since in *. rewrite Hj. cbn [journal
        set_doNotShowWelcomeNotification]. rewrite Hj3, rev_app_distr,
        app_assoc. reflexivity.
    + intros Hr. destruct (Hd Hr) as (before & -> & Hb).
      exists (evs3 ++ before)%list. split; [apply app_assoc|].
      apply Forall_app. split; assumption.
    + intros Hr. apply Forall_app. split; [exact Hq3|apply Hn, Hr].
    + right. split; [|reflexivity]. rewrite Hf. reflexivity.
    + intros _ _. rewrite Hf. reflexivity.
  - rewrite flow_ret.
    match goal with
    | |- context [_ (note ?l ?p)] =>
        destruct (onSdkInitialized_rest env (note l p))
          as (r & pg' & evs & Hrest & Hj & Hf & Hd & Hn)
    end.
    rewrite Hrest. exists r, pg', (evs3 ++ evs)%list.
    split; [reflexivity|]. split; [|split; [|split; [|split]]].
    + unfold journal_since in *. rewrite Hj, Hj3, rev_app_distr, app_assoc.
      reflexivity.
    + intros Hr. destruct (Hd Hr) as (before & -> & Hb).
      exists (evs3 ++ before)%list. split; [apply app_assoc|].
      apply Forall_app. split; assumption.
    + intros Hr. apply Forall_app. split; [exact Hq3|apply Hn, Hr].
    + left. rewrite Hf. exact Hf3.
    + intros _ [=].
Qed.

(** X29: [onSdkInitialized] announces the page last of all.  In a run that
    returns, [SDK_INITIALIZED_PUBLIC] is the final entry of its journal
    and occurs nowhere before; in a run that fails or is left waiting, in
    whichever of its steps, the signal is not emitted at all. *)
Theorem onSdkInitialized_public_signal_last (env : PageEnv) (pg : Page) :
  exists r pg' evs,
    onSdkInitialized env pg = (r, pg') /\
    journal_since pg pg' evs /\
    (r = Done tt ->
     exists before, evs = (before ++ [publicSignal])%list /\
                    Forall (fun ev => isPublicSignal ev = false) before) /\
    (r <> Done tt -> Forall (fun ev => isPublicSignal ev = false) evs).
Proof.
  destruct (onSdkInitialized_summary env pg)
    as (r & pg' & evs & Hrun & Hj & Hd & Hn & _).
  exists r, pg', evs. auto.
Qed.

(** X30: [onSdkInitialized] never clears
    [__doNotShowWelcomeNotification]; it sets the flag only when the
    permission manager answers [Granted], and every run that returns with
    that answer has set it.  No other step of the method touches the
    flag. *)
Theorem onSdkInitialized_welcome_flag (env : PageEnv) (pg : Page) :
  exists r pg',
    onSdkInitialized env pg = (r, pg') /\
    (__doNotShowWelcomeNotification pg = true ->
     __doNotShowWelcomeNotification pg' = true) /\
    (__doNotShowWelcomeNotification pg' = true ->
     __doNotShowWelcomeNotification pg = true \/
     getNotificationPermission env = Fulfilled Granted) /\
    (r = Done tt ->
     __doNotShowWelcomeNotification pg' =
     __doNotShowWelcomeNotification pg ||
     match getNotificationPermission env with
     | Fulfilled Granted => true
     | _ => false
     end).
Proof.
  destruct (onSdkInitialized_summary env pg)
    as (r & pg' & evs & Hrun & _ & _ & _ & Hflag & Hset).
  exists r, pg'. split; [exact Hrun|]. split; [|split].
  - intros Hon. destruct Hflag as [-> | [-> _]]; [exact Hon|reflexivity].
  - intros Hon. destruct Hflag as [Hsame | [_ Hg]]; [left|right; exact Hg].
    rewrite <- Hsame. exact Hon.
  - intros Hr. destruct (getNotificationPermission env) as [[|other]|e].
    + rewrite (Hset Hr eq_refl), orb_true_r. reflexivity.
    + destruct Hflag as [-> | [_ [=]]]. rewrite orb_false_r. reflexivity.
    + destruct Hflag as [-> | [_ [=]]]. rewrite orb_false_r. reflexivity.
Qed.
